(** * Dynamic configuration reload of the cluster autoscaler

    A shallow embedding of the packages [config/dynamic] and [core]
    (node-group spec parser, config validation, change-detecting config
    fetcher, autoscaler builder, dynamic autoscaler) together with the
    properties stated about them. *)

From Stdlib Require Import ZArith QArith Lia Bool Ascii String List.
From stdpp Require Import base decidable option strings gmap list.

Local Open Scope string_scope.
Local Open Scope Z_scope.

(** ** Go values *)

(** A Go [error] is carried by its message; [None] is the nil error. *)
Definition error := option string.

(** The result of a Go function returning a value (or a pointer to one)
    together with an error, the value being meaningful only when the
    error is nil. *)
Inductive result (A : Type) : Type :=
| Ok (a : A)
| Err (msg : string).
Arguments Ok {A} a.
Arguments Err {A} msg.

Definition isOk {A} (r : result A) : bool :=
  match r with Ok _ => true | Err _ => false end.

(** A Go slice is either nil or a (possibly empty) backing list;
    [reflect.DeepEqual] tells the two apart, [range] and [len] do not. *)
Definition slice (A : Type) := option (list A).

Definition elems {A} (s : slice A) : list A :=
  match s with Some l => l | None => [] end.

(** The 64-bit two's complement range of Go's [int] and [int64]. *)
Definition minInt64 : Z := - 2 ^ 63.
Definition maxInt64 : Z := 2 ^ 63 - 1.

Definition wrap64 (z : Z) : Z := (z + 2 ^ 63) mod 2 ^ 64 - 2 ^ 63.

(** ** Package strings *)

Module strings.

(** [cut sep s] is the text before the first [sep] and, when there is a
    separator, the text after it. *)
Fixpoint cut (sep : ascii) (s : string) : string * option string :=
  match s with
  | EmptyString => (EmptyString, None)
  | String c r =>
      if Ascii.eqb c sep then (EmptyString, Some r)
      else let (h, t) := cut sep r in (String c h, t)
  end.

(** [strings.SplitN(s, sep, n)] for a one-byte separator and [n >= 0]:
    at most [n] pieces, the last one the unsplit remainder. *)
Fixpoint SplitN (sep : ascii) (n : nat) (s : string) : list string :=
  match n with
  | O => []
  | S O => [s]
  | S n' =>
      match cut sep s with
      | (h, None) => [h]
      | (h, Some r) => h :: SplitN sep n' r
      end
  end.

(** [strings.Split(s, sep)] for a one-byte separator. *)
Fixpoint Split (sep : ascii) (s : string) : list string :=
  match s with
  | EmptyString => [EmptyString]
  | String c r =>
      if Ascii.eqb c sep then EmptyString :: Split sep r
      else match Split sep r with
           | h :: t => String c h :: t
           | [] => [String c EmptyString]
           end
  end.

(** [strings.Join(elems, sep)]. *)
Fixpoint Join (l : list string) (sep : string) : string :=
  match l with
  | [] => ""
  | [x] => x
  | x :: r => x +:+ sep +:+ Join r sep
  end.

End strings.

(** ** Package strconv *)

Module strconv.

Inductive NumError := ErrSyntax | ErrRange.

Definition digitVal (c : ascii) : option Z :=
  let n := Z.of_N (N_of_ascii c) in
  if (48 <=? n) && (n <=? 57) then Some (n - 48) else None.

(** Base-10 accumulation of a digit string, left to right. *)
Fixpoint digits (acc : Z) (s : string) : option Z :=
  match s with
  | EmptyString => Some acc
  | String c r =>
      match digitVal c with
      | Some d => digits (10 * acc + d) r
      | None => None
      end
  end.

(** [strconv.ParseInt(s, 10, 64)]: an optional sign, then one or more
    decimal digits.  A malformed text gives [(0, ErrSyntax)], a value
    outside int64 gives the nearest bound and [ErrRange]. *)
Definition ParseInt (s : string) : Z * option NumError :=
  let '(neg, body) :=
    match s with
    | String "-"%char r => (true, r)
    | String "+"%char r => (false, r)
    | _ => (false, s)
    end in
  match body with
  | EmptyString => (0, Some ErrSyntax)
  | _ =>
      match digits 0 body with
      | None => (0, Some ErrSyntax)
      | Some n =>
          if neg then
            if 2 ^ 63 <? n then (minInt64, Some ErrRange) else (- n, None)
          else
            if maxInt64 <? n then (maxInt64, Some ErrRange) else (n, None)
      end
  end.

(** [strconv.Atoi]: [ParseInt(s, 10, 0)] on a 64-bit platform. *)
Definition Atoi (s : string) : Z * option NumError := ParseInt s.

(** [strconv.ParseBool]. *)
Definition ParseBool (s : string) : bool * option NumError :=
  if bool_decide (s ∈ ["1"; "t"; "T"; "TRUE"; "true"; "True"]) then (true, None)
  else if bool_decide (s ∈ ["0"; "f"; "F"; "FALSE"; "false"; "False"]) then (false, None)
  else (false, Some ErrSyntax).

Definition digitChar (d : Z) : ascii := ascii_of_N (Z.to_N (48 + d)).

(** The digit loop of [strconv.FormatInt]: digits are produced from the
    least significant one and prepended to what is already written. *)
Fixpoint formatBits (fuel : nat) (n : Z) (acc : string) : string :=
  match fuel with
  | O => acc
  | S f =>
      let acc' := String (digitChar (n mod 10)) acc in
      if n <? 10 then acc' else formatBits f (n / 10) acc'
  end.

(** [strconv.Itoa], which is also what the verb [%d] of [fmt.Sprintf]
    prints for an [int].  Twenty digits cover every 64-bit value. *)
Definition Itoa (z : Z) : string :=
  if z <? 0 then String "-"%char (formatBits 20 (- z) "")
  else formatBits 20 z "".

End strconv.

(** ** Package config/dynamic *)

Module dynamic.

(** A Go [map[string]string]: nil, or a finite map (possibly empty). *)
Definition gomap := option (gmap string string).

Definition entries (m : gomap) : gmap string string :=
  match m with Some g => g | None => ∅ end.

(** [len(m)] *)
Definition len (m : gomap) : nat := size (entries m).

(** Modelled from the spec: the declaration of [cloudprovider.ScaleDownPolicy]
    is not among the sources.  It is a string type (the tests assign the
    literal ["InvalidPolicy"] to it) with the two constants [Delete] and
    [Deallocate], which print as their names. *)
Definition ScaleDownPolicy := string.
Definition Delete : ScaleDownPolicy := "Delete".
Definition Deallocate : ScaleDownPolicy := "Deallocate".

(** NodeGroupSpec represents a specification of a node group to be
    auto-scaled. *)
Record NodeGroupSpec := mkNodeGroupSpec {
  Name : string;
  MinSize : Z;
  MaxSize : Z;
  Taints : string;
  Labels : gomap;
  ScaleDownPolicyOf : ScaleDownPolicy;
  SupportScaleToZero : bool
}.

(** The zero value [NodeGroupSpec{SupportScaleToZero: z}]. *)
Definition zeroSpec (z : bool) : NodeGroupSpec :=
  {| Name := ""; MinSize := 0; MaxSize := 0; Taints := ""; Labels := None;
     ScaleDownPolicyOf := ""; SupportScaleToZero := z |}.

Definition setMinSize (v : Z) (s : NodeGroupSpec) : NodeGroupSpec :=
  {| Name := Name s; MinSize := v; MaxSize := MaxSize s; Taints := Taints s;
     Labels := Labels s; ScaleDownPolicyOf := ScaleDownPolicyOf s;
     SupportScaleToZero := SupportScaleToZero s |}.

Definition setMaxSize (v : Z) (s : NodeGroupSpec) : NodeGroupSpec :=
  {| Name := Name s; MinSize := MinSize s; MaxSize := v; Taints := Taints s;
     Labels := Labels s; ScaleDownPolicyOf := ScaleDownPolicyOf s;
     SupportScaleToZero := SupportScaleToZero s |}.

Definition setPolicy (v : ScaleDownPolicy) (s : NodeGroupSpec) : NodeGroupSpec :=
  {| Name := Name s; MinSize := MinSize s; MaxSize := MaxSize s; Taints := Taints s;
     Labels := Labels s; ScaleDownPolicyOf := v;
     SupportScaleToZero := SupportScaleToZero s |}.

Definition setName (v : string) (s : NodeGroupSpec) : NodeGroupSpec :=
  {| Name := v; MinSize := MinSize s; MaxSize := MaxSize s; Taints := Taints s;
     Labels := Labels s; ScaleDownPolicyOf := ScaleDownPolicyOf s;
     SupportScaleToZero := SupportScaleToZero s |}.

Definition setLabels (v : gomap) (s : NodeGroupSpec) : NodeGroupSpec :=
  {| Name := Name s; MinSize := MinSize s; MaxSize := MaxSize s; Taints := Taints s;
     Labels := v; ScaleDownPolicyOf := ScaleDownPolicyOf s;
     SupportScaleToZero := SupportScaleToZero s |}.

Definition setTaints (v : string) (s : NodeGroupSpec) : NodeGroupSpec :=
  {| Name := Name s; MinSize := MinSize s; MaxSize := MaxSize s; Taints := v;
     Labels := Labels s; ScaleDownPolicyOf := ScaleDownPolicyOf s;
     SupportScaleToZero := SupportScaleToZero s |}.

(** AutoScalerProfile holds the configurable autoscaler parameters.
    Empty or non-existent indicates letting CA handle the default.  The
    fields are those declared in config.go followed by the further ones
    that [updateAutoScalerProfile] and its test read. *)
Record AutoScalerProfile := mkAutoScalerProfile {
  ScanInterval : string;
  ScaleDownDelayAfterAdd : string;
  ScaleDownDelayAfterDelete : string;
  ScaleDownDelayAfterFailure : string;
  ScaleDownUnneededTime : string;
  ScaleDownUnreadyTime : string;
  ScaleDownUtilizationThreshold : string;
  MaxGracefulTerminationSec : string;
  BalanceSimilarNodeGroups : string;
  Expander : string;
  NewPodScaleUpDelay : string;
  MaxEmptyBulkDelete : string;
  SkipNodesWithLocalStorage : string;
  SkipNodesWithSystemPods : string;
  MaxCloudProviderNodeDeletionTime : string;
  MaxNodeProvisionTime : string;
  EnableGetVmss : string;
  GetVmssSizeRefreshPeriod : string;
  EnableForceDelete : string;
  EnableDetailedCSEMessage : string;
  EnableDynamicInstanceList : string;
  MinCpu : string;
  MaxCpu : string;
  MinMemory : string;
  MaxMemory : string;
  OkTotalUnreadyCount : string;
  MaxTotalUnreadyPercentage : string;
  DaemonSetEvictionForEmptyNodes : string;
  DaemonSetEvictionForOccupiedNodes : string;
  EnableQOSLogging : string
}.

(** The zero value [AutoScalerProfile{}]. *)
Definition zeroProfile : AutoScalerProfile :=
  mkAutoScalerProfile "" "" "" "" "" "" "" "" "" "" "" "" "" "" ""
                      "" "" "" "" "" "" "" "" "" "" "" "" "" "" "".

(** Config holds the dynamic configuration of autoscaler which can be
    refreshed at runtime. *)
Record Config := mkConfig {
  NodeGroups : slice NodeGroupSpec;
  AutoScalerProfileOf : AutoScalerProfile
}.

#[global] Instance NodeGroupSpec_eq_dec : EqDecision NodeGroupSpec.
Proof. solve_decision. Defined.

#[global] Instance AutoScalerProfile_eq_dec : EqDecision AutoScalerProfile.
Proof. solve_decision. Defined.

#[global] Instance Config_eq_dec : EqDecision Config.
Proof. solve_decision. Defined.

(** [reflect.DeepEqual] on two [Config] values: field by field, slices
    element by element with nil distinct from empty, maps key by key with
    nil distinct from empty.  On this representation that is equality. *)
Definition DeepEqual (a b : Config) : bool := bool_decide (a = b).

(** The zero value [Config{}], into which [umarshalConfig] decodes; it is
    what a document without any field, such as [{}], decodes to. *)
Definition configZero : Config :=
  {| NodeGroups := None; AutoScalerProfileOf := zeroProfile |}.

(** NewDefaultConfig returns a default empty config. *)
Definition NewDefaultConfig : Config :=
  {| NodeGroups := Some []; AutoScalerProfileOf := zeroProfile |}.

(** Validate produces an error if there's an invalid field in the node
    group spec. *)
Definition Validate (s : NodeGroupSpec) : error :=
  if (if SupportScaleToZero s then MinSize s <? 0 else MinSize s <=? 0) then
    Some (if SupportScaleToZero s then "min size must be >= 0"
          else "min size must be >= 1")
  else if MaxSize s <? MinSize s then
    Some "max size must be greater or equal to min size"
  else if bool_decide (Name s = "") then
    Some "name must not be blank"
  else None.

(** SpecFromPolicyString parses a node group spec represented in the form
    of [<minSize>:<maxSize>:<policy>:<name>]. *)
Definition SpecFromPolicyString (value : string) (supportScaleToZero : bool)
  : result NodeGroupSpec :=
  match strings.SplitN ":" 4 value with
  | [t0; t1; t2; t3] =>
      let spec := zeroSpec supportScaleToZero in
      match strconv.Atoi t0 with
      | (size, None) =>
          let spec := setMinSize size spec in
          match strconv.Atoi t1 with
          | (size, None) =>
              let spec := setMaxSize size spec in
              if bool_decide (t2 = Delete) || bool_decide (t2 = Deallocate) then
                let spec := setPolicy t2 spec in
                let spec := setName t3 spec in
                match Validate spec with
                | Some err => Err ("invalid node group spec: " +:+ err)
                | None => Ok spec
                end
              else
                Err ("failed to set scale down policy: " +:+ t2
                     +:+ ". Valid values are: Delete, Deallocate")
          | (_, Some _) =>
              Err ("failed to set max size: " +:+ t1 +:+ ", expected integer")
          end
      | (_, Some _) =>
          Err ("failed to set min size: " +:+ t0 +:+ ", expected integer")
      end
  | _ => Err ("wrong nodes configuration: " +:+ value)
  end.

(** SpecFromString parses a node group spec represented in the form of
    [<minSize>:<maxSize>:<name>]. *)
Definition SpecFromString (value : string) (supportScaleToZero : bool)
  : result NodeGroupSpec :=
  match strings.SplitN ":" 3 value with
  | [t0; t1; t2] =>
      let spec := zeroSpec supportScaleToZero in
      match strconv.Atoi t0 with
      | (size, None) =>
          let spec := setMinSize size spec in
          match strconv.Atoi t1 with
          | (size, None) =>
              let spec := setMaxSize size spec in
              let spec := setName t2 spec in
              match Validate spec with
              | Some err => Err ("invalid node group spec: " +:+ err)
              | None => Ok spec
              end
          | (_, Some _) =>
              Err ("failed to set max size: " +:+ t1 +:+ ", expected integer")
          end
      | (_, Some _) =>
          Err ("failed to set min size: " +:+ t0 +:+ ", expected integer")
      end
  | _ => Err ("wrong nodes configuration: " +:+ value)
  end.

(** String represents the node group spec in the form of
    [<minSize>:<maxSize>:<scaleDownPolicy>:<name>]. *)
Definition String_ (s : NodeGroupSpec) : string :=
  strconv.Itoa (MinSize s) +:+ ":" +:+ strconv.Itoa (MaxSize s) +:+ ":"
  +:+ ScaleDownPolicyOf s +:+ ":" +:+ Name s.

Section Codecs.

(** The two functions of [encoding/json] used on label maps:
    [json.Marshal] of a non-nil [map[string]string], and [json.Unmarshal]
    of a text into a nil [map[string]string] variable (which stays nil on
    the document [null]). *)
Variable jsonMarshal : gmap string string -> string.
Variable jsonUnmarshal : string -> result gomap.

(** The YAML-or-JSON decoder of apimachinery applied to the whole text of
    the reader, decoding into the zero [Config]. *)
Variable yamlDecode : string -> result Config.

(** SpecFromStringWithLabelsAndTaints parses a node group spec represented
    in the form of [<minSize>:<maxSize>:<policy>:<name>:<labels>|<string>]. *)
Definition SpecFromStringWithLabelsAndTaints (value : string)
    (supportScaleToZero : bool) : result NodeGroupSpec :=
  let tokens := strings.SplitN ":" 5 value in
  if bool_decide (length tokens = 3%nat) then
    SpecFromString value supportScaleToZero
  else if bool_decide (length tokens < 4)%nat then
    Err ("error while parsing NodeGroupSpec: " +:+ value)
  else
    match SpecFromPolicyString (strings.Join (take 4 tokens) ":")
                               supportScaleToZero with
    | Err err =>
        Err ("error while parsing NodeGroupSpec: " +:+ value +:+ ", " +:+ err)
    | Ok spec =>
        match tokens !! 4%nat with
        | Some t4 =>
            let labelsTaints := strings.Split "|" t4 in
            match jsonUnmarshal (default "" (labelsTaints !! 0%nat)) with
            | Err err =>
                Err ("error while parsing NodeGroupSpec: " +:+ value
                     +:+ " for labels, " +:+ err)
            | Ok labels =>
                let spec := setLabels labels spec in
                match labelsTaints !! 1%nat with
                | Some taints => Ok (setTaints taints spec)
                | None => Ok spec
                end
            end
        | None => Ok spec
        end
    end.

(** StringWithLabelsAndTaints represents the node group spec in the form of
    [<minSize>:<maxSize>:<scaleDownPolicy>:<name>:<labels>|<taints>]. *)
Definition StringWithLabelsAndTaints (s : NodeGroupSpec) : string :=
  let s := if bool_decide (len (Labels s) = 0%nat)
           then setLabels (Some ∅) s else s in
  let labels := jsonMarshal (entries (Labels s)) in
  strconv.Itoa (MinSize s) +:+ ":" +:+ strconv.Itoa (MaxSize s) +:+ ":"
  +:+ ScaleDownPolicyOf s +:+ ":" +:+ Name s +:+ ":" +:+ labels
  +:+ "|" +:+ Taints s.

(** The canonical extended form of the specification:
    [minSize:maxSize:policy:name:labelsJSON|taints], with [{}] for empty
    labels and nothing after the bar when there are no taints. *)
Definition canonicalForm (s : NodeGroupSpec) : string :=
  strconv.Itoa (MinSize s) +:+ ":" +:+ strconv.Itoa (MaxSize s) +:+ ":"
  +:+ ScaleDownPolicyOf s +:+ ":" +:+ Name s +:+ ":"
  +:+ (if bool_decide (entries (Labels s) = ∅) then "{}"
       else jsonMarshal (entries (Labels s)))
  +:+ "|" +:+ Taints s.

(** NodeGroupSpecStrings returns node group specs in the form passed to
    the cloudprovider autoscaling options. *)
Definition NodeGroupSpecStrings (c : Config) : list string :=
  fold_left (fun res spec => (res ++ [StringWithLabelsAndTaints spec])%list)
            (elems (NodeGroups c)) [].

(** The loop of [Config.validate] over the node groups, in order. *)
Fixpoint validateGroups (gs : list NodeGroupSpec) : error :=
  match gs with
  | [] => None
  | g :: rest =>
      if bool_decide (Name g = "") then
        Some "invalid nodeGroup: name must not be blank"
      else if MaxSize g <? MinSize g then
        Some ("invalid nodeGroup: " +:+ Name g
              +:+ ", max size must be greater or equal to min size")
      else validateGroups rest
  end.

Definition validate (c : Config) : error := validateGroups (elems (NodeGroups c)).

(** umarshalConfig decodes the yaml or json reader into a struct. *)
Definition umarshalConfig (reader : string) : result Config := yamlDecode reader.

(** BuildConfig builds a Config object from the mounted path. *)
Definition BuildConfig (reader : string) : result Config :=
  match umarshalConfig reader with
  | Err err => Err ("failed to decode autoscaler config: " +:+ err)
  | Ok config =>
      match validate config with
      | Some err => Err ("error while validating config: " +:+ err)
      | None => Ok config
      end
  end.

(** What the operating system answers during one call of
    [FetchConfigIfUpdated]: the outcome of [os.Open] (the text of the file
    when it succeeds) and the outcome of closing the file. *)
Record FileIO := mkFileIO {
  openResult : result string;
  closeResult : error
}.

Record configFetcher := mkConfigFetcher {
  path : string;
  previousConfiguration : Config
}.

(** NewConfigFetcher builds a config fetcher. *)
Definition NewConfigFetcher (configPath : string) : configFetcher :=
  {| path := configPath; previousConfiguration := NewDefaultConfig |}.

(** FetchConfigIfUpdated returns the config if it has changed and nil if
    it hasn't.  The second component is the fetcher after the call. *)
Definition FetchConfigIfUpdated (cf : configFetcher) (io : FileIO)
  : result (option Config) * configFetcher :=
  match openResult io with
  | Err err => (Err ("failed to open config file: " +:+ err), cf)
  | Ok configFile =>
      match BuildConfig configFile with
      | Err err => (Err ("failed to load dynamic config: " +:+ err), cf)
      | Ok config =>
          match closeResult io with
          | Some err => (Err ("failed to close config file: " +:+ err), cf)
          | None =>
              if DeepEqual (previousConfiguration cf) config then (Ok None, cf)
              else (Ok (Some config),
                    {| path := path cf; previousConfiguration := config |})
          end
      end
  end.

(** A run of the fetcher over successive calls. *)
Fixpoint fetchAll (cf : configFetcher) (ios : list FileIO)
  : list (result (option Config)) * configFetcher :=
  match ios with
  | [] => ([], cf)
  | io :: rest =>
      let (r, cf') := FetchConfigIfUpdated cf io in
      let (rs, cf'') := fetchAll cf' rest in
      (r :: rs, cf'')
  end.

(** A call during which the file is opened, decoded to [c], validated
    and closed without error. *)
Definition readsConfig (io : FileIO) (c : Config) : Prop :=
  exists text, openResult io = Ok text /\ umarshalConfig text = Ok c /\
               validate c = None /\ closeResult io = None.

End Codecs.

(** What the specification says successive successful fetches return:
    nil when the decoded config equals the last accepted baseline,
    otherwise the config, which becomes the baseline. *)
Fixpoint reported (baseline : Config) (cs : list Config) : list (option Config) :=
  match cs with
  | [] => []
  | c :: rest =>
      if bool_decide (c = baseline) then None :: reported baseline rest
      else Some c :: reported c rest
  end.

(** The baseline after those fetches. *)
Fixpoint baselineAfter (baseline : Config) (cs : list Config) : Config :=
  match cs with
  | [] => baseline
  | c :: rest => baselineAfter c rest
  end.

(** What [Config.validate] rejects: a group is in violation when its name
    is blank or its maximum is below its minimum. *)
Definition violates (g : NodeGroupSpec) : bool :=
  bool_decide (Name g = "") || (MaxSize g <? MinSize g).

(** [contains sep s]: the byte [sep] occurs in [s]. *)
Fixpoint contains (sep : ascii) (s : string) : bool :=
  match s with
  | EmptyString => false
  | String c r => Ascii.eqb c sep || contains sep r
  end.

End dynamic.

(** ** Package core *)

Module core.

Import dynamic.

(** [time.Duration]: a signed 64-bit count of nanoseconds. *)
Definition Duration := Z.

(** The process-wide flag set of package [flag], observed through the
    calls [flag.Set(name, value)] made on it, oldest first. *)
Definition flagCalls := list (string * string).

Definition flagSet (name value : string) (flags : flagCalls) : flagCalls :=
  (flags ++ [(name, value)])%list.

Section Options.

(** The type [float64], and the library functions whose sources are
    outside the repository: [strconv.ParseFloat(s, 64)],
    [time.ParseDuration] (both return a value next to the error, which
    the callers below keep while dropping the error) and the constant
    [units.GiB]. *)
Context {float64 : Type}.
Variable ParseFloat : string -> float64 * error.
Variable ParseDuration : string -> Duration * error.
Variable GiB : Z.

(** Modelled from the spec: [config.NodeGroupAutoscalingOptions] is
    declared outside the sources; these are the fields the profile merge
    assigns, typed as the assignments require. *)
Record NodeGroupAutoscalingOptions := mkNodeGroupAutoscalingOptions {
  ScaleDownUnneededTimeOpt : Duration;
  ScaleDownUnreadyTimeOpt : Duration;
  ScaleDownUtilizationThresholdOpt : float64
}.

(** Modelled from the spec: [config.AutoscalingOptions] is declared
    outside the sources; these are the fields that [Build] and
    [updateAutoScalerProfile] read or assign, typed as the code requires. *)
Record AutoscalingOptions := mkAutoscalingOptions {
  NodeGroupsOpt : slice string;
  NodeGroupDefaults : NodeGroupAutoscalingOptions;
  ScaleDownDelayAfterAddOpt : Duration;
  ScaleDownDelayAfterDeleteOpt : Duration;
  ScaleDownDelayAfterFailureOpt : Duration;
  MaxCloudProviderNodeDeletionTimeOpt : Duration;
  MaxNodeProvisionTimeOpt : Duration;
  EnableGetVmssOpt : bool;
  GetVmssSizeRefreshPeriodOpt : Duration;
  EnableForceDeleteOpt : bool;
  EnableDynamicInstanceListOpt : bool;
  MinCoresTotal : Z;
  MaxCoresTotal : Z;
  MinMemoryTotal : Z;
  MaxMemoryTotal : Z;
  MaxGracefulTerminationSecOpt : Z;
  BalanceSimilarNodeGroupsOpt : bool;
  ExpanderNames : string;
  NewPodScaleUpDelayOpt : Duration;
  MaxEmptyBulkDeleteOpt : Z;
  OkTotalUnreadyCountOpt : Z;
  MaxTotalUnreadyPercentageOpt : float64;
  DaemonSetEvictionForEmptyNodesOpt : bool;
  DaemonSetEvictionForOccupiedNodesOpt : bool;
  ConfigNamespace : string;
  GRPCExpanderCert : string;
  GRPCExpanderURL : string
}.

Definition etaDefaults (d : NodeGroupAutoscalingOptions) : NodeGroupAutoscalingOptions :=
  mkNodeGroupAutoscalingOptions
    (ScaleDownUnneededTimeOpt d) (ScaleDownUnreadyTimeOpt d)
    (ScaleDownUtilizationThresholdOpt d).

Definition etaOptions (o : AutoscalingOptions) : AutoscalingOptions :=
  mkAutoscalingOptions
    (NodeGroupsOpt o) (NodeGroupDefaults o) (ScaleDownDelayAfterAddOpt o)
    (ScaleDownDelayAfterDeleteOpt o) (ScaleDownDelayAfterFailureOpt o)
    (MaxCloudProviderNodeDeletionTimeOpt o) (MaxNodeProvisionTimeOpt o)
    (EnableGetVmssOpt o) (GetVmssSizeRefreshPeriodOpt o)
    (EnableForceDeleteOpt o) (EnableDynamicInstanceListOpt o)
    (MinCoresTotal o) (MaxCoresTotal o) (MinMemoryTotal o) (MaxMemoryTotal o)
    (MaxGracefulTerminationSecOpt o) (BalanceSimilarNodeGroupsOpt o)
    (ExpanderNames o) (NewPodScaleUpDelayOpt o) (MaxEmptyBulkDeleteOpt o)
    (OkTotalUnreadyCountOpt o) (MaxTotalUnreadyPercentageOpt o)
    (DaemonSetEvictionForEmptyNodesOpt o)
    (DaemonSetEvictionForOccupiedNodesOpt o)
    (ConfigNamespace o) (GRPCExpanderCert o) (GRPCExpanderURL o).

(** An assignment [o.f = v] rebuilds the struct with field [f] replaced:
    the field is abstracted out of the eta-expansion of [o]. *)
Ltac assign eta proj :=
  let v := fresh "v" in
  let o := fresh "o" in
  intros v o;
  let e := eval cbv beta delta [eta] in (eta o) in
  match eval pattern (proj o) in e with
  | ?F _ => let r := eval cbv beta in (F v) in exact r
  end.

Definition setScaleDownUnneededTime
  : Duration -> NodeGroupAutoscalingOptions -> NodeGroupAutoscalingOptions :=
  ltac:(assign etaDefaults ScaleDownUnneededTimeOpt).
Definition setScaleDownUnreadyTime
  : Duration -> NodeGroupAutoscalingOptions -> NodeGroupAutoscalingOptions :=
  ltac:(assign etaDefaults ScaleDownUnreadyTimeOpt).
Definition setScaleDownUtilizationThreshold
  : float64 -> NodeGroupAutoscalingOptions -> NodeGroupAutoscalingOptions :=
  ltac:(assign etaDefaults ScaleDownUtilizationThresholdOpt).

Definition setNodeGroups : slice string -> AutoscalingOptions -> AutoscalingOptions :=
  ltac:(assign etaOptions NodeGroupsOpt).
Definition setNodeGroupDefaults
  : NodeGroupAutoscalingOptions -> AutoscalingOptions -> AutoscalingOptions :=
  ltac:(assign etaOptions NodeGroupDefaults).
Definition setScaleDownDelayAfterAdd : Duration -> AutoscalingOptions -> AutoscalingOptions :=
  ltac:(assign etaOptions ScaleDownDelayAfterAddOpt).
Definition setScaleDownDelayAfterDelete : Duration -> AutoscalingOptions -> AutoscalingOptions :=
  ltac:(assign etaOptions ScaleDownDelayAfterDeleteOpt).
Definition setScaleDownDelayAfterFailure : Duration -> AutoscalingOptions -> AutoscalingOptions :=
  ltac:(assign etaOptions ScaleDownDelayAfterFailureOpt).
Definition setMaxCloudProviderNodeDeletionTime
  : Duration -> AutoscalingOptions -> AutoscalingOptions :=
  ltac:(assign etaOptions MaxCloudProviderNodeDeletionTimeOpt).
Definition setMaxNodeProvisionTime : Duration -> AutoscalingOptions -> AutoscalingOptions :=
  ltac:(assign etaOptions MaxNodeProvisionTimeOpt).
Definition setEnableGetVmss : bool -> AutoscalingOptions -> AutoscalingOptions :=
  ltac:(assign etaOptions EnableGetVmssOpt).
Definition setGetVmssSizeRefreshPeriod : Duration -> AutoscalingOptions -> AutoscalingOptions :=
  ltac:(assign etaOptions GetVmssSizeRefreshPeriodOpt).
Definition setEnableForceDelete : bool -> AutoscalingOptions -> AutoscalingOptions :=
  ltac:(assign etaOptions EnableForceDeleteOpt).
Definition setEnableDynamicInstanceList : bool -> AutoscalingOptions -> AutoscalingOptions :=
  ltac:(assign etaOptions EnableDynamicInstanceListOpt).
Definition setMinCoresTotal : Z -> AutoscalingOptions -> AutoscalingOptions :=
  ltac:(assign etaOptions MinCoresTotal).
Definition setMaxCoresTotal : Z -> AutoscalingOptions -> AutoscalingOptions :=
  ltac:(assign etaOptions MaxCoresTotal).
Definition setMinMemoryTotal : Z -> AutoscalingOptions -> AutoscalingOptions :=
  ltac:(assign etaOptions MinMemoryTotal).
Definition setMaxMemoryTotal : Z -> AutoscalingOptions -> AutoscalingOptions :=
  ltac:(assign etaOptions MaxMemoryTotal).
Definition setMaxGracefulTerminationSec : Z -> AutoscalingOptions -> AutoscalingOptions :=
  ltac:(assign etaOptions MaxGracefulTerminationSecOpt).
Definition setBalanceSimilarNodeGroups : bool -> AutoscalingOptions -> AutoscalingOptions :=
  ltac:(assign etaOptions BalanceSimilarNodeGroupsOpt).
Definition setExpanderNames : string -> AutoscalingOptions -> AutoscalingOptions :=
  ltac:(assign etaOptions ExpanderNames).
Definition setNewPodScaleUpDelay : Duration -> AutoscalingOptions -> AutoscalingOptions :=
  ltac:(assign etaOptions NewPodScaleUpDelayOpt).
Definition setMaxEmptyBulkDelete : Z -> AutoscalingOptions -> AutoscalingOptions :=
  ltac:(assign etaOptions MaxEmptyBulkDeleteOpt).
Definition setOkTotalUnreadyCount : Z -> AutoscalingOptions -> AutoscalingOptions :=
  ltac:(assign etaOptions OkTotalUnreadyCountOpt).
Definition setMaxTotalUnreadyPercentage : float64 -> AutoscalingOptions -> AutoscalingOptions :=
  ltac:(assign etaOptions MaxTotalUnreadyPercentageOpt).
Definition setDaemonSetEvictionForEmptyNodes : bool -> AutoscalingOptions -> AutoscalingOptions :=
  ltac:(assign etaOptions DaemonSetEvictionForEmptyNodesOpt).
Definition setDaemonSetEvictionForOccupiedNodes
  : bool -> AutoscalingOptions -> AutoscalingOptions :=
  ltac:(assign etaOptions DaemonSetEvictionForOccupiedNodesOpt).

(** [if s != "" { o = f o }] *)
Definition ifSet (s : string) (f : AutoscalingOptions -> AutoscalingOptions)
    (o : AutoscalingOptions) : AutoscalingOptions :=
  if bool_decide (s <> "") then f o else o.

(** The collaborators' types, all declared outside the sources: the
    cloud provider handle, the expander strategy, the autoscaler that is
    built, and the remaining fields of the builder taken together
    (AutoscalingKubeClients, KubeClient, EventsKubeClient,
    InformerFactory, PredicateChecker, ClusterSnapshot, Processors,
    EstimatorBuilder, Backoff, DebuggingSnapshotter, RemainingPdbTracker,
    ScaleUpOrchestrator, DeleteOptions, DrainabilityRules), which no
    method below assigns. *)
Context {CloudProviderT StrategyT AutoscalerT CollaboratorsT : Type}.

(** AutoscalerBuilderImpl wraps the [AutoscalingOptions] given at startup
    and the [dynamic.Config] read on demand from the configmap. *)
Record AutoscalerBuilderImpl := mkAutoscalerBuilderImpl {
  autoscalingOptions : AutoscalingOptions;
  dynamicConfig : option Config;
  CloudProvider : CloudProviderT;
  ExpanderStrategy : StrategyT;
  collaborators : CollaboratorsT
}.

(** SetDynamicConfig sets the fetched dynamic config. *)
Definition SetDynamicConfig (config : Config) (b : AutoscalerBuilderImpl)
  : AutoscalerBuilderImpl :=
  {| autoscalingOptions := autoscalingOptions b;
     dynamicConfig := Some config;
     CloudProvider := CloudProvider b;
     ExpanderStrategy := ExpanderStrategy b;
     collaborators := collaborators b |}.

(** updateAutoScalerProfile updates the options based on the autoscaler
    profile of the builder's dynamic config, statement by statement.  The
    three trailing statements write the process-wide flags instead of the
    options.  [None] is the panic of dereferencing a nil [dynamicConfig]. *)
Definition updateAutoScalerProfile (b : AutoscalerBuilderImpl)
    (autoscalingOptions : AutoscalingOptions) (flags : flagCalls)
  : option (AutoscalingOptions * flagCalls) :=
  c ← dynamicConfig b;
  let autoScalerProfile := AutoScalerProfileOf c in
  let p := autoScalerProfile in
  let o := autoscalingOptions in
  let o := ifSet (ScaleDownDelayAfterAdd p)
             (setScaleDownDelayAfterAdd (fst (ParseDuration (ScaleDownDelayAfterAdd p)))) o in
  let o := ifSet (ScaleDownDelayAfterDelete p)
             (setScaleDownDelayAfterDelete (fst (ParseDuration (ScaleDownDelayAfterDelete p)))) o in
  let o := ifSet (ScaleDownDelayAfterFailure p)
             (setScaleDownDelayAfterFailure (fst (ParseDuration (ScaleDownDelayAfterFailure p)))) o in
  let o := ifSet (ScaleDownUnneededTime p)
             (fun o => setNodeGroupDefaults
                (setScaleDownUnneededTime (fst (ParseDuration (ScaleDownUnneededTime p)))
                   (NodeGroupDefaults o)) o) o in
  let o := ifSet (ScaleDownUnreadyTime p)
             (fun o => setNodeGroupDefaults
                (setScaleDownUnreadyTime (fst (ParseDuration (ScaleDownUnreadyTime p)))
                   (NodeGroupDefaults o)) o) o in
  let o := ifSet (MaxCloudProviderNodeDeletionTime p)
             (setMaxCloudProviderNodeDeletionTime
                (fst (ParseDuration (MaxCloudProviderNodeDeletionTime p)))) o in
  let o := ifSet (MaxNodeProvisionTime p)
             (setMaxNodeProvisionTime (fst (ParseDuration (MaxNodeProvisionTime p)))) o in
  let o := ifSet (EnableGetVmss p)
             (setEnableGetVmss (fst (strconv.ParseBool (EnableGetVmss p)))) o in
  let o := ifSet (GetVmssSizeRefreshPeriod p)
             (setGetVmssSizeRefreshPeriod (fst (ParseDuration (GetVmssSizeRefreshPeriod p)))) o in
  let o := ifSet (EnableForceDelete p)
             (setEnableForceDelete (fst (strconv.ParseBool (EnableForceDelete p)))) o in
  let o := ifSet (EnableDynamicInstanceList p)
             (setEnableDynamicInstanceList
                (fst (strconv.ParseBool (EnableDynamicInstanceList p)))) o in
  let o := ifSet (MinCpu p)
             (setMinCoresTotal (fst (strconv.ParseInt (MinCpu p)))) o in
  let o := ifSet (MaxCpu p)
             (setMaxCoresTotal (fst (strconv.ParseInt (MaxCpu p)))) o in
  let o := ifSet (MinMemory p)
             (setMinMemoryTotal (wrap64 (fst (strconv.ParseInt (MinMemory p)) * GiB))) o in
  let o := ifSet (MaxMemory p)
             (setMaxMemoryTotal (wrap64 (fst (strconv.ParseInt (MaxMemory p)) * GiB))) o in
  let o := ifSet (ScaleDownUtilizationThreshold p)
             (fun o => setNodeGroupDefaults
                (setScaleDownUtilizationThreshold
                   (fst (ParseFloat (ScaleDownUtilizationThreshold p)))
                   (NodeGroupDefaults o)) o) o in
  let o := ifSet (MaxGracefulTerminationSec p)
             (setMaxGracefulTerminationSec
                (fst (strconv.Atoi (MaxGracefulTerminationSec p)))) o in
  let o := ifSet (BalanceSimilarNodeGroups p)
             (setBalanceSimilarNodeGroups
                (fst (strconv.ParseBool (BalanceSimilarNodeGroups p)))) o in
  let o := ifSet (Expander p) (setExpanderNames (Expander p)) o in
  let o := ifSet (NewPodScaleUpDelay p)
             (setNewPodScaleUpDelay (fst (ParseDuration (NewPodScaleUpDelay p)))) o in
  let o := ifSet (MaxEmptyBulkDelete p)
             (setMaxEmptyBulkDelete (fst (strconv.Atoi (MaxEmptyBulkDelete p)))) o in
  let o := ifSet (OkTotalUnreadyCount p)
             (setOkTotalUnreadyCount (fst (strconv.Atoi (OkTotalUnreadyCount p)))) o in
  let o := ifSet (MaxTotalUnreadyPercentage p)
             (setMaxTotalUnreadyPercentage
                (fst (ParseFloat (MaxTotalUnreadyPercentage p)))) o in
  let o := ifSet (DaemonSetEvictionForEmptyNodes p)
             (setDaemonSetEvictionForEmptyNodes
                (fst (strconv.ParseBool (DaemonSetEvictionForEmptyNodes p)))) o in
  let o := ifSet (DaemonSetEvictionForOccupiedNodes p)
             (setDaemonSetEvictionForOccupiedNodes
                (fst (strconv.ParseBool (DaemonSetEvictionForOccupiedNodes p)))) o in
  let flags := if bool_decide (SkipNodesWithLocalStorage p <> "")
               then flagSet "skip-nodes-with-local-storage" (SkipNodesWithLocalStorage p) flags
               else flags in
  let flags := if bool_decide (SkipNodesWithSystemPods p <> "")
               then flagSet "skip-nodes-with-system-pods" (SkipNodesWithSystemPods p) flags
               else flags in
  let flags := if bool_decide (ScanInterval p <> "")
               then flagSet "scan-interval" (ScanInterval p) flags
               else flags in
  Some (o, flags).

(** The profile fields that the merge parses into a typed option field,
    as a table: where the text comes from, which parser reads it, what is
    assigned, and which option field receives it. *)
Inductive ProfileField :=
| FScaleDownDelayAfterAdd | FScaleDownDelayAfterDelete | FScaleDownDelayAfterFailure
| FScaleDownUnneededTime | FScaleDownUnreadyTime
| FMaxCloudProviderNodeDeletionTime | FMaxNodeProvisionTime
| FEnableGetVmss | FGetVmssSizeRefreshPeriod | FEnableForceDelete
| FEnableDynamicInstanceList
| FMinCpu | FMaxCpu | FMinMemory | FMaxMemory
| FScaleDownUtilizationThreshold | FMaxGracefulTerminationSec
| FBalanceSimilarNodeGroups | FNewPodScaleUpDelay | FMaxEmptyBulkDelete
| FOkTotalUnreadyCount | FMaxTotalUnreadyPercentage
| FDaemonSetEvictionForEmptyNodes | FDaemonSetEvictionForOccupiedNodes.

(** A value of one of the native types of the option fields. *)
Inductive Value :=
| VDuration (d : Duration)
| VBool (b : bool)
| VInt (n : Z)
| VInt64 (n : Z)
| VFloat64 (x : float64).

Definition source (f : ProfileField) (p : AutoScalerProfile) : string :=
  match f with
  | FScaleDownDelayAfterAdd => ScaleDownDelayAfterAdd p
  | FScaleDownDelayAfterDelete => ScaleDownDelayAfterDelete p
  | FScaleDownDelayAfterFailure => ScaleDownDelayAfterFailure p
  | FScaleDownUnneededTime => ScaleDownUnneededTime p
  | FScaleDownUnreadyTime => ScaleDownUnreadyTime p
  | FMaxCloudProviderNodeDeletionTime => MaxCloudProviderNodeDeletionTime p
  | FMaxNodeProvisionTime => MaxNodeProvisionTime p
  | FEnableGetVmss => EnableGetVmss p
  | FGetVmssSizeRefreshPeriod => GetVmssSizeRefreshPeriod p
  | FEnableForceDelete => EnableForceDelete p
  | FEnableDynamicInstanceList => EnableDynamicInstanceList p
  | FMinCpu => MinCpu p
  | FMaxCpu => MaxCpu p
  | FMinMemory => MinMemory p
  | FMaxMemory => MaxMemory p
  | FScaleDownUtilizationThreshold => ScaleDownUtilizationThreshold p
  | FMaxGracefulTerminationSec => MaxGracefulTerminationSec p
  | FBalanceSimilarNodeGroups => BalanceSimilarNodeGroups p
  | FNewPodScaleUpDelay => NewPodScaleUpDelay p
  | FMaxEmptyBulkDelete => MaxEmptyBulkDelete p
  | FOkTotalUnreadyCount => OkTotalUnreadyCount p
  | FMaxTotalUnreadyPercentage => MaxTotalUnreadyPercentage p
  | FDaemonSetEvictionForEmptyNodes => DaemonSetEvictionForEmptyNodes p
  | FDaemonSetEvictionForOccupiedNodes => DaemonSetEvictionForOccupiedNodes p
  end.

Definition failed {E : Type} (e : option E) : bool :=
  match e with Some _ => true | None => false end.

(** The parser applied to the text of a field: the value it returns and
    whether it reported an error. *)
Definition parse (f : ProfileField) (s : string) : Value * bool :=
  match f with
  | FScaleDownDelayAfterAdd | FScaleDownDelayAfterDelete
  | FScaleDownDelayAfterFailure | FScaleDownUnneededTime
  | FScaleDownUnreadyTime | FMaxCloudProviderNodeDeletionTime
  | FMaxNodeProvisionTime | FGetVmssSizeRefreshPeriod | FNewPodScaleUpDelay =>
      (VDuration (ParseDuration s).1, failed (ParseDuration s).2)
  | FEnableGetVmss | FEnableForceDelete | FEnableDynamicInstanceList
  | FBalanceSimilarNodeGroups | FDaemonSetEvictionForEmptyNodes
  | FDaemonSetEvictionForOccupiedNodes =>
      (VBool (strconv.ParseBool s).1, failed (strconv.ParseBool s).2)
  | FMinCpu | FMaxCpu | FMinMemory | FMaxMemory =>
      (VInt64 (strconv.ParseInt s).1, failed (strconv.ParseInt s).2)
  | FMaxGracefulTerminationSec | FMaxEmptyBulkDelete | FOkTotalUnreadyCount =>
      (VInt (strconv.Atoi s).1, failed (strconv.Atoi s).2)
  | FScaleDownUtilizationThreshold | FMaxTotalUnreadyPercentage =>
      (VFloat64 (ParseFloat s).1, failed (ParseFloat s).2)
  end.

(** What the statement of a field assigns, given the parsed value: the
    value itself, except for the two memory fields, which scale it. *)
Definition assigned (f : ProfileField) (v : Value) : Value :=
  match f, v with
  | (FMinMemory | FMaxMemory), VInt64 n => VInt64 (wrap64 (n * GiB))
  | _, _ => v
  end.

(** The option field a profile field is merged into. *)
Definition stored (f : ProfileField) (o : AutoscalingOptions) : Value :=
  match f with
  | FScaleDownDelayAfterAdd => VDuration (ScaleDownDelayAfterAddOpt o)
  | FScaleDownDelayAfterDelete => VDuration (ScaleDownDelayAfterDeleteOpt o)
  | FScaleDownDelayAfterFailure => VDuration (ScaleDownDelayAfterFailureOpt o)
  | FScaleDownUnneededTime => VDuration (ScaleDownUnneededTimeOpt (NodeGroupDefaults o))
  | FScaleDownUnreadyTime => VDuration (ScaleDownUnreadyTimeOpt (NodeGroupDefaults o))
  | FMaxCloudProviderNodeDeletionTime => VDuration (MaxCloudProviderNodeDeletionTimeOpt o)
  | FMaxNodeProvisionTime => VDuration (MaxNodeProvisionTimeOpt o)
  | FEnableGetVmss => VBool (EnableGetVmssOpt o)
  | FGetVmssSizeRefreshPeriod => VDuration (GetVmssSizeRefreshPeriodOpt o)
  | FEnableForceDelete => VBool (EnableForceDeleteOpt o)
  | FEnableDynamicInstanceList => VBool (EnableDynamicInstanceListOpt o)
  | FMinCpu => VInt64 (MinCoresTotal o)
  | FMaxCpu => VInt64 (MaxCoresTotal o)
  | FMinMemory => VInt64 (MinMemoryTotal o)
  | FMaxMemory => VInt64 (MaxMemoryTotal o)
  | FScaleDownUtilizationThreshold =>
      VFloat64 (ScaleDownUtilizationThresholdOpt (NodeGroupDefaults o))
  | FMaxGracefulTerminationSec => VInt (MaxGracefulTerminationSecOpt o)
  | FBalanceSimilarNodeGroups => VBool (BalanceSimilarNodeGroupsOpt o)
  | FNewPodScaleUpDelay => VDuration (NewPodScaleUpDelayOpt o)
  | FMaxEmptyBulkDelete => VInt (MaxEmptyBulkDeleteOpt o)
  | FOkTotalUnreadyCount => VInt (OkTotalUnreadyCountOpt o)
  | FMaxTotalUnreadyPercentage => VFloat64 (MaxTotalUnreadyPercentageOpt o)
  | FDaemonSetEvictionForEmptyNodes => VBool (DaemonSetEvictionForEmptyNodesOpt o)
  | FDaemonSetEvictionForOccupiedNodes => VBool (DaemonSetEvictionForOccupiedNodesOpt o)
  end.

(** The collaborators' constructors, all outside the sources:
    [cloudBuilder.NewCloudProvider(options, informerFactory)];
    the expander factory, registered with the cloud provider, the
    clients, and the namespace, certificate and URL of the options, then
    built for a list of expander names; and [NewStaticAutoscaler]. *)
Variable NewCloudProvider : AutoscalingOptions -> CollaboratorsT -> CloudProviderT.
Variable expanderFactoryBuild :
  CloudProviderT -> CollaboratorsT -> string -> string -> string ->
  list string -> result StrategyT.
Variable NewStaticAutoscaler :
  AutoscalingOptions -> CollaboratorsT -> CloudProviderT -> StrategyT -> AutoscalerT.

Variable jsonMarshal : gmap string string -> string.

Definition setCloudProvider (v : CloudProviderT) (b : AutoscalerBuilderImpl)
  : AutoscalerBuilderImpl :=
  {| autoscalingOptions := autoscalingOptions b;
     dynamicConfig := dynamicConfig b;
     CloudProvider := v;
     ExpanderStrategy := ExpanderStrategy b;
     collaborators := collaborators b |}.

Definition setExpanderStrategy (v : StrategyT) (b : AutoscalerBuilderImpl)
  : AutoscalerBuilderImpl :=
  {| autoscalingOptions := autoscalingOptions b;
     dynamicConfig := dynamicConfig b;
     CloudProvider := CloudProvider b;
     ExpanderStrategy := v;
     collaborators := collaborators b |}.

(** Build returns an autoscaler instance.  The result is the pair
    returned by the Go method (the autoscaler and the error), the builder
    after the call and the flag calls made.  Inside the branch guarded by
    [b.dynamicConfig != nil] the dereference in [updateAutoScalerProfile]
    cannot panic, so its [None] case does not arise there. *)
Definition Build (b : AutoscalerBuilderImpl) (flags : flagCalls)
  : (AutoscalerT * error) * AutoscalerBuilderImpl * flagCalls :=
  let options := autoscalingOptions b in
  let '(options, b, flags) :=
    match dynamicConfig b with
    | Some c =>
        let options := setNodeGroups (Some (NodeGroupSpecStrings jsonMarshal c)) options in
        let b := setCloudProvider (NewCloudProvider options (collaborators b)) b in
        let '(options, flags) :=
          default (options, flags) (updateAutoScalerProfile b options flags) in
        let b := setCloudProvider (NewCloudProvider options (collaborators b)) b in
        match expanderFactoryBuild (CloudProvider b) (collaborators b)
                (ConfigNamespace options) (GRPCExpanderCert options)
                (GRPCExpanderURL options)
                (strings.Split "," (ExpanderNames options)) with
        | Ok expanderStrategy => (options, setExpanderStrategy expanderStrategy b, flags)
        | Err _ => (options, b, flags)
        end
    | None => (options, b, flags)
    end in
  ((NewStaticAutoscaler options (collaborators b) (CloudProvider b)
      (ExpanderStrategy b), None), b, flags).

End Options.

(** *** The dynamic autoscaler *)

(** A call either returns, or the process is terminated by [klog.Fatalf]. *)
Inductive outcome (A : Type) :=
| Returned (a : A)
| Fatal (msg : string).
Arguments Returned {A} a.
Arguments Fatal {A} msg.

Section Dynamic.

(** The three interfaces the dynamic autoscaler is written against.  An
    [Autoscaler] is a handle whose calls are recorded in the trace and
    answered by [startResult] and [runOnceResult]; an [AutoscalerBuilder]
    and a [dynamic.ConfigFetcher] are states with their methods. *)
Context {AutoscalerT BuilderT FetcherT TimeT : Type}.
Variable startResult : AutoscalerT -> error.
Variable runOnceResult : AutoscalerT -> TimeT -> error.
Variable builderSetDynamicConfig : Config -> BuilderT -> BuilderT.
Variable builderBuild : BuilderT -> (AutoscalerT * error) * BuilderT.
Variable fetcherFetchConfigIfUpdated : FetcherT -> result (option Config) * FetcherT.

(** What the dynamic autoscaler does to the outside, oldest first. *)
Inductive Event :=
| EvExitCleanUp (a : AutoscalerT)
| EvStart (a : AutoscalerT)
| EvRunOnce (a : AutoscalerT) (currentTime : TimeT)
| EvMetricsLastTime
| EvMetricsDuration
| EvLogError (msg : string).

Definition trace := list Event.

(** DynamicAutoscaler is a wrapper around the Autoscaler type. *)
Record DynamicAutoscaler := mkDynamicAutoscaler {
  autoscaler : AutoscalerT;
  autoscalerBuilder : BuilderT;
  configFetcher : FetcherT
}.

(** NewDynamicAutoscaler builds a DynamicAutoscaler. *)
Definition NewDynamicAutoscaler (builder : BuilderT) (fetcher : FetcherT)
  : result DynamicAutoscaler :=
  match builderBuild builder with
  | ((_, Some err), _) => Err err
  | ((a, None), builder') =>
      Ok {| autoscaler := a; autoscalerBuilder := builder';
            configFetcher := fetcher |}
  end.

(** ExitCleanUp cleans up after this instance of autoscaler. *)
Definition ExitCleanUp (a : DynamicAutoscaler) (tr : trace) : trace :=
  (tr ++ [EvExitCleanUp (autoscaler a)])%list.

(** Reconfigure the dynamic autoscaler if the configmap is updated. *)
Definition Reconfigure (a : DynamicAutoscaler) (tr : trace)
  : outcome error * DynamicAutoscaler * trace :=
  match fetcherFetchConfigIfUpdated (configFetcher a) with
  | (Err err, fetcher') =>
      (Returned (Some ("Failed to fetch updated config: " +:+ err)),
       {| autoscaler := autoscaler a; autoscalerBuilder := autoscalerBuilder a;
          configFetcher := fetcher' |}, tr)
  | (Ok updatedConfig, fetcher') =>
      let a := {| autoscaler := autoscaler a;
                  autoscalerBuilder := autoscalerBuilder a;
                  configFetcher := fetcher' |} in
      match updatedConfig with
      | Some updatedConfig =>
          let tr := ExitCleanUp a tr in
          match builderBuild (builderSetDynamicConfig updatedConfig (autoscalerBuilder a)) with
          | ((_, Some err), builder') =>
              (Returned (Some err),
               {| autoscaler := autoscaler a; autoscalerBuilder := builder';
                  configFetcher := configFetcher a |}, tr)
          | ((newAutoScaler, None), builder') =>
              let a := {| autoscaler := newAutoScaler;
                          autoscalerBuilder := builder';
                          configFetcher := configFetcher a |} in
              let tr := (tr ++ [EvStart (autoscaler a)])%list in
              match startResult (autoscaler a) with
              | Some err =>
                  (Fatal ("Failed to start autoscaler background components: " +:+ err),
                   a, tr)
              | None => (Returned None, a, tr)
              end
          end
      | None => (Returned None, a, tr)
      end
  end.

(** RunOnce represents a single iteration of a dynamic autoscaler inside
    the CA infinite loop. *)
Definition RunOnce (a : DynamicAutoscaler) (currentTime : TimeT) (tr : trace)
  : outcome error * DynamicAutoscaler * trace :=
  let tr := (tr ++ [EvMetricsLastTime])%list in
  match Reconfigure a tr with
  | (Fatal msg, a, tr) => (Fatal msg, a, tr)
  | (Returned err, a, tr) =>
      let tr := match err with
                | Some err => (tr ++ [EvLogError ("Failed to reconfigure : " +:+ err)])%list
                | None => tr
                end in
      let tr := (tr ++ [EvMetricsDuration])%list in
      let tr := (tr ++ [EvRunOnce (autoscaler a) currentTime])%list in
      (Returned (runOnceResult (autoscaler a) currentTime), a, tr)
  end.

End Dynamic.

End core.

(** ** Package cloudprovider/azure: the scale set instance cache *)

Module azure.

Inductive InstanceState :=
| InstanceRunning | InstanceCreating | InstanceDeleting
| InstanceDeallocating | InstanceDeallocated | InstanceFailed.

Record Instance := mkInstance {
  Id : string;
  State : InstanceState
}.

(** The per-node-group cache; times and durations in nanoseconds. *)
Record ScaleSet := mkScaleSet {
  instanceCache : list Instance;
  lastInstanceRefresh : Z;
  instancesRefreshPeriod : Z
}.

(** What the backing list call answers: the instances, a throttling
    error (HTTP 429), or any other error. *)
Inductive ListResult :=
| Listed (vms : list Instance)
| Throttled
| ListFailed (msg : string).

(** Modelled from the spec: [validateInstanceCache] is not among the
    sources (only its test is).  If [now - lastRefresh < refreshPeriod]
    the cache is fresh and nothing happens.  Otherwise the list API is
    called: on a throttling signal [lastRefresh] advances to [now] and
    the cache is left unchanged; on any other error the error is
    propagated and both fields are left unchanged; on success the cache
    is replaced wholesale and [lastRefresh] advances. *)
Definition validateInstanceCache (now : Z) (listCall : ListResult)
    (s : ScaleSet) : error * ScaleSet :=
  if now - lastInstanceRefresh s <? instancesRefreshPeriod s then (None, s)
  else
    match listCall with
    | Throttled =>
        (None, {| instanceCache := instanceCache s;
                  lastInstanceRefresh := now;
                  instancesRefreshPeriod := instancesRefreshPeriod s |})
    | ListFailed msg => (Some msg, s)
    | Listed vms =>
        (None, {| instanceCache := vms;
                  lastInstanceRefresh := now;
                  instancesRefreshPeriod := instancesRefreshPeriod s |})
    end.

End azure.

(** ** Example collaborators

    Small stand-ins for the external libraries, used to run the
    definitions on the inputs of the repository's tests. *)

Module examples.

Import dynamic.

(** [encoding/json] on the label documents the tests use: the empty map
    prints as [{}], and [{}] and [null] are read back as the empty map
    and the nil map.  No other map or document is marshalled or
    unmarshalled below. *)
Definition jsonMarshal (m : gmap string string) : string :=
  if bool_decide (m = ∅) then "{}" else "{...}".

Definition jsonUnmarshal (text : string) : result gomap :=
  if bool_decide (text = "{}") then Ok (Some ∅)
  else if bool_decide (text = "null") then Ok None
  else Err "invalid character".

(** The node groups of TestValidate. *)
Definition group (name : string) (minSize maxSize : Z) (policy : ScaleDownPolicy)
  : NodeGroupSpec :=
  {| Name := name; MinSize := minSize; MaxSize := maxSize; Taints := "";
     Labels := None; ScaleDownPolicyOf := policy; SupportScaleToZero := false |}.

Definition configInvalidPolicy : Config :=
  {| NodeGroups := Some [group "test1" 1 50 "InvalidPolicy"; group "test2" 10 70 ""];
     AutoScalerProfileOf := zeroProfile |}.

Definition configOneGroup : Config :=
  {| NodeGroups := Some [group "aks-nodepool1-24160808-vmss" 1 100 Delete];
     AutoScalerProfileOf := zeroProfile |}.

(** A call in which the file holding [text] opens and closes without error. *)
Definition okIO (text : string) : FileIO :=
  {| openResult := Ok text; closeResult := None |}.

(** The YAML-or-JSON decoder on three documents. *)
Definition yamlDecode (text : string) : result Config :=
  if bool_decide (text = "{}") then Ok configZero
  else if bool_decide (text = "one group") then Ok configOneGroup
  else Err "couldn't get version/kind; json parse error".

(** A profile in which only the named fields are set. *)
Definition profileWith (maxGracefulTerminationSec expander minCpu maxCpu
                        minMemory maxMemory : string) : AutoScalerProfile :=
  {| ScanInterval := ""; ScaleDownDelayAfterAdd := "";
     ScaleDownDelayAfterDelete := ""; ScaleDownDelayAfterFailure := "";
     ScaleDownUnneededTime := ""; ScaleDownUnreadyTime := "";
     ScaleDownUtilizationThreshold := "";
     MaxGracefulTerminationSec := maxGracefulTerminationSec;
     BalanceSimilarNodeGroups := ""; Expander := expander;
     NewPodScaleUpDelay := ""; MaxEmptyBulkDelete := "";
     SkipNodesWithLocalStorage := ""; SkipNodesWithSystemPods := "";
     MaxCloudProviderNodeDeletionTime := ""; MaxNodeProvisionTime := "";
     EnableGetVmss := ""; GetVmssSizeRefreshPeriod := "";
     EnableForceDelete := ""; EnableDetailedCSEMessage := "";
     EnableDynamicInstanceList := "";
     MinCpu := minCpu; MaxCpu := maxCpu;
     MinMemory := minMemory; MaxMemory := maxMemory;
     OkTotalUnreadyCount := ""; MaxTotalUnreadyPercentage := "";
     DaemonSetEvictionForEmptyNodes := "";
     DaemonSetEvictionForOccupiedNodes := ""; EnableQOSLogging := "" |}.

Definition configWith (p : AutoScalerProfile) : Config :=
  {| NodeGroups := Some [group "aks-nodepool1-24160808-vmss" 1 100 Delete];
     AutoScalerProfileOf := p |}.

(** [time.ParseDuration] and [strconv.ParseFloat] on the texts used
    below, with rationals standing for [float64]; [units.GiB]. *)
Definition ParseDuration (s : string) : core.Duration * error :=
  if bool_decide (s = "10s") then (10000000000, None)
  else (0, Some ("time: invalid duration " +:+ s)).

Definition ParseFloat (s : string) : Q * error :=
  if bool_decide (s = "0.5") then (1 # 2, None)
  else (0%Q, Some "invalid syntax").

Definition GiB : Z := 1024 * 1024 * 1024.

(** Startup options: everything zero but the termination grace period
    and the expander. *)
Definition baseOptions : @core.AutoscalingOptions Q :=
  {| core.NodeGroupsOpt := None;
     core.NodeGroupDefaults := core.mkNodeGroupAutoscalingOptions 0 0 0%Q;
     core.ScaleDownDelayAfterAddOpt := 0;
     core.ScaleDownDelayAfterDeleteOpt := 0;
     core.ScaleDownDelayAfterFailureOpt := 0;
     core.MaxCloudProviderNodeDeletionTimeOpt := 0;
     core.MaxNodeProvisionTimeOpt := 0;
     core.EnableGetVmssOpt := false;
     core.GetVmssSizeRefreshPeriodOpt := 0;
     core.EnableForceDeleteOpt := false;
     core.EnableDynamicInstanceListOpt := false;
     core.MinCoresTotal := 0; core.MaxCoresTotal := 0;
     core.MinMemoryTotal := 0; core.MaxMemoryTotal := 0;
     core.MaxGracefulTerminationSecOpt := 600;
     core.BalanceSimilarNodeGroupsOpt := false;
     core.ExpanderNames := "random";
     core.NewPodScaleUpDelayOpt := 0;
     core.MaxEmptyBulkDeleteOpt := 0;
     core.OkTotalUnreadyCountOpt := 0;
     core.MaxTotalUnreadyPercentageOpt := 0%Q;
     core.DaemonSetEvictionForEmptyNodesOpt := false;
     core.DaemonSetEvictionForOccupiedNodesOpt := false;
     core.ConfigNamespace := "kube-system";
     core.GRPCExpanderCert := ""; core.GRPCExpanderURL := "" |}.

(** Collaborators: a cloud provider is known by the node-group strings
    it was built for, an expander strategy by its names, an autoscaler by
    the provider and strategy it is wired to. *)
Definition NewCloudProvider (options : @core.AutoscalingOptions Q) (_ : unit)
  : list string := elems (core.NodeGroupsOpt options).

Definition expanderFactoryBuild (_ : list string) (_ : unit)
    (_ _ _ : string) (names : list string) : result (list string) :=
  if forallb (fun n => bool_decide (n ∈ ["random"; "most-pods"; "least-waste";
                                        "price"; "priority"; "grpc"])) names
  then Ok names
  else Err "Expander not supported".

Definition NewStaticAutoscaler (_ : @core.AutoscalingOptions Q) (_ : unit)
    (cloudProvider : list string) (strategy : list string)
  : list string * list string := (cloudProvider, strategy).

Definition builderWith (p : AutoScalerProfile)
  : @core.AutoscalerBuilderImpl Q (list string) (list string) unit :=
  {| core.autoscalingOptions := baseOptions;
     core.dynamicConfig := Some (configWith p);
     core.CloudProvider := [];
     core.ExpanderStrategy := ["random"];
     core.collaborators := tt |}.

(** A dynamic autoscaler's surroundings: autoscalers that start and run
    without error, a builder whose [Build] always fails, and the config
    fetcher of package dynamic together with the answers the operating
    system will give to its next calls. *)
Definition startResult (_ : list string * list string) : error := None.

Definition runOnceResult (_ : list string * list string) (_ : Z) : error := None.

Definition failingSetDynamicConfig (config : Config) (_ : option Config)
  : option Config := Some config.

Definition failingBuild (b : option Config)
  : ((list string * list string) * error) * option Config :=
  ((([], []), Some "failed to create autoscaler"), b).

Definition scriptedFetch (f : configFetcher * list FileIO)
  : result (option Config) * (configFetcher * list FileIO) :=
  match f with
  | (cf, []) => (Err "failed to open config file: no such file", (cf, []))
  | (cf, io :: rest) =>
      let (r, cf') := FetchConfigIfUpdated yamlDecode cf io in (r, (cf', rest))
  end.

Definition runningStatic : list string * list string := (["1:10:pool"], ["random"]).

Definition dynamicWithFailingBuilder
  : @core.DynamicAutoscaler (list string * list string) (option Config)
      (configFetcher * list FileIO) :=
  {| core.autoscaler := runningStatic;
     core.autoscalerBuilder := None;
     core.configFetcher :=
       (NewConfigFetcher "/etc/autoscaler/config", [okIO "one group"]) |}.

End examples.

(** ** Further definitions *)

(** *** Runs of the config fetcher *)

Module fetch_runs.

Import dynamic.

Section WithDecoder.

Variable yamlDecode : string -> result Config.

(** Whether a call with these answers of the operating system gets past
    the three error returns of [FetchConfigIfUpdated]. *)
Definition succeeds (io : FileIO) : bool :=
  match openResult io with
  | Err _ => false
  | Ok text => isOk (BuildConfig yamlDecode text)
               && bool_decide (closeResult io = None)
  end.

End WithDecoder.

(** The last config among the results of some calls, or [start] when no
    call returned one. *)
Definition lastReported (start : Config) (rs : list (result (option Config)))
  : Config :=
  fold_left (fun acc r => match r with Ok (Some c) => c | _ => acc end) rs start.

(** The bounds of [NodeGroupSpec.Validate], spelled out. *)
Definition wellSized (s : NodeGroupSpec) : Prop :=
  (if SupportScaleToZero s then 0 <= MinSize s else 1 <= MinSize s) /\
  MinSize s <= MaxSize s /\ Name s <> "".

End fetch_runs.

(** *** The builder and the fetcher behind the dynamic autoscaler's interfaces *)

Module wiring.

Import dynamic core.

(** The [flag.Set] calls of one profile merge, in the order the merge
    makes them: one for each of the three fields that is not empty. *)
Definition flagWrites (p : AutoScalerProfile) : flagCalls :=
  List.filter (fun nv => negb (String.eqb nv.2 ""))
    [("skip-nodes-with-local-storage", SkipNodesWithLocalStorage p);
     ("skip-nodes-with-system-pods", SkipNodesWithSystemPods p);
     ("scan-interval", ScanInterval p)].

Section Wiring.

Context {float64 CloudProviderT StrategyT AutoscalerT CollaboratorsT : Type}.
Variable ParseFloat : string -> float64 * error.
Variable ParseDuration : string -> Duration * error.
Variable GiB : Z.
Variable NewCloudProvider : @AutoscalingOptions float64 -> CollaboratorsT -> CloudProviderT.
Variable expanderFactoryBuild :
  CloudProviderT -> CollaboratorsT -> string -> string -> string ->
  list string -> result StrategyT.
Variable NewStaticAutoscaler :
  @AutoscalingOptions float64 -> CollaboratorsT -> CloudProviderT -> StrategyT ->
  AutoscalerT.
Variable jsonMarshal : gmap string string -> string.
Variable yamlDecode : string -> result Config.

(** What the operating system answers to the n-th call of the fetcher. *)
Variable os : nat -> FileIO.

(** [*AutoscalerBuilderImpl] as an [AutoscalerBuilder]: the builder
    together with the process-wide flags its [Build] writes. *)
Definition BuilderState : Type :=
  @AutoscalerBuilderImpl float64 CloudProviderT StrategyT CollaboratorsT * flagCalls.

Definition implSetDynamicConfig (config : Config) (b : BuilderState) : BuilderState :=
  (SetDynamicConfig config b.1, b.2).

Definition implBuild (b : BuilderState) : (AutoscalerT * error) * BuilderState :=
  let '(r, b', flags') :=
    Build ParseFloat ParseDuration GiB NewCloudProvider expanderFactoryBuild
      NewStaticAutoscaler jsonMarshal b.1 b.2 in
  (r, (b', flags')).

(** [*configFetcher] as a [ConfigFetcher]: the fetcher together with the
    number of calls made so far. *)
Definition FetcherState : Type := dynamic.configFetcher * nat.

Definition implFetchConfigIfUpdated (f : FetcherState)
  : result (option Config) * FetcherState :=
  let (r, cf') := FetchConfigIfUpdated yamlDecode f.1 (os f.2) in
  (r, (cf', S f.2)).

End Wiring.

End wiring.

(** *** Searching in strings *)

Module strings_search.

(** [strings.HasPrefix(s, prefix)] *)
Fixpoint HasPrefix (s prefix : string) : bool :=
  match prefix with
  | EmptyString => true
  | String p prefix' =>
      match s with
      | EmptyString => false
      | String c s' => Ascii.eqb c p && HasPrefix s' prefix'
      end
  end.

(** [strings.Contains(s, substr)]: [substr] starts at some position of [s]. *)
Fixpoint Contains (s substr : string) : bool :=
  HasPrefix s substr ||
  match s with
  | EmptyString => false
  | String _ s' => Contains s' substr
  end.

End strings_search.

(** *** Package cloudprovider/azure: errors of the Azure clients *)

Module azure_errors.

Import strings_search.

Definition CloudProviderErrorReason := string.

(** Unknown is for errors that have nil RawError body. *)
Definition Unknown : CloudProviderErrorReason := "Unknown".
(** QuotaExceeded falls under the OperationNotAllowed error code but is
    made more specific. *)
Definition QuotaExceeded : CloudProviderErrorReason := "QuotaExceeded".
(** OperationNotAllowed is an umbrella for a lot of errors returned by Azure. *)
Definition OperationNotAllowed : string := "OperationNotAllowed".

(** [azure.ServiceError] of the library go-autorest: the two fields that
    the code reads. *)
Record ServiceError := mkServiceError {
  Code : string;
  Message : string
}.

(** ServiceRawError wraps the RawError returned by the Azure clients. *)
Record ServiceRawError := mkServiceRawError {
  ServiceErrorOf : option ServiceError
}.

(** [retry.Error] of the Azure client library: the field [RawError] (an
    error, here its text) and the text returned by the method [Error()],
    which are all the code reads of it. *)
Record retryError := mkRetryError {
  RawError : error;
  ErrorText : string
}.

(** The call [errors.NewAutoscalerCloudProviderError(reason, msg)], kept
    as the two arguments it is given. *)
Inductive AutoscalerError :=
| NewAutoscalerCloudProviderError (reason : CloudProviderErrorReason) (msg : string).

Definition reasonOf (e : AutoscalerError) : CloudProviderErrorReason :=
  match e with NewAutoscalerCloudProviderError reason _ => reason end.

Definition msgOf (e : AutoscalerError) : string :=
  match e with NewAutoscalerCloudProviderError _ msg => msg end.

(** getOperationNotAllowedReason renames the error code for quotas to a
    more human-readable error. *)
Definition getOperationNotAllowedReason (se : ServiceError) : CloudProviderErrorReason :=
  if Contains (Message se) "Quota increase" then QuotaExceeded
  else OperationNotAllowed.

Section WithJSON.

(** [json.Unmarshal] of the raw error text into a zero [ServiceRawError]. *)
Variable jsonUnmarshalRawError : string -> result ServiceRawError.

Definition azureToAutoscalerError (rerr : option retryError) : option AutoscalerError :=
  match rerr with
  | None => None
  | Some rerr =>
      match RawError rerr with
      | None => Some (NewAutoscalerCloudProviderError Unknown (ErrorText rerr))
      | Some raw =>
          match jsonUnmarshalRawError raw with
          | Err _ => Some (NewAutoscalerCloudProviderError Unknown (ErrorText rerr))
          | Ok re =>
              match ServiceErrorOf re with
              | None => Some (NewAutoscalerCloudProviderError Unknown (ErrorText rerr))
              | Some se =>
                  let errCode :=
                    if bool_decide (Code se = "") then Unknown
                    else if bool_decide (Code se = OperationNotAllowed)
                         then getOperationNotAllowedReason se
                         else Code se in
                  Some (NewAutoscalerCloudProviderError errCode (Message se))
              end
          end
      end
  end.

End WithJSON.

End azure_errors.

(** *** Package cloudprovider/azure: taints of a node template *)

Module azure_template.

Import strings strings_search.

(** The three fields of [apiv1.Taint] that are set here. *)
Record Taint := mkTaint {
  Key : string;
  Value : string;
  Effect : string
}.

(** [r.MatchString] for the pattern of the source: a group of any
    characters, a colon, then one of NoSchedule, NoExecute and
    PreferNoSchedule.  The pattern is not anchored and its group may be
    empty, so a text has a match exactly when a colon followed by one of
    the three effects occurs in it. *)
Definition taintPattern (s : string) : bool :=
  Contains s ":NoSchedule" || Contains s ":NoExecute"
  || Contains s ":PreferNoSchedule".

(** The loop of [extractTaintsFromSpecString] over the comma-separated
    pieces.  [None] is the panic of an index out of range. *)
Fixpoint collectTaints (splits : list string) (taints : list Taint)
  : option (list Taint) :=
  match splits with
  | [] => Some taints
  | split :: rest =>
      match Split "=" split with
      | [taintKey; taintValue] =>
          if negb (taintPattern taintValue) then collectTaints rest taints
          else
            let values := SplitN ":" 2 taintValue in
            match values !! 0%nat, values !! 1%nat with
            | Some v0, Some v1 =>
                collectTaints rest (taints ++ [mkTaint taintKey v0 v1])%list
            | _, _ => None
            end
      | _ => collectTaints rest taints
      end
  end.

(** extractTaintsFromSpecString reads a taints string in the form of
    kubelet's [--register-with-taints], such as
    [dedicated=foo:NoSchedule,group=bar:NoExecute]. *)
Definition extractTaintsFromSpecString (taintsString : string)
  : option (list Taint) :=
  collectTaints (Split "," taintsString) [].

(** What holds of a taint that was read from the piece [entry]. *)
Definition readFrom (entry : string) (t : Taint) : Prop :=
  entry = Key t +:+ "=" +:+ Value t +:+ ":" +:+ Effect t /\
  dynamic.contains "=" (Key t) = false /\ dynamic.contains ":" (Value t) = false /\
  taintPattern (Value t +:+ ":" +:+ Effect t) = true.

(** A taint as kubelet's [--register-with-taints] writes it. *)
Definition taintString (t : Taint) : string :=
  Key t +:+ "=" +:+ Value t +:+ ":" +:+ Effect t.

(** A taint that this form can carry: no separator of the form inside the
    key or the value, and one of the three effects. *)
Definition writable (t : Taint) : Prop :=
  dynamic.contains "=" (Key t) = false /\ dynamic.contains "," (Key t) = false /\
  dynamic.contains "=" (Value t) = false /\ dynamic.contains ":" (Value t) = false /\
  dynamic.contains "," (Value t) = false /\
  (Effect t = "NoSchedule" \/ Effect t = "NoExecute" \/
   Effect t = "PreferNoSchedule").

End azure_template.

(** *** Further example values *)

Module examples_more.

Import dynamic core examples.

(** The spec of TestSpecFromStringWithLabelsAndTaints, with and without
    the empty label map. *)
Definition poolSpec (labels : gomap) : NodeGroupSpec :=
  mkNodeGroupSpec "aks-nodepool-83823-vmss" 1 50 "" labels Delete true.

(** A builder that was never given a dynamic config. *)
Definition builderUnconfigured
  : @AutoscalerBuilderImpl Q (list string) (list string) unit :=
  {| autoscalingOptions := baseOptions;
     dynamicConfig := None;
     CloudProvider := ["1:10:pool"];
     ExpanderStrategy := ["random"];
     collaborators := tt |}.

(** A file that cannot be opened. *)
Definition missingIO : FileIO :=
  {| openResult := Err "no such file or directory"; closeResult := None |}.

(** An operating system that gives the same answer to every call. *)
Definition always (io : FileIO) (_ : nat) : FileIO := io.

(** A dynamic autoscaler made of the repository's own builder and
    fetcher, before its first tick. *)
Definition dynamicWired
  : @DynamicAutoscaler (list string * list string)
      (@wiring.BuilderState Q (list string) (list string) unit)
      wiring.FetcherState :=
  {| autoscaler := runningStatic;
     autoscalerBuilder := (builderUnconfigured, []);
     configFetcher := (NewConfigFetcher "/etc/autoscaler/config", 0%nat) |}.

(** The taints of the example in the source's comment on
    [extractTaintsFromSpecString]. *)
Definition exampleTaints : list azure_template.Taint :=
  [azure_template.mkTaint "dedicated" "foo" "NoSchedule";
   azure_template.mkTaint "group" "bar" "NoExecute";
   azure_template.mkTaint "app" "fizz" "PreferNoSchedule"].

(** [json.Unmarshal] of a raw error body that is not JSON. *)
Definition jsonUnmarshalRawError (_ : string) : result azure_errors.ServiceRawError :=
  Err "invalid character".

End examples_more.

(** * Properties *)

(** ** The instance cache *)

Module azure_facts.

Import azure.

(** C8. When the cache is stale ([now - lastRefresh >= refreshPeriod]):
    on a throttling answer of the list call validation returns no error,
    advances [lastRefresh] to [now] and leaves [instanceCache] unchanged;
    on any other list error it returns that error and leaves both
    [lastRefresh] and [instanceCache] unchanged. *)
Theorem validateInstanceCache_stale_errors (now : Z) (s : ScaleSet) :
  instancesRefreshPeriod s <= now - lastInstanceRefresh s ->
  validateInstanceCache now Throttled s
  = (None, {| instanceCache := instanceCache s;
              lastInstanceRefresh := now;
              instancesRefreshPeriod := instancesRefreshPeriod s |}) /\
  (forall msg, validateInstanceCache now (ListFailed msg) s = (Some msg, s)).
Proof.
  intros Hstale. unfold validateInstanceCache.
  destruct (Z.ltb_spec (now - lastInstanceRefresh s) (instancesRefreshPeriod s)) as [Hlt|_].
  - lia.
  - split; [|intros msg]; reflexivity.
Qed.

Lemma validateInstanceCache_stale_errors_witness :
  let s := {| instanceCache := [mkInstance "azure:///vm/0" InstanceDeallocated];
              lastInstanceRefresh := 100; instancesRefreshPeriod := 300 |} in
  validateInstanceCache 400 Throttled s
  = (None, {| instanceCache := instanceCache s; lastInstanceRefresh := 400;
              instancesRefreshPeriod := 300 |}) /\
  (forall msg, validateInstanceCache 400 (ListFailed msg) s = (Some msg, s)).
Proof.
  intros s. apply (validateInstanceCache_stale_errors 400 s). cbn. lia.
Defined.

End azure_facts.

(** ** Config validation *)

Module validate_facts.

Import dynamic examples.

Lemma validateGroups_none (gs : list NodeGroupSpec) :
  validateGroups gs = None <-> forallb (fun g => negb (violates g)) gs = true.
Proof.
  induction gs as [|g gs IH]; cbn; [tauto|].
  unfold violates. destruct (bool_decide (Name g = "")); cbn.
  - split; discriminate.
  - destruct (MaxSize g <? MinSize g); cbn; [split; discriminate | exact IH].
Qed.

(** The first violating group decides the error, in input order. *)
Lemma validateGroups_first (pre post : list NodeGroupSpec) (g : NodeGroupSpec) :
  forallb (fun g => negb (violates g)) pre = true ->
  violates g = true ->
  validateGroups (pre ++ g :: post) = validateGroups [g] /\
  validateGroups [g] <> None.
Proof.
  intros Hpre Hg. split.
  - induction pre as [|p pre IH]; cbn in *.
    + unfold violates in Hg.
      destruct (bool_decide (Name g = "")); [reflexivity|].
      cbn in Hg. rewrite Hg. reflexivity.
    + apply andb_prop in Hpre as [Hp Hpre]. unfold violates in Hp.
      destruct (bool_decide (Name p = "")); [discriminate|].
      destruct (MaxSize p <? MinSize p); [discriminate|]. auto.
  - rewrite validateGroups_none. cbn. rewrite Hg. discriminate.
Qed.

Lemma validateGroups_policy_blind (f : ScaleDownPolicy -> ScaleDownPolicy)
    (gs : list NodeGroupSpec) :
  validateGroups (map (fun g => setPolicy (f (ScaleDownPolicyOf g)) g) gs)
  = validateGroups gs.
Proof.
  induction gs as [|g gs IH]; cbn; [reflexivity|]. rewrite IH. reflexivity.
Qed.

(** C5 (the code departs from its test).  [Config.validate] goes through
    the node groups in input order and returns the error of the first
    group whose name is blank or whose maximum is below its minimum, and
    no error when there is none; but the scale-down policy never enters
    the verdict.  In particular it returns no error on the config of the
    test case "test validate invalid scaleDownPolicy", whose first group
    has the policy "InvalidPolicy", where the test expects the error
    "invalid scaledown policy: InvalidPolicy. Valid values are: Delete,
    Deallocate". *)
Theorem validate_accepts_invalid_policy :
  validate configInvalidPolicy = None /\
  (forall c : Config,
     validate c = None <->
     forallb (fun g => negb (violates g)) (elems (NodeGroups c)) = true) /\
  (forall (pre post : list NodeGroupSpec) (g : NodeGroupSpec)
          (p : AutoScalerProfile),
     forallb (fun g => negb (violates g)) pre = true ->
     violates g = true ->
     validate (mkConfig (Some (pre ++ g :: post)%list) p)
     = validate (mkConfig (Some [g]) p) /\
     validate (mkConfig (Some [g]) p) <> None) /\
  (forall (f : ScaleDownPolicy -> ScaleDownPolicy) (gs : list NodeGroupSpec)
          (p : AutoScalerProfile),
     validate (mkConfig (Some (map (fun g => setPolicy (f (ScaleDownPolicyOf g)) g) gs)) p)
     = validate (mkConfig (Some gs) p)).
Proof.
  split; [reflexivity|]. split; [|split].
  - intros c. apply validateGroups_none.
  - intros pre post g p Hpre Hg. apply validateGroups_first; assumption.
  - intros f gs p. apply validateGroups_policy_blind.
Qed.

Lemma validate_accepts_invalid_policy_witness :
  validate (mkConfig (Some [group "test1" 100 50 ""; group "test2" 10 70 ""]) zeroProfile)
  = Some "invalid nodeGroup: test1, max size must be greater or equal to min size".
Proof.
  destruct (proj1 (proj2 (proj2 validate_accepts_invalid_policy))
              [] [group "test2" 10 70 ""] (group "test1" 100 50 "") zeroProfile
              eq_refl eq_refl) as [Hfirst _].
  cbn [app] in Hfirst. rewrite Hfirst. reflexivity.
Defined.

End validate_facts.

(** ** The config fetcher *)

Module fetcher_facts.

Import dynamic examples.

Section WithDecoder.

Variable yamlDecode : string -> result Config.

Local Abbreviation fetch := (FetchConfigIfUpdated yamlDecode).
Local Abbreviation reads := (readsConfig yamlDecode).

Lemma BuildConfig_reads (io : FileIO) (c : Config) :
  reads io c ->
  exists text, openResult io = Ok text /\ BuildConfig yamlDecode text = Ok c /\
               closeResult io = None.
Proof.
  intros (text & Hopen & Hdec & Hval & Hclose). exists text.
  unfold BuildConfig. rewrite Hdec, Hval. auto.
Qed.

(** One successful read: nil when the config equals the baseline,
    otherwise the config, which is stored. *)
Lemma fetch_reads (cf : configFetcher) (io : FileIO) (c : Config) :
  reads io c ->
  fetch cf io =
    if bool_decide (c = previousConfiguration cf) then (Ok None, cf)
    else (Ok (Some c), {| path := path cf; previousConfiguration := c |}).
Proof.
  intros Hr. apply BuildConfig_reads in Hr as (text & Hopen & Hbuild & Hclose).
  unfold FetchConfigIfUpdated, DeepEqual. rewrite Hopen, Hbuild, Hclose.
  destruct (decide (c = previousConfiguration cf)) as [->|Hne].
  - rewrite !bool_decide_eq_true_2 by reflexivity. reflexivity.
  - rewrite !bool_decide_eq_false_2 by congruence. reflexivity.
Qed.

Lemma fetchAll_reads (ios : list FileIO) (cs : list Config) :
  Forall2 reads ios cs ->
  forall cf,
    fetchAll yamlDecode cf ios =
      (map Ok (reported (previousConfiguration cf) cs),
       {| path := path cf;
          previousConfiguration := baselineAfter (previousConfiguration cf) cs |}).
Proof.
  induction 1 as [|io c ios cs Hr _ IH]; intros cf.
  - destruct cf; reflexivity.
  - cbn [fetchAll reported baselineAfter]. rewrite (fetch_reads cf io c Hr).
    destruct (decide (c = previousConfiguration cf)) as [->|Hne].
    + rewrite bool_decide_eq_true_2 by reflexivity. rewrite IH. reflexivity.
    + rewrite bool_decide_eq_false_2 by assumption. rewrite IH. reflexivity.
Qed.

Lemma reported_same (c : Config) (n : nat) :
  reported c (replicate n c) = replicate n None.
Proof.
  induction n as [|n IH]; cbn; [reflexivity|].
  rewrite bool_decide_eq_true_2 by reflexivity. rewrite IH. reflexivity.
Qed.

Lemma Forall2_replicate_r (ios : list FileIO) (c : Config) :
  Forall (fun io => reads io c) ios -> Forall2 reads ios (replicate (length ios) c).
Proof. induction 1; cbn; constructor; assumption. Qed.

(** C1 (amended).  For every sequence of calls in which the file open,
    the decode, the validation and the file close all succeed, the calls
    return what the specification says: nil exactly when the decoded
    config is deep-equal to the last accepted baseline, otherwise the new
    config, which is stored as the new baseline.  Hence a changed config
    is returned exactly once and the following fetches of the same
    content return nil. *)
Theorem fetch_reports_changes_once :
  (forall (cf : configFetcher) (ios : list FileIO) (cs : list Config),
     Forall2 reads ios cs ->
     fetchAll yamlDecode cf ios =
       (map Ok (reported (previousConfiguration cf) cs),
        {| path := path cf;
           previousConfiguration := baselineAfter (previousConfiguration cf) cs |})) /\
  (forall (baseline c : Config) (cs : list Config),
     reported baseline (c :: cs) =
       if DeepEqual baseline c then None :: reported baseline cs
       else Some c :: reported c cs) /\
  (forall (cf : configFetcher) (c : Config) (io : FileIO) (ios : list FileIO),
     c <> previousConfiguration cf ->
     reads io c -> Forall (fun io => reads io c) ios ->
     fetchAll yamlDecode cf (io :: ios) =
       (Ok (Some c) :: replicate (length ios) (Ok None),
        {| path := path cf; previousConfiguration := c |})).
Proof.
  split; [|split].
  - intros cf ios cs H. apply fetchAll_reads, H.
  - intros baseline c cs. cbn. unfold DeepEqual.
    destruct (decide (c = baseline)) as [->|Hne].
    + rewrite !bool_decide_eq_true_2 by reflexivity. reflexivity.
    + rewrite !bool_decide_eq_false_2 by congruence. reflexivity.
  - intros cf c io ios Hne Hio Hios.
    rewrite (fetchAll_reads (io :: ios) (c :: replicate (length ios) c)).
    + cbn [reported baselineAfter]. rewrite bool_decide_eq_false_2 by assumption.
      rewrite reported_same. cbn [map]. f_equal.
      * f_equal. induction (length ios); cbn; congruence.
      * f_equal. induction (length ios); cbn; auto.
    + constructor; [assumption | apply Forall2_replicate_r, Hios].
Qed.

(** C7.  If [FetchConfigIfUpdated] returns an error, whatever the reason
    (the open, the decode, the validation or the close), the fetcher is
    left as it was: the baseline is untouched and a subsequent call
    behaves exactly as it would have before the failed call. *)
Theorem fetch_error_keeps_baseline (cf : configFetcher) (io : FileIO) (msg : string) :
  (fetch cf io).1 = Err msg ->
  previousConfiguration (fetch cf io).2 = previousConfiguration cf /\
  (forall io', fetch (fetch cf io).2 io' = fetch cf io').
Proof.
  unfold FetchConfigIfUpdated.
  destruct (openResult io) as [text|e]; [|intros _; cbn; auto].
  destruct (BuildConfig yamlDecode text) as [c|e]; [|intros _; cbn; auto].
  destruct (closeResult io) as [e|]; [intros _; cbn; auto|].
  destruct (DeepEqual (previousConfiguration cf) c); cbn; [auto|discriminate].
Qed.

(** The three failures the specification names do produce an error. *)
Lemma fetch_fails (cf : configFetcher) (io : FileIO) :
  (forall e, openResult io = Err e -> exists msg, (fetch cf io).1 = Err msg) /\
  (forall text e, openResult io = Ok text -> umarshalConfig yamlDecode text = Err e ->
     exists msg, (fetch cf io).1 = Err msg) /\
  (forall text c e, openResult io = Ok text -> umarshalConfig yamlDecode text = Ok c ->
     validate c = Some e -> exists msg, (fetch cf io).1 = Err msg).
Proof.
  unfold FetchConfigIfUpdated, BuildConfig. repeat split.
  - intros e ->. eauto.
  - intros text e -> ->. eauto.
  - intros text c e -> -> ->. eauto.
Qed.

(** C9.  The baseline of a new fetcher is the default config, whose
    [NodeGroups] is an empty, non-nil list.  A file that decodes to a
    config with nil [NodeGroups] describes no node group either, yet the
    first fetch reports it as a changed config and stores it, since deep
    equality tells the nil slice from the empty one. *)
Theorem first_fetch_reports_nil_groups (configPath : string) (io : FileIO) (c : Config) :
  reads io c ->
  NodeGroups c = None ->
  NodeGroups (previousConfiguration (NewConfigFetcher configPath)) = Some [] /\
  elems (NodeGroups c) = elems (NodeGroups NewDefaultConfig) /\
  DeepEqual NewDefaultConfig configZero = false /\
  fetch (NewConfigFetcher configPath) io =
    (Ok (Some c), {| path := configPath; previousConfiguration := c |}).
Proof.
  intros Hr Hnil. repeat split.
  - rewrite Hnil. reflexivity.
  - rewrite (fetch_reads _ io c Hr). rewrite bool_decide_eq_false_2; [reflexivity|].
    intros ->. discriminate.
Qed.

End WithDecoder.

(** A file that opens, decodes and validates, on a fetcher whose baseline
    differs, but whose close fails: the call returns an error, neither
    nil nor the new config, and the baseline stays. *)
Lemma fetch_close_failure :
  let io := {| openResult := Ok "one group";
               closeResult := Some "file already closed" |} in
  let cf := NewConfigFetcher "/etc/autoscaler/config" in
  isOk (openResult io) = true /\
  umarshalConfig yamlDecode "one group" = Ok configOneGroup /\
  validate configOneGroup = None /\
  DeepEqual (previousConfiguration cf) configOneGroup = false /\
  FetchConfigIfUpdated yamlDecode cf io =
    (Err "failed to close config file: file already closed", cf).
Proof. vm_compute. repeat split. Qed.

Lemma reads_one_group : readsConfig yamlDecode (okIO "one group") configOneGroup.
Proof. exists "one group". vm_compute. repeat split. Defined.

Lemma reads_zero : readsConfig yamlDecode (okIO "{}") configZero.
Proof. exists "{}". vm_compute. repeat split. Defined.

Lemma fetch_reports_changes_once_witness :
  fetchAll yamlDecode (NewConfigFetcher "/etc/autoscaler/config")
    [okIO "one group"; okIO "one group"; okIO "one group"]
  = ([Ok (Some configOneGroup); Ok None; Ok None],
     {| path := "/etc/autoscaler/config"; previousConfiguration := configOneGroup |}).
Proof.
  apply (proj2 (proj2 (fetch_reports_changes_once yamlDecode))
           (NewConfigFetcher "/etc/autoscaler/config") configOneGroup
           (okIO "one group") [okIO "one group"; okIO "one group"]).
  - discriminate.
  - exact reads_one_group.
  - repeat constructor; exact reads_one_group.
Defined.

Lemma fetch_error_keeps_baseline_witness :
  let cf := {| path := "/etc/autoscaler/config"; previousConfiguration := configOneGroup |} in
  let io := {| openResult := Err "no such file or directory"; closeResult := None |} in
  previousConfiguration (FetchConfigIfUpdated yamlDecode cf io).2 = configOneGroup /\
  (forall io', FetchConfigIfUpdated yamlDecode (FetchConfigIfUpdated yamlDecode cf io).2 io'
               = FetchConfigIfUpdated yamlDecode cf io').
Proof.
  intros cf io.
  apply (fetch_error_keeps_baseline yamlDecode cf io
           "failed to open config file: no such file or directory").
  reflexivity.
Defined.

Lemma first_fetch_reports_nil_groups_witness :
  FetchConfigIfUpdated yamlDecode (NewConfigFetcher "/etc/autoscaler/config") (okIO "{}")
  = (Ok (Some configZero),
     {| path := "/etc/autoscaler/config"; previousConfiguration := configZero |}).
Proof.
  apply (first_fetch_reports_nil_groups yamlDecode "/etc/autoscaler/config"
           (okIO "{}") configZero reads_zero eq_refl).
Defined.

End fetcher_facts.

(** ** The profile merge *)

Module profile_facts.

Import dynamic core.

Lemma wrap64_small (z : Z) : minInt64 <= z <= maxInt64 -> wrap64 z = z.
Proof.
  unfold wrap64, minInt64, maxInt64. intros H.
  rewrite Z.mod_small by lia. lia.
Qed.

(** On malformed text the [strconv] parsers return the zero value. *)
Lemma ParseInt_syntax (s : string) :
  (strconv.ParseInt s).2 = Some strconv.ErrSyntax -> (strconv.ParseInt s).1 = 0.
Proof.
  unfold strconv.ParseInt.
  destruct (match s with
            | String "-"%char r => (true, r)
            | String "+"%char r => (false, r)
            | _ => (false, s)
            end) as [neg body].
  destruct body as [|c r]; [reflexivity|].
  destruct (strconv.digits 0 (String c r)) as [n|]; [|reflexivity].
  destruct neg.
  - destruct (2 ^ 63 <? n); cbn; discriminate.
  - destruct (maxInt64 <? n); cbn; discriminate.
Qed.

Lemma ParseBool_failed (s : string) :
  (strconv.ParseBool s).2 <> None -> (strconv.ParseBool s).1 = false.
Proof.
  unfold strconv.ParseBool.
  destruct (bool_decide _); [intros H; exfalso; apply H; reflexivity|].
  destruct (bool_decide _); reflexivity.
Qed.

Section WithParsers.

Context {float64 CloudProviderT StrategyT CollaboratorsT : Type}.
Variable ParseFloat : string -> float64 * error.
Variable ParseDuration : string -> Duration * error.
Variable GiB : Z.

Local Abbreviation Options := (@AutoscalingOptions float64).
Local Abbreviation Builder :=
  (@AutoscalerBuilderImpl float64 CloudProviderT StrategyT CollaboratorsT).
Local Abbreviation update :=
  (@updateAutoScalerProfile float64 ParseFloat ParseDuration GiB
     CloudProviderT StrategyT CollaboratorsT).
Local Abbreviation parseField := (@parse float64 ParseFloat ParseDuration).
Local Abbreviation assignedTo := (@assigned float64 GiB).

Lemma proj_ifSet {A} (f : Options -> A) s g o :
  f (ifSet s g o) = if bool_decide (s <> "") then f (g o) else f o.
Proof. unfold ifSet. destruct (bool_decide (s <> "")); reflexivity. Qed.

Lemma push_if {A B} (f : A -> B) (b : bool) x y :
  f (if b then x else y) = if b then f x else f y.
Proof. destruct b; reflexivity. Qed.

Lemma if_same {A} (b : bool) (x : A) : (if b then x else x) = x.
Proof. destruct b; reflexivity. Qed.

Ltac through_merge :=
  repeat (first [rewrite proj_ifSet
                | rewrite (push_if ScaleDownUnneededTimeOpt)
                | rewrite (push_if ScaleDownUnreadyTimeOpt)
                | rewrite (push_if ScaleDownUtilizationThresholdOpt)];
          cbn -[ifSet wrap64 strconv.ParseInt strconv.ParseBool strconv.Atoi
                bool_decide];
          rewrite ?if_same).

(** The merge never fails on a configured builder, and each parsed field
    of the result is decided by its own statement alone. *)
Lemma merged_field (b : Builder) (base : Options) (flags : flagCalls) (c : Config) :
  dynamicConfig b = Some c ->
  exists o' flags',
    update b base flags = Some (o', flags') /\
    forall f : ProfileField,
      stored f o' =
        if bool_decide (source f (AutoScalerProfileOf c) <> "")
        then assignedTo f (parseField f (source f (AutoScalerProfileOf c))).1
        else stored f base.
Proof.
  intros Hc. unfold updateAutoScalerProfile. rewrite Hc. cbn [mbind option_bind].
  eexists _, _. split; [reflexivity|].
  intros f; destruct f; cbn [stored source parse assigned fst];
    through_merge; destruct (bool_decide _); reflexivity.
Qed.

(** C3 (amended).  For every base options value and every profile field
    whose text is non-empty but fails to parse, the merge raises no error
    and assigns the value that the failed parse returned (scaled by GiB
    for the memory fields) to the option field; the previous value is not
    kept.  For the [strconv] parsers that value is 0 or false on
    malformed text. *)
Theorem failed_parse_overwrites (b : Builder) (base : Options) (flags : flagCalls)
    (c : Config) :
  dynamicConfig b = Some c ->
  (exists o' flags',
     update b base flags = Some (o', flags') /\
     forall f : ProfileField,
       let s := source f (AutoScalerProfileOf c) in
       s <> "" -> (parseField f s).2 = true ->
       stored f o' = assignedTo f (parseField f s).1) /\
  (forall s, (strconv.ParseInt s).2 = Some strconv.ErrSyntax ->
             (strconv.ParseInt s).1 = 0) /\
  (forall s, (strconv.ParseBool s).2 <> None -> (strconv.ParseBool s).1 = false).
Proof.
  intros Hc. split; [|split; [exact ParseInt_syntax | exact ParseBool_failed]].
  destruct (merged_field b base flags c Hc) as (o' & flags' & Hup & Hfield).
  exists o', flags'. split; [exact Hup|].
  intros f s Hs _. rewrite Hfield. subst s.
  rewrite bool_decide_eq_true_2 by assumption. reflexivity.
Qed.

(** C10.  In the profile merge a non-empty MinMemory or MaxMemory text is
    parsed as an integer and multiplied by [units.GiB] (in int64
    arithmetic) before it is stored in MinMemoryTotal or MaxMemoryTotal,
    whereas MinCpu and MaxCpu are stored in MinCoresTotal and
    MaxCoresTotal as the parsed counts themselves. *)
Theorem memory_in_GiB_cores_raw (b : Builder) (base : Options) (flags : flagCalls)
    (c : Config) :
  dynamicConfig b = Some c ->
  let p := AutoScalerProfileOf c in
  (exists o' flags',
     update b base flags = Some (o', flags') /\
     (MinMemory p <> "" ->
      MinMemoryTotal o' = wrap64 ((strconv.ParseInt (MinMemory p)).1 * GiB)) /\
     (MaxMemory p <> "" ->
      MaxMemoryTotal o' = wrap64 ((strconv.ParseInt (MaxMemory p)).1 * GiB)) /\
     (MinCpu p <> "" -> MinCoresTotal o' = (strconv.ParseInt (MinCpu p)).1) /\
     (MaxCpu p <> "" -> MaxCoresTotal o' = (strconv.ParseInt (MaxCpu p)).1)) /\
  (forall n, minInt64 <= n * GiB <= maxInt64 -> wrap64 (n * GiB) = n * GiB).
Proof.
  intros Hc p. split; [|intros n; apply wrap64_small].
  destruct (merged_field b base flags c Hc) as (o' & flags' & Hup & Hfield).
  exists o', flags'. split; [exact Hup|].
  pose proof (Hfield FMinMemory) as H1. pose proof (Hfield FMaxMemory) as H2.
  pose proof (Hfield FMinCpu) as H3. pose proof (Hfield FMaxCpu) as H4.
  cbn [stored source parse assigned fst] in H1, H2, H3, H4. fold p in H1, H2, H3, H4.
  repeat split; intros Hne.
  - rewrite bool_decide_eq_true_2 in H1 by assumption. congruence.
  - rewrite bool_decide_eq_true_2 in H2 by assumption. congruence.
  - rewrite bool_decide_eq_true_2 in H3 by assumption. congruence.
  - rewrite bool_decide_eq_true_2 in H4 by assumption. congruence.
Qed.

End WithParsers.

Import examples.

(** The profile sets max-graceful-termination-sec to "abc", which [Atoi]
    rejects; the base options hold 600; after the merge the field holds
    0, not 600. *)
Lemma failed_parse_zeroes_field :
  let b := builderWith (profileWith "abc" "" "" "" "" "") in
  MaxGracefulTerminationSecOpt baseOptions = 600 /\
  (strconv.Atoi "abc").2 = Some strconv.ErrSyntax /\
  (fun r => MaxGracefulTerminationSecOpt r.1)
    <$> updateAutoScalerProfile ParseFloat ParseDuration GiB b baseOptions []
  = Some 0.
Proof. vm_compute. repeat split. Qed.

Lemma failed_parse_overwrites_witness :
  let b := builderWith (profileWith "abc" "" "" "" "" "") in
  exists o' flags',
    updateAutoScalerProfile ParseFloat ParseDuration GiB b baseOptions []
    = Some (o', flags') /\
    MaxGracefulTerminationSecOpt o' = 0.
Proof.
  intros b.
  destruct (proj1 (failed_parse_overwrites ParseFloat ParseDuration GiB b
                     baseOptions [] _ eq_refl))
    as (o' & flags' & Hup & Hfield).
  exists o', flags'. split; [exact Hup|].
  specialize (Hfield FMaxGracefulTerminationSec).
  specialize (Hfield ltac:(discriminate) eq_refl).
  injection Hfield as Hfield. exact Hfield.
Defined.

Lemma memory_in_GiB_cores_raw_witness :
  let b := builderWith (profileWith "" "" "2" "4" "8" "16") in
  exists o' flags',
    updateAutoScalerProfile ParseFloat ParseDuration GiB b baseOptions []
    = Some (o', flags') /\
    MinMemoryTotal o' = 8589934592 /\ MaxMemoryTotal o' = 17179869184 /\
    MinCoresTotal o' = 2 /\ MaxCoresTotal o' = 4.
Proof.
  intros b.
  destruct (proj1 (memory_in_GiB_cores_raw ParseFloat ParseDuration GiB b
                     baseOptions [] _ eq_refl))
    as (o' & flags' & Hup & H1 & H2 & H3 & H4).
  exists o', flags'. split; [exact Hup|].
  repeat split.
  - rewrite H1 by discriminate. reflexivity.
  - rewrite H2 by discriminate. reflexivity.
  - rewrite H3 by discriminate. reflexivity.
  - rewrite H4 by discriminate. reflexivity.
Defined.

End profile_facts.

(** ** The autoscaler builder *)

Module build_facts.

Import dynamic core.

Section WithCollaborators.

Context {float64 CloudProviderT StrategyT AutoscalerT CollaboratorsT : Type}.
Variable ParseFloat : string -> float64 * error.
Variable ParseDuration : string -> Duration * error.
Variable GiB : Z.
Variable NewCloudProvider : @AutoscalingOptions float64 -> CollaboratorsT -> CloudProviderT.
Variable expanderFactoryBuild :
  CloudProviderT -> CollaboratorsT -> string -> string -> string ->
  list string -> result StrategyT.
Variable NewStaticAutoscaler :
  @AutoscalingOptions float64 -> CollaboratorsT -> CloudProviderT -> StrategyT ->
  AutoscalerT.
Variable jsonMarshal : gmap string string -> string.

Local Abbreviation Builder :=
  (@AutoscalerBuilderImpl float64 CloudProviderT StrategyT CollaboratorsT).
Local Abbreviation update :=
  (@updateAutoScalerProfile float64 ParseFloat ParseDuration GiB
     CloudProviderT StrategyT CollaboratorsT).
Local Abbreviation build :=
  (@Build float64 ParseFloat ParseDuration GiB CloudProviderT StrategyT
     AutoscalerT CollaboratorsT NewCloudProvider expanderFactoryBuild
     NewStaticAutoscaler jsonMarshal).

(** The merge reads nothing of the builder but its dynamic config. *)
Lemma update_setCloudProvider (b : Builder) (cp : CloudProviderT) options flags :
  update (setCloudProvider cp b) options flags = update b options flags.
Proof. reflexivity. Qed.

(** C4 (amended).  [Build] never returns an error.  When the builder is
    configured and the expander factory's build fails, the failure is
    dropped: [Build] still returns a new autoscaler, made from the merged
    options, the cloud provider rebuilt from them and the expander
    strategy stored before; in the builder the cloud provider has been
    replaced by the rebuilt one, and the expander strategy, the options,
    the dynamic config and the other collaborators are as before. *)
Theorem Build_drops_expander_failure :
  (forall (b : Builder) (flags : flagCalls), (build b flags).1.1.2 = None) /\
  (forall (b : Builder) (flags flags' : flagCalls) (c : Config)
          (options' : AutoscalingOptions) (e : string),
     dynamicConfig b = Some c ->
     update b (setNodeGroups (Some (NodeGroupSpecStrings jsonMarshal c))
                 (autoscalingOptions b)) flags = Some (options', flags') ->
     expanderFactoryBuild (NewCloudProvider options' (collaborators b))
       (collaborators b) (ConfigNamespace options') (GRPCExpanderCert options')
       (GRPCExpanderURL options') (strings.Split "," (ExpanderNames options'))
     = Err e ->
     build b flags =
       ((NewStaticAutoscaler options' (collaborators b)
           (NewCloudProvider options' (collaborators b)) (ExpanderStrategy b),
         None),
        {| autoscalingOptions := autoscalingOptions b;
           dynamicConfig := dynamicConfig b;
           CloudProvider := NewCloudProvider options' (collaborators b);
           ExpanderStrategy := ExpanderStrategy b;
           collaborators := collaborators b |},
        flags')).
Proof.
  split.
  - intros b flags. unfold Build.
    destruct (dynamicConfig b) as [c|]; [|reflexivity].
    destruct (default _ _) as [options flags'].
    destruct (expanderFactoryBuild _ _ _ _ _ _); reflexivity.
  - intros b flags flags' c options' e Hc Hup Hexp. unfold Build.
    rewrite Hc. rewrite update_setCloudProvider, Hup.
    cbn -[strings.Split]. rewrite Hexp. unfold setCloudProvider. cbn. rewrite ?Hc. reflexivity.
Qed.

End WithCollaborators.

Import examples.

Local Abbreviation exampleBuild :=
  (Build ParseFloat ParseDuration GiB NewCloudProvider expanderFactoryBuild
     NewStaticAutoscaler jsonMarshal).

(** The profile selects an expander the factory does not know, so the
    factory's build fails; [Build] returns an autoscaler and a nil error,
    and the builder's cloud provider is no longer the one stored. *)
Lemma Build_expander_failure_not_surfaced :
  let b := builderWith (profileWith "" "no-such-expander" "" "" "" "") in
  let r := exampleBuild b [] in
  expanderFactoryBuild (CloudProvider r.1.2) tt "kube-system" "" ""
    (strings.Split "," "no-such-expander") = Err "Expander not supported" /\
  r.1.1.2 = None /\
  CloudProvider b = [] /\
  CloudProvider r.1.2 = ["1:100:Delete:aks-nodepool1-24160808-vmss:{}|"] /\
  ExpanderStrategy r.1.2 = ExpanderStrategy b.
Proof. vm_compute. repeat split. Qed.

Lemma Build_drops_expander_failure_witness :
  let b := builderWith (profileWith "" "no-such-expander" "" "" "" "") in
  exampleBuild b [] =
    (((["1:100:Delete:aks-nodepool1-24160808-vmss:{}|"], ["random"]), None),
     setCloudProvider ["1:100:Delete:aks-nodepool1-24160808-vmss:{}|"] b,
     []).
Proof.
  intros b.
  pose (options' :=
          setExpanderNames "no-such-expander"
            (setNodeGroups (Some ["1:100:Delete:aks-nodepool1-24160808-vmss:{}|"])
               baseOptions)).
  etransitivity.
  - apply (proj2 (Build_drops_expander_failure ParseFloat ParseDuration GiB
                    NewCloudProvider expanderFactoryBuild NewStaticAutoscaler
                    jsonMarshal)
             b [] [] (configWith (profileWith "" "no-such-expander" "" "" "" ""))
             options' "Expander not supported").
    + reflexivity.
    + vm_compute. reflexivity.
    + vm_compute. reflexivity.
  - vm_compute. reflexivity.
Defined.

End build_facts.

(** ** The dynamic autoscaler *)

Module dynamic_autoscaler_facts.

Import dynamic core.

Section WithInterfaces.

Context {AutoscalerT BuilderT FetcherT TimeT : Type}.
Variable startResult : AutoscalerT -> error.
Variable runOnceResult : AutoscalerT -> TimeT -> error.
Variable builderSetDynamicConfig : Config -> BuilderT -> BuilderT.
Variable builderBuild : BuilderT -> (AutoscalerT * error) * BuilderT.
Variable fetcherFetchConfigIfUpdated : FetcherT -> result (option Config) * FetcherT.

Local Abbreviation reconfigure :=
  (@Reconfigure AutoscalerT BuilderT FetcherT TimeT startResult
     builderSetDynamicConfig builderBuild fetcherFetchConfigIfUpdated).
Local Abbreviation runOnce :=
  (RunOnce startResult runOnceResult builderSetDynamicConfig builderBuild
     fetcherFetchConfigIfUpdated).

(** C2 (amended).  When [Reconfigure] obtains a new config and the
    following [SetDynamicConfig(newConfig).Build()] fails, [Reconfigure]
    returns the build error, after the cleanup of the old autoscaler has
    run, and the held autoscaler is not replaced.  [RunOnce] does not
    fail because of it: it logs the error and delegates the iteration to
    the autoscaler still held, whose result is the result of the tick. *)
Theorem Reconfigure_build_failure
    (a : DynamicAutoscaler) (currentTime : TimeT) (tr : @trace AutoscalerT TimeT)
    (newConfig : Config) (fetcher' : FetcherT) (discarded : AutoscalerT)
    (err : string) (builder' : BuilderT) :
  fetcherFetchConfigIfUpdated (configFetcher a) = (Ok (Some newConfig), fetcher') ->
  builderBuild (builderSetDynamicConfig newConfig (autoscalerBuilder a))
  = ((discarded, Some err), builder') ->
  let a' := {| autoscaler := autoscaler a; autoscalerBuilder := builder';
               configFetcher := fetcher' |} in
  reconfigure a tr
  = (Returned (Some err), a', (tr ++ [EvExitCleanUp (autoscaler a)])%list) /\
  runOnce a currentTime tr
  = (Returned (runOnceResult (autoscaler a) currentTime), a',
     (tr ++ [EvMetricsLastTime; EvExitCleanUp (autoscaler a);
             EvLogError ("Failed to reconfigure : " +:+ err);
             EvMetricsDuration; EvRunOnce (autoscaler a) currentTime])%list).
Proof.
  intros Hfetch Hbuild a'.
  assert (Hrec : forall tr0 : @trace AutoscalerT TimeT, reconfigure a tr0
            = (Returned (Some err), a', (tr0 ++ [EvExitCleanUp (autoscaler a)])%list)).
  { intros tr0. unfold Reconfigure. rewrite Hfetch. cbn [autoscalerBuilder].
    rewrite Hbuild. reflexivity. }
  split; [apply Hrec|].
  unfold RunOnce. rewrite Hrec. cbn [autoscaler a'].
  rewrite <- !app_assoc. reflexivity.
Qed.

End WithInterfaces.

Import examples.

(** A new config arrives, the builder fails, and the tick still returns
    a nil error: the one of the old autoscaler's iteration. *)
Lemma RunOnce_survives_build_failure :
  failingBuild (failingSetDynamicConfig configOneGroup None)
  = ((([], []), Some "failed to create autoscaler"), Some configOneGroup) /\
  (RunOnce startResult runOnceResult failingSetDynamicConfig failingBuild
     scriptedFetch dynamicWithFailingBuilder 0 []).1.1
  = Returned None.
Proof. vm_compute. split; reflexivity. Qed.

Lemma Reconfigure_build_failure_witness :
  let a' := {| autoscaler := runningStatic;
               autoscalerBuilder := Some configOneGroup;
               configFetcher :=
                 ({| path := "/etc/autoscaler/config";
                     previousConfiguration := configOneGroup |}, []) |} in
  Reconfigure (TimeT := Z) startResult failingSetDynamicConfig failingBuild
    scriptedFetch dynamicWithFailingBuilder []
  = (Returned (Some "failed to create autoscaler"), a',
     [EvExitCleanUp runningStatic]) /\
  RunOnce startResult runOnceResult failingSetDynamicConfig failingBuild
    scriptedFetch dynamicWithFailingBuilder 0 []
  = (Returned None, a',
     [EvMetricsLastTime; EvExitCleanUp runningStatic;
      EvLogError "Failed to reconfigure : failed to create autoscaler";
      EvMetricsDuration; EvRunOnce runningStatic 0]).
Proof.
  intros a'.
  apply (Reconfigure_build_failure startResult runOnceResult
           failingSetDynamicConfig failingBuild scriptedFetch
           dynamicWithFailingBuilder 0 [] configOneGroup
           ({| path := "/etc/autoscaler/config";
               previousConfiguration := configOneGroup |}, [])
           ([], []) "failed to create autoscaler" (Some configOneGroup)).
  - vm_compute. reflexivity.
  - reflexivity.
Defined.

End dynamic_autoscaler_facts.

(** ** Splitting and joining *)

Module strings_facts.

Import dynamic strings.

Lemma append_sep (sep : ascii) (r : string) :
  String sep EmptyString +:+ r = String sep r.
Proof. reflexivity. Qed.

Lemma append_nil (r : string) : EmptyString +:+ r = r.
Proof. reflexivity. Qed.

Lemma append_cons (c : ascii) (a r : string) :
  String c a +:+ r = String c (a +:+ r).
Proof. reflexivity. Qed.

Lemma cut_app (sep : ascii) (a r : string) :
  contains sep a = false -> cut sep (a +:+ String sep r) = (a, Some r).
Proof.
  induction a as [|c a IH]; rewrite ?append_nil, ?append_cons; cbn; intros H.
  - rewrite Ascii.eqb_refl. reflexivity.
  - apply orb_false_elim in H as [Hc Ha]. rewrite Hc, (IH Ha). reflexivity.
Qed.

Lemma cut_free (sep : ascii) (a : string) :
  contains sep a = false -> cut sep a = (a, None).
Proof.
  induction a as [|c a IH]; cbn; intros H; [reflexivity|].
  apply orb_false_elim in H as [Hc Ha]. rewrite Hc, (IH Ha). reflexivity.
Qed.

Lemma cut_some (sep : ascii) (s h r : string) :
  cut sep s = (h, Some r) -> s = h +:+ String sep r /\ contains sep h = false.
Proof.
  revert h. induction s as [|c s IH]; cbn; intros h H; [discriminate|].
  destruct (Ascii.eqb c sep) eqn:Hc.
  - apply Ascii.eqb_eq in Hc as ->. inversion H; subst. auto.
  - destruct (cut sep s) as [h' t] eqn:Hcut. inversion H; subst.
    destruct (IH h' eq_refl) as [-> Hfree]. rewrite ?append_cons. cbn. rewrite Hc. auto.
Qed.

Lemma cut_none (sep : ascii) (s h : string) :
  cut sep s = (h, None) -> s = h /\ contains sep h = false.
Proof.
  revert h. induction s as [|c s IH]; cbn; intros h H.
  - inversion H. auto.
  - destruct (Ascii.eqb c sep) eqn:Hc; [discriminate|].
    destruct (cut sep s) as [h' t] eqn:Hcut. inversion H; subst.
    destruct (IH h' eq_refl) as [-> Hfree]. rewrite ?append_cons. cbn. rewrite Hc. auto.
Qed.

Lemma Split_app (sep : ascii) (a r : string) :
  contains sep a = false ->
  Split sep (a +:+ String sep r) = a :: Split sep r.
Proof.
  induction a as [|c a IH]; rewrite ?append_nil, ?append_cons; cbn; intros H.
  - rewrite Ascii.eqb_refl. reflexivity.
  - apply orb_false_elim in H as [Hc Ha]. rewrite Hc, (IH Ha). reflexivity.
Qed.

Lemma Split_free (sep : ascii) (a : string) :
  contains sep a = false -> Split sep a = [a].
Proof.
  induction a as [|c a IH]; cbn; intros H; [reflexivity|].
  apply orb_false_elim in H as [Hc Ha]. rewrite Hc, (IH Ha). reflexivity.
Qed.

(** Every piece of a split is free of the separator. *)
Lemma Split_pieces_free (sep : ascii) (s : string) :
  Forall (fun t => contains sep t = false) (Split sep s).
Proof.
  induction s as [|c s IH]; cbn; [repeat constructor|].
  destruct (Ascii.eqb c sep) eqn:Hc; [constructor; [reflexivity|exact IH]|].
  destruct (Split sep s) as [|h t]; [repeat constructor; cbn; rewrite Hc; reflexivity|].
  inversion IH; subst. constructor; [cbn; rewrite Hc; assumption | assumption].
Qed.

(** The four-way split of a joined policy string gives back the tokens. *)
Lemma SplitN_Join4 (t0 t1 t2 t3 : string) :
  contains ":" t0 = false -> contains ":" t1 = false -> contains ":" t2 = false ->
  SplitN ":" 4 (Join [t0; t1; t2; t3] ":") = [t0; t1; t2; t3].
Proof.
  intros H0 H1 H2. cbn [Join]. rewrite !append_sep.
  cbn [SplitN]. rewrite (cut_app _ _ _ H0), (cut_app _ _ _ H1), (cut_app _ _ _ H2).
  reflexivity.
Qed.

(** The five-way split of the canonical extended form. *)
Lemma SplitN_canonical (a b c d r : string) :
  contains ":" a = false -> contains ":" b = false ->
  contains ":" c = false -> contains ":" d = false ->
  SplitN ":" 5 (a +:+ ":" +:+ b +:+ ":" +:+ c +:+ ":" +:+ d +:+ ":" +:+ r)
  = [a; b; c; d; r].
Proof.
  intros Ha Hb Hc Hd. rewrite !append_sep. cbn [SplitN].
  rewrite (cut_app _ _ _ Ha), (cut_app _ _ _ Hb), (cut_app _ _ _ Hc),
    (cut_app _ _ _ Hd).
  reflexivity.
Qed.

End strings_facts.

(** ** Integers and their decimal text *)

Module strconv_facts.

Import dynamic strconv.

Lemma digit_cases (d : Z) :
  0 <= d < 10 ->
  d = 0 \/ d = 1 \/ d = 2 \/ d = 3 \/ d = 4 \/ d = 5 \/ d = 6 \/ d = 7 \/ d = 8 \/ d = 9.
Proof. lia. Qed.

Lemma digitVal_digitChar (d : Z) : 0 <= d < 10 -> digitVal (digitChar d) = Some d.
Proof.
  intros H. destruct (digit_cases d H) as [->|[->|[->|[->|[->|[->|[->|[->|[->| ->]]]]]]]]];
    reflexivity.
Qed.

Lemma digitChar_not_colon (d : Z) :
  0 <= d < 10 -> Ascii.eqb (digitChar d) ":" = false.
Proof.
  intros H. destruct (digit_cases d H) as [->|[->|[->|[->|[->|[->|[->|[->|[->| ->]]]]]]]]];
    reflexivity.
Qed.

Lemma digitVal_range (c : ascii) (d : Z) : digitVal c = Some d -> 0 <= d < 10.
Proof.
  unfold digitVal. destruct (_ && _) eqn:H; [|discriminate].
  intros [= <-]. apply andb_prop in H as [H1 H2]. lia.
Qed.

Lemma digits_nonneg (s : string) (acc n : Z) :
  0 <= acc -> digits acc s = Some n -> 0 <= n.
Proof.
  revert acc. induction s as [|c s IH]; cbn; intros acc Hacc H.
  - congruence.
  - destruct (digitVal c) as [d|] eqn:Hd; [|discriminate].
    apply digitVal_range in Hd. apply (IH (10 * acc + d)); [lia | assumption].
Qed.

(** Reading back what the digit loop wrote. *)
Lemma digits_formatBits (fuel : nat) (n : Z) (acc : string) :
  0 <= n < 10 ^ Z.of_nat fuel ->
  digits 0 (formatBits fuel n acc) = digits n acc.
Proof.
  revert n acc. induction fuel as [|f IH]; intros n acc Hn.
  - cbn in *. replace n with 0 by lia. reflexivity.
  - cbn [formatBits]. rewrite Nat2Z.inj_succ, Z.pow_succ_r in Hn by lia.
    destruct (Z.ltb_spec n 10) as [Hlt|Hge].
    + cbn [digits]. rewrite Z.mod_small by lia.
      rewrite digitVal_digitChar by lia. replace (10 * 0 + n) with n by lia.
      reflexivity.
    + rewrite IH.
      * cbn [digits]. rewrite digitVal_digitChar by (apply Z.mod_pos_bound; lia).
        replace (10 * (n / 10) + n mod 10) with n
          by (pose proof (Z.div_mod n 10); lia).
        reflexivity.
      * split; [apply Z.div_pos; lia | apply Z.div_lt_upper_bound; lia].
Qed.

Lemma contains_formatBits (fuel : nat) (n : Z) (acc : string) :
  contains ":" (formatBits fuel n acc) = contains ":" acc.
Proof.
  revert n acc. induction fuel as [|f IH]; intros n acc; [reflexivity|].
  cbn [formatBits].
  assert (Hd : Ascii.eqb (digitChar (n mod 10)) ":" = false)
    by (apply digitChar_not_colon, Z.mod_pos_bound; lia).
  destruct (n <? 10).
  - cbn [contains]. rewrite Hd. reflexivity.
  - rewrite IH. cbn [contains]. rewrite Hd. reflexivity.
Qed.

(** The text written by the digit loop starts with a digit. *)
Lemma formatBits_head (fuel : nat) (n : Z) (acc : string) :
  exists c r d, formatBits (S fuel) n acc = String c r /\ digitVal c = Some d.
Proof.
  revert n acc. induction fuel as [|f IH]; intros n acc.
  - cbn [formatBits]. exists (digitChar (n mod 10)), acc, (n mod 10).
    split; [destruct (n <? 10); reflexivity|].
    apply digitVal_digitChar, Z.mod_pos_bound. lia.
  - change (formatBits (S (S f)) n acc)
      with (if n <? 10 then String (digitChar (n mod 10)) acc
            else formatBits (S f) (n / 10) (String (digitChar (n mod 10)) acc)).
    destruct (n <? 10); [|apply IH].
    exists (digitChar (n mod 10)), acc, (n mod 10). split; [reflexivity|].
    apply digitVal_digitChar, Z.mod_pos_bound. lia.
Qed.

Lemma ParseInt_digit_head (c : ascii) (r : string) (d : Z) :
  digitVal c = Some d ->
  ParseInt (String c r) =
    match digits 0 (String c r) with
    | None => (0, Some ErrSyntax)
    | Some n => if maxInt64 <? n then (maxInt64, Some ErrRange) else (n, None)
    end.
Proof.
  destruct c as [[] [] [] [] [] [] [] []]; try discriminate; intros _; reflexivity.
Qed.

Lemma Itoa_no_colon (z : Z) : contains ":" (Itoa z) = false.
Proof.
  unfold Itoa. destruct (z <? 0); cbn [contains]; rewrite contains_formatBits;
    reflexivity.
Qed.

(** [Atoi] reads back what [Itoa] printed, for every 64-bit integer. *)
Lemma Atoi_Itoa (z : Z) : minInt64 <= z <= maxInt64 -> Atoi (Itoa z) = (z, None).
Proof.
  unfold minInt64, maxInt64. intros Hz. unfold Atoi, Itoa.
  destruct (Z.ltb_spec z 0) as [Hneg|Hpos].
  - unfold ParseInt.
    assert (Hd : digits 0 (formatBits 20 (- z) "") = Some (- z)).
    { rewrite digits_formatBits; [reflexivity|]. cbn. lia. }
    destruct (formatBits 20 (- z) "") as [|c r] eqn:Hbody.
    + cbn in Hd. injection Hd as Hd. lia.
    + rewrite Hd. destruct (Z.ltb_spec (2 ^ 63) (- z)); [lia|].
      rewrite Z.opp_involutive. reflexivity.
  - destruct (formatBits_head 19 z "") as (c & r & d & Hs & Hc).
    assert (Hd : digits 0 (formatBits 20 z "") = Some z).
    { rewrite digits_formatBits; [reflexivity|]. cbn. lia. }
    rewrite Hs in *. rewrite (ParseInt_digit_head c r d Hc), Hd.
    unfold maxInt64. destruct (Z.ltb_spec (2 ^ 63 - 1) z); [lia|reflexivity].
Qed.

(** A successful [Atoi] yields a 64-bit integer. *)
Lemma Atoi_range (s : string) (z : Z) :
  Atoi s = (z, None) -> minInt64 <= z <= maxInt64.
Proof.
  unfold Atoi, ParseInt, minInt64, maxInt64.
  destruct (match s with
            | String "-"%char r => (true, r)
            | String "+"%char r => (false, r)
            | _ => (false, s)
            end) as [neg body].
  destruct body as [|c r]; [discriminate|].
  destruct (digits 0 (String c r)) as [n|] eqn:Hd; [|discriminate].
  apply digits_nonneg in Hd; [|lia].
  destruct neg.
  - destruct (Z.ltb_spec (2 ^ 63) n); [discriminate|]. intros [= <-]. lia.
  - destruct (Z.ltb_spec (2 ^ 63 - 1) n); [discriminate|]. intros [= <-]. lia.
Qed.

End strconv_facts.

(** ** The node group spec: parsing and printing *)

Module spec_facts.

Import dynamic strings strings_facts strconv_facts.

Lemma policyFree (t2 : string) :
  t2 = Delete \/ t2 = Deallocate -> contains ":" t2 = false.
Proof. intros [->| ->]; reflexivity. Qed.

(** What a successful parse of the policy form says about its tokens. *)
Lemma SpecFromPolicyString_inv (t0 t1 t2 t3 : string) (z : bool) (spec : NodeGroupSpec) :
  contains ":" t0 = false -> contains ":" t1 = false -> contains ":" t2 = false ->
  SpecFromPolicyString (Join [t0; t1; t2; t3] ":") z = Ok spec ->
  exists mn mx,
    strconv.Atoi t0 = (mn, None) /\ strconv.Atoi t1 = (mx, None) /\
    (t2 = Delete \/ t2 = Deallocate) /\
    spec = mkNodeGroupSpec t3 mn mx "" None t2 z /\
    Validate spec = None.
Proof.
  intros H0 H1 H2. unfold SpecFromPolicyString.
  rewrite (SplitN_Join4 _ _ _ _ H0 H1 H2).
  destruct (strconv.Atoi t0) as [mn [e|]]; [discriminate|].
  destruct (strconv.Atoi t1) as [mx [e|]]; [discriminate|].
  destruct (bool_decide (t2 = Delete) || bool_decide (t2 = Deallocate)) eqn:Hp;
    [|discriminate].
  destruct (Validate _) as [e|] eqn:Hv; [discriminate|].
  intros [= <-]. exists mn, mx. repeat split; try assumption.
  apply orb_prop in Hp as [Hp|Hp]; apply bool_decide_eq_true_1 in Hp; auto.
Qed.

Lemma SpecFromPolicyString_intro (t0 t1 t2 t3 : string) (z : bool) (mn mx : Z) :
  contains ":" t0 = false -> contains ":" t1 = false ->
  strconv.Atoi t0 = (mn, None) -> strconv.Atoi t1 = (mx, None) ->
  t2 = Delete \/ t2 = Deallocate ->
  Validate (mkNodeGroupSpec t3 mn mx "" None t2 z) = None ->
  SpecFromPolicyString (Join [t0; t1; t2; t3] ":") z
  = Ok (mkNodeGroupSpec t3 mn mx "" None t2 z).
Proof.
  intros H0 H1 Hmn Hmx Hp Hv. unfold SpecFromPolicyString.
  rewrite (SplitN_Join4 _ _ _ _ H0 H1 (policyFree t2 Hp)). rewrite Hmn, Hmx.
  replace (bool_decide (t2 = Delete) || bool_decide (t2 = Deallocate)) with true
    by (destruct Hp as [->| ->]; reflexivity).
  cbv zeta.
  change (setName t3 (setPolicy t2 (setMaxSize mx (setMinSize mn (zeroSpec z)))))
    with (mkNodeGroupSpec t3 mn mx "" None t2 z).
  rewrite Hv. reflexivity.
Qed.

(** The legacy form never sets a policy. *)
Lemma SpecFromString_policy (value : string) (z : bool) (spec : NodeGroupSpec) :
  SpecFromString value z = Ok spec -> ScaleDownPolicyOf spec = "".
Proof.
  unfold SpecFromString.
  destruct (SplitN ":" 3 value) as [|t0 [|t1 [|t2 [|? ?]]]]; try discriminate.
  destruct (strconv.Atoi t0) as [mn [e|]]; [discriminate|].
  destruct (strconv.Atoi t1) as [mx [e|]]; [discriminate|].
  destruct (Validate _); [discriminate|]. intros [= <-]. reflexivity.
Qed.

(** The shapes of a five-way split with at least four pieces. *)
Lemma SplitN5_long (value : string) :
  (3 < length (SplitN ":" 5 value))%nat ->
  exists t0 t1 t2 t3 rest,
    SplitN ":" 5 value = ([t0; t1; t2; t3] ++ rest)%list /\
    (rest = [] \/ exists t4, rest = [t4]) /\
    contains ":" t0 = false /\ contains ":" t1 = false /\
    contains ":" t2 = false /\ contains ":" t3 = false.
Proof.
  cbn [SplitN].
  destruct (cut ":" value) as [t0 [r0|]] eqn:E0; [|cbn; lia].
  destruct (cut ":" r0) as [t1 [r1|]] eqn:E1; [|cbn; lia].
  destruct (cut ":" r1) as [t2 [r2|]] eqn:E2; [|cbn; lia].
  apply cut_some in E0 as [_ F0]. apply cut_some in E1 as [_ F1].
  apply cut_some in E2 as [_ F2].
  destruct (cut ":" r2) as [t3 [r3|]] eqn:E3; intros _.
  - apply cut_some in E3 as [_ F3]. exists t0, t1, t2, t3, [r3]. eauto 10.
  - apply cut_none in E3 as [_ F3]. exists t0, t1, t2, t3, []. eauto 10.
Qed.

Section WithJSON.

Variable jsonMarshal : gmap string string -> string.
Variable jsonUnmarshal : string -> result gomap.

Local Abbreviation parseSpec := (SpecFromStringWithLabelsAndTaints jsonUnmarshal).
Local Abbreviation printSpec := (StringWithLabelsAndTaints jsonMarshal).

(** The printed form, with the labels always marshalled from the map. *)
Lemma printSpec_eq (s : NodeGroupSpec) :
  printSpec s =
    strconv.Itoa (MinSize s) +:+ ":" +:+ strconv.Itoa (MaxSize s) +:+ ":"
    +:+ ScaleDownPolicyOf s +:+ ":" +:+ Name s +:+ ":"
    +:+ jsonMarshal (entries (Labels s)) +:+ "|" +:+ Taints s.
Proof.
  unfold StringWithLabelsAndTaints.
  destruct (bool_decide (len (Labels s) = 0%nat)) eqn:Hlen; [|reflexivity].
  apply bool_decide_eq_true_1 in Hlen. unfold len in Hlen.
  apply map_size_empty_inv in Hlen. rewrite Hlen. reflexivity.
Qed.

(** A successful parse of the extended form, taken apart. *)
Lemma parseSpec_extended_inv (value : string) (z : bool) (spec : NodeGroupSpec) :
  parseSpec value z = Ok spec ->
  ScaleDownPolicyOf spec <> "" ->
  exists mn mx pol name,
    minInt64 <= mn <= maxInt64 /\ minInt64 <= mx <= maxInt64 /\
    (pol = Delete \/ pol = Deallocate) /\
    contains ":" name = false /\ contains "|" (Taints spec) = false /\
    Validate (mkNodeGroupSpec name mn mx "" None pol z) = None /\
    spec = mkNodeGroupSpec name mn mx (Taints spec) (Labels spec) pol z.
Proof.
  unfold SpecFromStringWithLabelsAndTaints. intros Hparse Hpol.
  destruct (bool_decide (length (SplitN ":" 5 value) = 3%nat)) eqn:H3.
  { apply SpecFromString_policy in Hparse. contradiction. }
  destruct (bool_decide (length (SplitN ":" 5 value) < 4)%nat) eqn:H4;
    [discriminate|].
  apply bool_decide_eq_false_1 in H4.
  destruct (SplitN5_long value ltac:(lia))
    as (t0 & t1 & t2 & t3 & rest & Htok & Hrest & F0 & F1 & F2 & F3).
  rewrite Htok in Hparse.
  replace (take 4 ([t0; t1; t2; t3] ++ rest)%list) with [t0; t1; t2; t3] in Hparse
    by reflexivity.
  destruct (SpecFromPolicyString _ z) as [spec0|e] eqn:Hspec0; [|discriminate].
  apply SpecFromPolicyString_inv in Hspec0
    as (mn & mx & Hmn & Hmx & Hp & -> & Hv); try assumption.
  apply strconv_facts.Atoi_range in Hmn, Hmx.
  exists mn, mx, t2, t3.
  destruct Hrest as [->|[t4 ->]]; cbn in Hparse.
  - injection Hparse as <-. cbn. repeat split; auto; lia.
  - pose proof (Split_pieces_free "|" t4) as Hfree.
    destruct (jsonUnmarshal _) as [labels|e]; [|discriminate].
    destruct (Split "|" t4) as [|p0 [|p1 ps]]; cbn in Hparse;
      injection Hparse as <-; cbn; repeat split; auto; try lia.
    inversion Hfree as [|? ? _ Hfree']. inversion Hfree'. assumption.
Qed.

(** Parsing a canonical extended form. *)
Lemma parseSpec_canonical (mn mx : Z) (pol name json taints : string) (z : bool)
    (labels : gomap) :
  minInt64 <= mn <= maxInt64 -> minInt64 <= mx <= maxInt64 ->
  pol = Delete \/ pol = Deallocate ->
  contains ":" name = false -> contains "|" taints = false ->
  contains "|" json = false -> jsonUnmarshal json = Ok labels ->
  Validate (mkNodeGroupSpec name mn mx "" None pol z) = None ->
  parseSpec (strconv.Itoa mn +:+ ":" +:+ strconv.Itoa mx +:+ ":" +:+ pol +:+ ":"
             +:+ name +:+ ":" +:+ json +:+ "|" +:+ taints) z
  = Ok (mkNodeGroupSpec name mn mx taints labels pol z).
Proof.
  intros Hmn Hmx Hp Hname Htaints Hjson Hun Hv.
  unfold SpecFromStringWithLabelsAndTaints.
  rewrite SplitN_canonical
    by (auto using strconv_facts.Itoa_no_colon, policyFree).
  cbn [length take lookup list_lookup bool_decide decide_rel].
  rewrite bool_decide_eq_false_2 by (cbn; lia).
  rewrite bool_decide_eq_false_2 by (cbn; lia).
  replace (take 4 [strconv.Itoa mn; strconv.Itoa mx; pol; name;
                   json +:+ "|" +:+ taints])
    with [strconv.Itoa mn; strconv.Itoa mx; pol; name] by reflexivity.
  rewrite (SpecFromPolicyString_intro _ _ _ _ z mn mx)
    by (auto using strconv_facts.Itoa_no_colon, strconv_facts.Atoi_Itoa).
  rewrite append_sep, (Split_app _ _ _ Hjson), (Split_free _ _ Htaints).
  cbn -[strconv.Itoa]. rewrite Hun. reflexivity.
Qed.

(** The legacy form, taken apart. *)
Lemma parseSpec_legacy_inv (value : string) (z : bool) (spec : NodeGroupSpec) :
  parseSpec value z = Ok spec ->
  length (SplitN ":" 5 value) = 3%nat ->
  exists mn mx name,
    minInt64 <= mn <= maxInt64 /\ minInt64 <= mx <= maxInt64 /\
    contains ":" name = false /\
    spec = mkNodeGroupSpec name mn mx "" None "" z.
Proof.
  unfold SpecFromStringWithLabelsAndTaints. intros Hparse Hlen.
  rewrite bool_decide_eq_true_2 in Hparse by assumption.
  revert Hlen Hparse. unfold SpecFromString. cbn [SplitN].
  destruct (cut ":" value) as [t0 [r0|]] eqn:E0; [|discriminate].
  destruct (cut ":" r0) as [t1 [r1|]] eqn:E1; [|discriminate].
  destruct (cut ":" r1) as [t2 [r2|]] eqn:E2.
  { destruct (cut ":" r2) as [t3 [r3|]]; discriminate. }
  intros _. apply cut_none in E2 as [-> F2].
  destruct (strconv.Atoi t0) as [mn [e|]] eqn:Hmn; [discriminate|].
  destruct (strconv.Atoi t1) as [mx [e|]] eqn:Hmx; [discriminate|].
  destruct (Validate _); [discriminate|]. intros [= <-].
  apply strconv_facts.Atoi_range in Hmn, Hmx.
  exists mn, mx, t2. auto.
Qed.

(** C6 (amended).  For every input accepted by
    [SpecFromStringWithLabelsAndTaints] in the extended form (a
    scale-down policy token is present), [StringWithLabelsAndTaints] of
    the resulting spec is the canonical form
    [minSize:maxSize:policy:name:labelsJSON|taints], with [{}] for empty
    labels; and if the JSON text of the labels contains no bar and
    [encoding/json] reads it back, parsing the printed string succeeds and
    yields the original spec with nil labels replaced by the empty map,
    hence the original spec itself when its labels are not nil.  For an
    input accepted in the three-token legacy form the printed string has
    an empty policy and the parser rejects it. *)
Theorem extended_form_round_trip (value : string) (z : bool) (spec : NodeGroupSpec) :
  parseSpec value z = Ok spec ->
  jsonMarshal ∅ = "{}" ->
  let labels := entries (Labels spec) in
  (ScaleDownPolicyOf spec <> "" ->
     printSpec spec = canonicalForm jsonMarshal spec /\
     (contains "|" (jsonMarshal labels) = false ->
      jsonUnmarshal (jsonMarshal labels) = Ok (Some labels) ->
      parseSpec (printSpec spec) z = Ok (setLabels (Some labels) spec)) /\
     (Labels spec <> None -> setLabels (Some labels) spec = spec)) /\
  (length (SplitN ":" 5 value) = 3%nat ->
     ScaleDownPolicyOf spec = "" /\
     exists e, parseSpec (printSpec spec) z = Err e).
Proof.
  intros Hparse Hempty labels. split.
  - intros Hpol.
    destruct (parseSpec_extended_inv value z spec Hparse Hpol)
      as (mn & mx & pol & name & Hmn & Hmx & Hp & Hname & Htaints & Hv & Hspec).
    split; [|split].
    + rewrite printSpec_eq. unfold canonicalForm. fold labels.
      destruct (decide (labels = ∅)) as [Hl|Hl].
      * rewrite bool_decide_eq_true_2 by assumption. rewrite Hl, Hempty. reflexivity.
      * rewrite bool_decide_eq_false_2 by assumption. reflexivity.
    + intros Hbar Hback. rewrite printSpec_eq. fold labels.
      assert (Hfields : MinSize spec = mn /\ MaxSize spec = mx /\
                        ScaleDownPolicyOf spec = pol /\ Name spec = name /\
                        SupportScaleToZero spec = z)
        by (rewrite Hspec; repeat split; reflexivity).
      destruct Hfields as (E1 & E2 & E3 & E4 & E5). rewrite E1, E2, E3, E4.
      rewrite (parseSpec_canonical mn mx pol name (jsonMarshal labels)
                 (Taints spec) z (Some labels)) by assumption.
      destruct spec; cbn in *; subst; reflexivity.
    + intros Hlab. subst labels. destruct spec as [n a b t [l|] p s];
        [reflexivity | contradiction].
  - intros Hlen.
    destruct (parseSpec_legacy_inv value z spec Hparse Hlen)
      as (mn & mx & name & Hmn & Hmx & Hname & ->).
    split; [reflexivity|]. rewrite printSpec_eq.
    cbn [MinSize MaxSize ScaleDownPolicyOf Name Taints Labels entries].
    unfold SpecFromStringWithLabelsAndTaints.
    rewrite SplitN_canonical by (auto using strconv_facts.Itoa_no_colon).
    rewrite bool_decide_eq_false_2 by (cbn; lia).
    rewrite bool_decide_eq_false_2 by (cbn; lia).
    replace (take 4 [strconv.Itoa mn; strconv.Itoa mx; ""; name;
                     jsonMarshal ∅ +:+ "|" +:+ ""])
      with [strconv.Itoa mn; strconv.Itoa mx; ""; name] by reflexivity.
    unfold SpecFromPolicyString.
    rewrite SplitN_Join4 by (auto using strconv_facts.Itoa_no_colon).
    rewrite !strconv_facts.Atoi_Itoa by assumption.
    cbn [bool_decide decide_rel orb]. eexists. reflexivity.
Qed.

End WithJSON.

Import examples.

(** The legacy input of the repository's test parses, prints with an
    empty policy, and the printed text does not parse again. *)
Lemma legacy_form_not_reparsed :
  let value := "1:50:aks-nodepool-83823-vmss" in
  let spec := mkNodeGroupSpec "aks-nodepool-83823-vmss" 1 50 "" None "" true in
  SpecFromStringWithLabelsAndTaints jsonUnmarshal value true = Ok spec /\
  StringWithLabelsAndTaints jsonMarshal spec = "1:50::aks-nodepool-83823-vmss:{}|" /\
  SpecFromStringWithLabelsAndTaints jsonUnmarshal
    (StringWithLabelsAndTaints jsonMarshal spec) true
  = Err ("error while parsing NodeGroupSpec: 1:50::aks-nodepool-83823-vmss:{}|, "
         +:+ "failed to set scale down policy: . Valid values are: Delete, Deallocate").
Proof. vm_compute. repeat split. Qed.

Lemma extended_form_round_trip_witness :
  let value := "1:50:Delete:aks-nodepool-83823-vmss:{}|" in
  let spec := mkNodeGroupSpec "aks-nodepool-83823-vmss" 1 50 "" (Some ∅) Delete true in
  StringWithLabelsAndTaints jsonMarshal spec = canonicalForm jsonMarshal spec /\
  SpecFromStringWithLabelsAndTaints jsonUnmarshal
    (StringWithLabelsAndTaints jsonMarshal spec) true = Ok spec.
Proof.
  intros value spec.
  assert (Hparse : SpecFromStringWithLabelsAndTaints jsonUnmarshal value true = Ok spec)
    by (vm_compute; reflexivity).
  destruct (proj1 (extended_form_round_trip jsonMarshal jsonUnmarshal value true
                     spec Hparse eq_refl) ltac:(discriminate))
    as (Hcanon & Hback & Hsame).
  split; [exact Hcanon|].
  rewrite Hback; [reflexivity | vm_compute; reflexivity | vm_compute; reflexivity].
Defined.

End spec_facts.

(** * Further properties *)

(** ** Node group specs *)

Module spec_more.

Import dynamic strings strings_facts strconv_facts spec_facts fetch_runs.

Lemma Validate_wellSized (s : NodeGroupSpec) : Validate s = None <-> wellSized s.
Proof.
  unfold Validate, wellSized.
  destruct (SupportScaleToZero s).
  - destruct (Z.ltb_spec (MinSize s) 0); [split; [discriminate|lia]|].
    destruct (Z.ltb_spec (MaxSize s) (MinSize s)); [split; [discriminate|lia]|].
    destruct (decide (Name s = "")) as [Hn|Hn].
    + rewrite bool_decide_eq_true_2 by assumption. split; [discriminate|tauto].
    + rewrite bool_decide_eq_false_2 by assumption.
      split; [intros _; repeat split; try lia; assumption | reflexivity].
  - destruct (Z.leb_spec (MinSize s) 0); [split; [discriminate|lia]|].
    destruct (Z.ltb_spec (MaxSize s) (MinSize s)); [split; [discriminate|lia]|].
    destruct (decide (Name s = "")) as [Hn|Hn].
    + rewrite bool_decide_eq_true_2 by assumption. split; [discriminate|tauto].
    + rewrite bool_decide_eq_false_2 by assumption.
      split; [intros _; repeat split; try lia; assumption | reflexivity].
Qed.

(** The legacy parser, taken apart. *)
Lemma SpecFromString_inv (value : string) (z : bool) (spec : NodeGroupSpec) :
  SpecFromString value z = Ok spec ->
  exists t0 t1 name,
    SplitN ":" 3 value = [t0; t1; name] /\
    strconv.Atoi t0 = (MinSize spec, None) /\
    strconv.Atoi t1 = (MaxSize spec, None) /\
    spec = mkNodeGroupSpec name (MinSize spec) (MaxSize spec) "" None "" z /\
    Validate spec = None.
Proof.
  unfold SpecFromString.
  destruct (SplitN ":" 3 value) as [|t0 [|t1 [|t2 [|? ?]]]]; try discriminate.
  destruct (strconv.Atoi t0) as [mn [e|]] eqn:Hmn; [discriminate|].
  destruct (strconv.Atoi t1) as [mx [e|]] eqn:Hmx; [discriminate|].
  destruct (Validate _) eqn:Hv; [discriminate|]. intros [= <-].
  exists t0, t1, t2. cbn. auto.
Qed.

Section WithJSON.

Variable jsonMarshal : gmap string string -> string.
Variable jsonUnmarshal : string -> result gomap.

Local Abbreviation parseSpec := (SpecFromStringWithLabelsAndTaints jsonUnmarshal).
Local Abbreviation printSpec := (StringWithLabelsAndTaints jsonMarshal).

(** What every accepted input has in common, whichever form it took. *)
Lemma parseSpec_core (value : string) (z : bool) (spec : NodeGroupSpec) :
  parseSpec value z = Ok spec ->
  Validate spec = None /\ SupportScaleToZero spec = z /\
  MaxSize spec <= maxInt64 /\
  (ScaleDownPolicyOf spec = "" \/ ScaleDownPolicyOf spec = Delete \/
   ScaleDownPolicyOf spec = Deallocate).
Proof.
  unfold SpecFromStringWithLabelsAndTaints.
  destruct (bool_decide (length (SplitN ":" 5 value) = 3%nat)) eqn:H3.
  - intros Hparse. apply SpecFromString_inv in Hparse
      as (t0 & t1 & name & _ & _ & Hmx & Hspec & Hv).
    apply Atoi_range in Hmx. rewrite Hspec at 2 4. cbn. tauto.
  - destruct (bool_decide (length (SplitN ":" 5 value) < 4)%nat) eqn:H4;
      [discriminate|].
    apply bool_decide_eq_false_1 in H4.
    destruct (SplitN5_long value ltac:(lia))
      as (t0 & t1 & t2 & t3 & rest & Htok & Hrest & F0 & F1 & F2 & F3).
    rewrite Htok.
    replace (take 4 ([t0; t1; t2; t3] ++ rest)%list) with [t0; t1; t2; t3]
      by reflexivity.
    destruct (SpecFromPolicyString _ z) as [spec0|e] eqn:Hspec0; [|discriminate].
    apply SpecFromPolicyString_inv in Hspec0
      as (mn & mx & Hmn & Hmx & Hp & -> & Hv); try assumption.
    apply Atoi_range in Hmx.
    assert (Hpol : t2 = "" \/ t2 = Delete \/ t2 = Deallocate) by tauto.
    destruct Hrest as [->|[t4 ->]]; cbn.
    + intros [= <-]. cbn. tauto.
    + destruct (jsonUnmarshal _) as [labels|e]; [|discriminate].
      destruct (Split "|" t4 !! 1%nat); intros [= <-]; cbn; tauto.
Qed.

(** X1.  Whatever the parser accepts, in either form, satisfies
    [NodeGroupSpec.Validate] for the scale-to-zero mode it was parsed
    with: the minimum respects the mode's lower bound, the maximum is at
    least the minimum, the name is not blank; both sizes are 64-bit
    integers and the policy is empty, Delete or Deallocate. *)
Theorem parsed_spec_is_valid (value : string) (z : bool) (spec : NodeGroupSpec) :
  parseSpec value z = Ok spec ->
  Validate spec = None /\ SupportScaleToZero spec = z /\
  (if z then 0 <= MinSize spec else 1 <= MinSize spec) /\
  MinSize spec <= MaxSize spec <= maxInt64 /\
  Name spec <> "" /\
  (ScaleDownPolicyOf spec = "" \/ ScaleDownPolicyOf spec = Delete \/
   ScaleDownPolicyOf spec = Deallocate).
Proof.
  intros Hparse.
  destruct (parseSpec_core value z spec Hparse) as (Hv & Hz & Hmx & Hpol).
  pose proof (proj1 (Validate_wellSized spec) Hv) as (Hmin & Hle & Hname).
  rewrite Hz in Hmin. repeat split; auto.
Qed.

(** X2.  Printing in the policy form and parsing back: for every spec that
    passes [Validate], whose sizes are 64-bit integers, whose policy is
    Delete or Deallocate and which carries no labels or taints,
    [SpecFromPolicyString] reads [String()] back to the spec itself. *)
Theorem policy_string_round_trip (s : NodeGroupSpec) :
  Validate s = None ->
  minInt64 <= MinSize s <= maxInt64 -> minInt64 <= MaxSize s <= maxInt64 ->
  ScaleDownPolicyOf s = Delete \/ ScaleDownPolicyOf s = Deallocate ->
  Labels s = None -> Taints s = "" ->
  SpecFromPolicyString (String_ s) (SupportScaleToZero s) = Ok s.
Proof.
  intros Hv Hmn Hmx Hp Hl Ht. destruct s as [name mn mx t l p z].
  cbn in *. subst.
  change (String_ (mkNodeGroupSpec name mn mx "" None p z))
    with (Join [strconv.Itoa mn; strconv.Itoa mx; p; name] ":").
  apply SpecFromPolicyString_intro;
    auto using Itoa_no_colon, Atoi_Itoa.
Qed.

(** X3.  Printing in the extended form and parsing back, for any spec (not
    only a parsed one): if the spec passes [Validate], its sizes are
    64-bit integers, its policy is Delete or Deallocate, its name has no
    colon, its taints no bar, and the JSON text of its labels has no bar
    and is read back by [encoding/json], then the parser reads the
    printed string back to the spec with nil labels replaced by the
    empty map. *)
Theorem print_then_parse (s : NodeGroupSpec) :
  Validate s = None ->
  minInt64 <= MinSize s <= maxInt64 -> minInt64 <= MaxSize s <= maxInt64 ->
  ScaleDownPolicyOf s = Delete \/ ScaleDownPolicyOf s = Deallocate ->
  contains ":" (Name s) = false -> contains "|" (Taints s) = false ->
  contains "|" (jsonMarshal (entries (Labels s))) = false ->
  jsonUnmarshal (jsonMarshal (entries (Labels s))) = Ok (Some (entries (Labels s))) ->
  parseSpec (printSpec s) (SupportScaleToZero s)
  = Ok (setLabels (Some (entries (Labels s))) s).
Proof.
  intros Hv Hmn Hmx Hp Hname Htaints Hbar Hback.
  rewrite printSpec_eq.
  rewrite (parseSpec_canonical jsonUnmarshal (MinSize s) (MaxSize s)
             (ScaleDownPolicyOf s) (Name s) (jsonMarshal (entries (Labels s)))
             (Taints s) (SupportScaleToZero s) (Some (entries (Labels s))));
    try assumption.
  destruct s; reflexivity.
Qed.

(** X4.  [NodeGroupSpecStrings] prints the groups one by one, in input order:
    as many strings as groups, the i-th string printing the i-th group;
    a nil or empty list of groups gives the empty list. *)
Theorem NodeGroupSpecStrings_pointwise (c : Config) :
  NodeGroupSpecStrings jsonMarshal c = map printSpec (elems (NodeGroups c)) /\
  length (NodeGroupSpecStrings jsonMarshal c) = length (elems (NodeGroups c)) /\
  (forall (i : nat) (g : NodeGroupSpec),
     elems (NodeGroups c) !! i = Some g ->
     NodeGroupSpecStrings jsonMarshal c !! i = Some (printSpec g)).
Proof.
  assert (Hmap : NodeGroupSpecStrings jsonMarshal c
                 = map printSpec (elems (NodeGroups c))).
  { unfold NodeGroupSpecStrings.
    assert (H : forall gs acc,
               fold_left (fun res spec => (res ++ [printSpec spec])%list) gs acc
               = (acc ++ map printSpec gs)%list).
    { induction gs as [|g gs IH]; intros acc; cbn.
      - rewrite app_nil_r. reflexivity.
      - rewrite IH, <- app_assoc. reflexivity. }
    rewrite H. reflexivity. }
  split; [exact Hmap|]. rewrite Hmap. split.
  - apply length_map.
  - intros i g Hg. rewrite list_lookup_fmap, Hg. reflexivity.
Qed.

(** X5.  Any config whose node groups all came out of the parser passes
    [Config.validate]. *)
Theorem parsed_groups_validate (values : list (string * bool))
    (gs : list NodeGroupSpec) (p : AutoScalerProfile) :
  Forall2 (fun v g => parseSpec v.1 v.2 = Ok g) values gs ->
  validate (mkConfig (Some gs) p) = None.
Proof.
  intros H. unfold validate. cbn [NodeGroups elems].
  induction H as [|v g values gs Hg _ IH]; [reflexivity|].
  apply parseSpec_core in Hg as (Hv & _).
  apply Validate_wellSized in Hv as (_ & Hle & Hname).
  cbn [validateGroups]. rewrite bool_decide_eq_false_2 by assumption.
  destruct (Z.ltb_spec (MaxSize g) (MinSize g)); [lia|exact IH].
Qed.

End WithJSON.

End spec_more.

(** ** Building configs and fetching them *)

Module fetcher_more.

Import dynamic fetch_runs validate_facts.

Section WithDecoder.

Variable yamlDecode : string -> result Config.

Local Abbreviation fetch := (FetchConfigIfUpdated yamlDecode).
Local Abbreviation run := (fetchAll yamlDecode).

Lemma validate_Forall (c : Config) :
  validate c = None <->
  Forall (fun g => Name g <> "" /\ MinSize g <= MaxSize g) (elems (NodeGroups c)).
Proof.
  unfold validate. rewrite validateGroups_none.
  induction (elems (NodeGroups c)) as [|g gs IH]; cbn.
  - split; [constructor | reflexivity].
  - rewrite andb_true_iff, IH, Forall_cons. unfold violates.
    destruct (decide (Name g = "")) as [Hn|Hn].
    + rewrite bool_decide_eq_true_2 by assumption. cbn.
      split; [intros [? _]; discriminate | tauto].
    + rewrite bool_decide_eq_false_2 by assumption. cbn.
      destruct (Z.ltb_spec (MaxSize g) (MinSize g)); cbn.
      * split; [intros [? _]; discriminate | intros [[_ ?] _]; lia].
      * split; [intros [_ ?]; repeat split; auto; lia | tauto].
Qed.

(** X6.  [BuildConfig] accepts a text exactly when it decodes and every node
    group of the decoded config has a name and a maximum that is not
    below its minimum; the config it returns is the decoded one.  A text
    that does not decode is reported as a decode failure carrying the
    decoder's message. *)
Theorem BuildConfig_accepts_valid_only (text : string) :
  (forall c, BuildConfig yamlDecode text = Ok c <->
             umarshalConfig yamlDecode text = Ok c /\
             Forall (fun g => Name g <> "" /\ MinSize g <= MaxSize g)
                    (elems (NodeGroups c))) /\
  (forall e, umarshalConfig yamlDecode text = Err e ->
             BuildConfig yamlDecode text
             = Err ("failed to decode autoscaler config: " +:+ e)).
Proof.
  unfold BuildConfig. split.
  - intros c. destruct (umarshalConfig yamlDecode text) as [c'|e].
    + pose proof (validate_Forall c') as Hv.
      destruct (validate c') as [e|].
      * split; [discriminate|]. intros [[= ->] HF].
        apply Hv in HF. discriminate.
      * split; [intros [= ->]; split; [reflexivity | apply Hv; reflexivity]|].
        intros [[= ->] _]. reflexivity.
    + split; [discriminate | intros [? _]; discriminate].
  - intros e ->. reflexivity.
Qed.

Lemma fetch_step_invariant (cf : configFetcher) (io : FileIO) :
  validate (previousConfiguration cf) = None ->
  validate (previousConfiguration (fetch cf io).2) = None /\
  path (fetch cf io).2 = path cf /\
  previousConfiguration (fetch cf io).2
  = match (fetch cf io).1 with
    | Ok (Some c) => c
    | _ => previousConfiguration cf
    end /\
  (forall c, (fetch cf io).1 = Ok (Some c) -> validate c = None).
Proof.
  intros Hcf. unfold FetchConfigIfUpdated.
  destruct (openResult io) as [text|e]; [|cbn; repeat split; auto; discriminate].
  unfold BuildConfig.
  destruct (umarshalConfig yamlDecode text) as [c|e];
    [|cbn; repeat split; auto; discriminate].
  destruct (validate c) as [e|] eqn:Hv; [cbn; repeat split; auto; discriminate|].
  destruct (closeResult io); [cbn; repeat split; auto; discriminate|].
  destruct (DeepEqual (previousConfiguration cf) c); cbn; repeat split; auto.
  - discriminate.
  - intros c' [= <-]. exact Hv.
Qed.

Lemma run_invariant (ios : list FileIO) :
  forall cf,
    validate (previousConfiguration cf) = None ->
    validate (previousConfiguration (run cf ios).2) = None /\
    path (run cf ios).2 = path cf /\
    previousConfiguration (run cf ios).2
    = lastReported (previousConfiguration cf) (run cf ios).1 /\
    Forall (fun r => forall c, r = Ok (Some c) -> validate c = None) (run cf ios).1.
Proof.
  induction ios as [|io ios IH]; intros cf Hcf.
  - cbn. repeat split; auto.
  - cbn [fetchAll].
    destruct (fetch_step_invariant cf io Hcf) as (Hv & Hp & Hb & Hr).
    destruct (fetch cf io) as [r cf'] eqn:Hf. cbn [fst snd] in *.
    destruct (IH cf' Hv) as (Hv' & Hp' & Hb' & Hr').
    destruct (run cf' ios) as [rs cf''] eqn:Hrun. cbn [fst snd] in *.
    repeat split.
    + exact Hv'.
    + congruence.
    + rewrite Hb'. unfold lastReported. cbn [fold_left]. rewrite Hb. reflexivity.
    + constructor; assumption.
Qed.

(** X7.  Whatever the files and the operating system answer, over any number
    of calls on a new fetcher: the baseline always passes
    [Config.validate], it is the last config a call returned (the default
    config when none did), every config returned passes validation, and
    the path is never changed. *)
Theorem fetcher_baseline_always_valid (configPath : string) (ios : list FileIO) :
  let r := run (NewConfigFetcher configPath) ios in
  validate (previousConfiguration r.2) = None /\
  path r.2 = configPath /\
  previousConfiguration r.2 = lastReported NewDefaultConfig r.1 /\
  Forall (fun res => forall c, res = Ok (Some c) -> validate c = None) r.1.
Proof.
  intros r. apply (run_invariant ios (NewConfigFetcher configPath)). reflexivity.
Qed.

Lemma fetch_not_succeeds (cf : configFetcher) (io : FileIO) :
  succeeds yamlDecode io = false ->
  isOk (fetch cf io).1 = false /\ (fetch cf io).2 = cf.
Proof.
  unfold succeeds, FetchConfigIfUpdated.
  destruct (openResult io) as [text|e]; [|auto].
  destruct (BuildConfig yamlDecode text) as [c|e]; [|auto]. cbn [isOk andb].
  destruct (closeResult io); [auto|].
  rewrite bool_decide_eq_true_2 by reflexivity. discriminate.
Qed.

Lemma fetch_succeeds (cf : configFetcher) (io : FileIO) :
  succeeds yamlDecode io = true -> isOk (fetch cf io).1 = true.
Proof.
  unfold succeeds, FetchConfigIfUpdated.
  destruct (openResult io) as [text|e]; [|discriminate].
  destruct (BuildConfig yamlDecode text) as [c|e]; [|discriminate]. cbn [isOk andb].
  destruct (closeResult io); [intros H; apply bool_decide_eq_true_1 in H; discriminate|].
  intros _. destruct (DeepEqual _ _); reflexivity.
Qed.

(** X8.  Failed calls are transparent: a run in which some calls fail leaves
    the fetcher in the state, and returns the non-error results, of the
    run with the failed calls left out. *)
Theorem failed_fetches_are_transparent (ios : list FileIO) (cf : configFetcher) :
  (run cf ios).2 = (run cf (List.filter (succeeds yamlDecode) ios)).2 /\
  List.filter isOk (run cf ios).1
  = (run cf (List.filter (succeeds yamlDecode) ios)).1.
Proof.
  revert cf. induction ios as [|io ios IH]; intros cf; [split; reflexivity|].
  cbn [fetchAll List.filter].
  destruct (succeeds yamlDecode io) eqn:Hs.
  - pose proof (fetch_succeeds cf io Hs) as Hok. cbn [fetchAll].
    destruct (fetch cf io) as [r cf'] eqn:Hf. cbn [fst] in Hok.
    destruct (IH cf') as [H2 H1].
    destruct (run cf' ios) as [rs cf''].
    destruct (run cf' (List.filter (succeeds yamlDecode) ios)) as [rs' cf3].
    cbn [fst snd List.filter] in *. rewrite Hok. split; congruence.
  - destruct (fetch_not_succeeds cf io Hs) as [Hbad Hsame].
    destruct (fetch cf io) as [r cf'] eqn:Hf. cbn [fst snd] in Hbad, Hsame. subst cf'.
    destruct (IH cf) as [H2 H1].
    destruct (run cf ios) as [rs cf''].
    cbn [fst snd List.filter] in *. rewrite Hbad. split; assumption.
Qed.

End WithDecoder.

End fetcher_more.

(** ** The profile merge, continued *)

Module profile_more.

Import dynamic core profile_facts wiring.

Section WithParsers.

Context {float64 CloudProviderT StrategyT CollaboratorsT : Type}.
Variable ParseFloat : string -> float64 * error.
Variable ParseDuration : string -> Duration * error.
Variable GiB : Z.

Local Abbreviation Options := (@AutoscalingOptions float64).
Local Abbreviation Builder :=
  (@AutoscalerBuilderImpl float64 CloudProviderT StrategyT CollaboratorsT).
Local Abbreviation update :=
  (@updateAutoScalerProfile float64 ParseFloat ParseDuration GiB
     CloudProviderT StrategyT CollaboratorsT).

Ltac read_field :=
  repeat (first [rewrite proj_ifSet
                | rewrite (push_if ScaleDownUnneededTimeOpt)
                | rewrite (push_if ScaleDownUnreadyTimeOpt)
                | rewrite (push_if ScaleDownUtilizationThresholdOpt)];
          cbn -[ifSet wrap64 strconv.ParseInt strconv.ParseBool strconv.Atoi
                bool_decide];
          rewrite ?if_same).

(** The fields of the options that no statement of the merge assigns,
    and the expander names, which are copied without parsing. *)
Lemma merged_other_fields (b : Builder) (base : Options) (flags : flagCalls)
    (c : Config) (o' : Options) (flags' : flagCalls) :
  dynamicConfig b = Some c ->
  update b base flags = Some (o', flags') ->
  NodeGroupsOpt o' = NodeGroupsOpt base /\
  ConfigNamespace o' = ConfigNamespace base /\
  GRPCExpanderCert o' = GRPCExpanderCert base /\
  GRPCExpanderURL o' = GRPCExpanderURL base /\
  ExpanderNames o' =
    (if bool_decide (Expander (AutoScalerProfileOf c) <> "")
     then Expander (AutoScalerProfileOf c) else ExpanderNames base).
Proof.
  intros Hc. unfold updateAutoScalerProfile. rewrite Hc. cbn [mbind option_bind].
  intros [= <- _]. repeat split; read_field; reflexivity.
Qed.

Lemma merged_flags (b : Builder) (base : Options) (flags : flagCalls)
    (c : Config) (o' : Options) (flags' : flagCalls) :
  dynamicConfig b = Some c ->
  update b base flags = Some (o', flags') ->
  flags' = (flags ++ flagWrites (AutoScalerProfileOf c))%list.
Proof.
  intros Hc. unfold updateAutoScalerProfile. rewrite Hc. cbn [mbind option_bind].
  intros [= _ <-]. unfold flagWrites, flagSet. cbn [List.filter snd].
  set (p := AutoScalerProfileOf c).
  assert (Hne : forall s : string,
             bool_decide (s <> "") = negb (String.eqb s "")).
  { intros s. destruct (String.eqb_spec s "") as [->|Hs].
    - rewrite bool_decide_eq_false_2 by (intros H; apply H; reflexivity). reflexivity.
    - rewrite bool_decide_eq_true_2 by assumption. reflexivity. }
  rewrite !Hne.
  destruct (negb (SkipNodesWithLocalStorage p =? "")%string);
    destruct (negb (SkipNodesWithSystemPods p =? "")%string);
    destruct (negb (ScanInterval p =? "")%string);
    cbn; rewrite <- ?app_assoc, ?app_nil_r; reflexivity.
Qed.

(** X9.  A profile field left empty leaves its option field as it was, and the
    merge never touches the node groups, the config namespace or the
    gRPC expander settings; the expander names are replaced exactly when
    the profile names an expander. *)
Theorem empty_fields_keep_options (b : Builder) (base : Options)
    (flags : flagCalls) (c : Config) :
  dynamicConfig b = Some c ->
  exists o' flags',
    update b base flags = Some (o', flags') /\
    (forall f : ProfileField,
       source f (AutoScalerProfileOf c) = "" -> stored f o' = stored f base) /\
    NodeGroupsOpt o' = NodeGroupsOpt base /\
    ConfigNamespace o' = ConfigNamespace base /\
    GRPCExpanderCert o' = GRPCExpanderCert base /\
    GRPCExpanderURL o' = GRPCExpanderURL base /\
    ExpanderNames o' =
      (if bool_decide (Expander (AutoScalerProfileOf c) <> "")
       then Expander (AutoScalerProfileOf c) else ExpanderNames base).
Proof.
  intros Hc.
  destruct (merged_field ParseFloat ParseDuration GiB b base flags c Hc)
    as (o' & flags' & Hup & Hfield).
  exists o', flags'. split; [exact Hup|]. split.
  - intros f Hf. rewrite Hfield, Hf.
    rewrite bool_decide_eq_false_2 by (intros H; apply H; reflexivity). reflexivity.
  - exact (merged_other_fields b base flags c o' flags' Hc Hup).
Qed.

(** X10.  The merge writes the process-wide flags only by appending: the calls
    made before are kept, and what follows them is one [flag.Set] for
    each non-empty field among skip-nodes-with-local-storage,
    skip-nodes-with-system-pods and scan-interval, in that order.  None
    of the three values is parsed or stored in the options. *)
Theorem merge_appends_flag_calls (b : Builder) (base : Options)
    (flags : flagCalls) (c : Config) :
  dynamicConfig b = Some c ->
  exists o',
    update b base flags
    = Some (o', (flags ++ flagWrites (AutoScalerProfileOf c))%list) /\
    (forall flags0, (fun r => r.1) <$> update b base flags0 = Some o').
Proof.
  intros Hc.
  destruct (merged_field ParseFloat ParseDuration GiB b base flags c Hc)
    as (o' & flags' & Hup & _).
  exists o'. split.
  - rewrite Hup, (merged_flags b base flags c o' flags' Hc Hup). reflexivity.
  - intros flags0. revert Hup. unfold updateAutoScalerProfile. rewrite Hc.
    cbn [mbind option_bind fmap option_fmap option_map]. intros [= <- _].
    reflexivity.
Qed.

Lemma defaults_ext (d1 d2 : @NodeGroupAutoscalingOptions float64) :
  ScaleDownUnneededTimeOpt d1 = ScaleDownUnneededTimeOpt d2 ->
  ScaleDownUnreadyTimeOpt d1 = ScaleDownUnreadyTimeOpt d2 ->
  ScaleDownUtilizationThresholdOpt d1 = ScaleDownUtilizationThresholdOpt d2 ->
  d1 = d2.
Proof. destruct d1, d2; cbn; congruence. Qed.

Lemma options_ext (o1 o2 : Options) :
  NodeGroupsOpt o1 = NodeGroupsOpt o2 ->
  NodeGroupDefaults o1 = NodeGroupDefaults o2 ->
  ExpanderNames o1 = ExpanderNames o2 ->
  ConfigNamespace o1 = ConfigNamespace o2 ->
  GRPCExpanderCert o1 = GRPCExpanderCert o2 ->
  GRPCExpanderURL o1 = GRPCExpanderURL o2 ->
  (forall f : ProfileField, stored f o1 = stored f o2) ->
  o1 = o2.
Proof.
  intros H1 H2 H3 H4 H5 H6 Hf.
  pose proof (Hf FScaleDownDelayAfterAdd) as F1.
  pose proof (Hf FScaleDownDelayAfterDelete) as F2.
  pose proof (Hf FScaleDownDelayAfterFailure) as F3.
  pose proof (Hf FMaxCloudProviderNodeDeletionTime) as F4.
  pose proof (Hf FMaxNodeProvisionTime) as F5.
  pose proof (Hf FEnableGetVmss) as F6.
  pose proof (Hf FGetVmssSizeRefreshPeriod) as F7.
  pose proof (Hf FEnableForceDelete) as F8.
  pose proof (Hf FEnableDynamicInstanceList) as F9.
  pose proof (Hf FMinCpu) as F10. pose proof (Hf FMaxCpu) as F11.
  pose proof (Hf FMinMemory) as F12. pose proof (Hf FMaxMemory) as F13.
  pose proof (Hf FMaxGracefulTerminationSec) as F14.
  pose proof (Hf FBalanceSimilarNodeGroups) as F15.
  pose proof (Hf FNewPodScaleUpDelay) as F16.
  pose proof (Hf FMaxEmptyBulkDelete) as F17.
  pose proof (Hf FOkTotalUnreadyCount) as F18.
  pose proof (Hf FMaxTotalUnreadyPercentage) as F19.
  pose proof (Hf FDaemonSetEvictionForEmptyNodes) as F20.
  pose proof (Hf FDaemonSetEvictionForOccupiedNodes) as F21.
  clear Hf. cbn [stored] in *. destruct o1, o2. cbn in *.
  simplify_eq. reflexivity.
Qed.

(** Every field of the merged options, read back from the merge of the
    merge. *)
Lemma merge_twice_field (b : Builder) (base o1 o2 : Options)
    (flags1 flags1' flags2 flags2' : flagCalls) (c : Config) :
  dynamicConfig b = Some c ->
  update b base flags1 = Some (o1, flags1') ->
  update b o1 flags2 = Some (o2, flags2') ->
  forall f : ProfileField, stored f o2 = stored f o1.
Proof.
  intros Hc H1 H2 f.
  destruct (merged_field ParseFloat ParseDuration GiB b base flags1 c Hc)
    as (o1' & f1 & Hup1 & Hfield1).
  destruct (merged_field ParseFloat ParseDuration GiB b o1 flags2 c Hc)
    as (o2' & f2 & Hup2 & Hfield2).
  rewrite H1 in Hup1. rewrite H2 in Hup2.
  injection Hup1 as <- _. injection Hup2 as <- _.
  rewrite Hfield2, Hfield1.
  destruct (bool_decide _); reflexivity.
Qed.

(** X11.  The merge is idempotent on the options: merging the same profile
    into the merged options changes nothing. *)
Theorem merge_idempotent (b : Builder) (base o1 : Options)
    (flags1 flags1' flags2 : flagCalls) (c : Config) :
  dynamicConfig b = Some c ->
  update b base flags1 = Some (o1, flags1') ->
  exists flags2', update b o1 flags2 = Some (o1, flags2').
Proof.
  intros Hc H1.
  destruct (merged_field ParseFloat ParseDuration GiB b o1 flags2 c Hc)
    as (o2 & flags2' & H2 & _).
  exists flags2'. rewrite H2. f_equal. f_equal.
  pose proof (merge_twice_field b base o1 o2 _ _ _ _ c Hc H1 H2) as Hf.
  destruct (merged_other_fields b base flags1 c o1 flags1' Hc H1)
    as (A1 & A2 & A3 & A4 & A5).
  destruct (merged_other_fields b o1 flags2 c o2 flags2' Hc H2)
    as (B1 & B2 & B3 & B4 & B5).
  apply options_ext.
  - exact B1.
  - apply defaults_ext.
    + pose proof (Hf FScaleDownUnneededTime) as H. injection H as H. exact H.
    + pose proof (Hf FScaleDownUnreadyTime) as H. injection H as H. exact H.
    + pose proof (Hf FScaleDownUtilizationThreshold) as H. injection H as H. exact H.
  - rewrite B5, A5. destruct (bool_decide _); reflexivity.
  - exact B2.
  - exact B3.
  - exact B4.
  - exact Hf.
Qed.

End WithParsers.

End profile_more.

(** ** The builder, continued *)

Module build_more.

Import dynamic core profile_more.

Section WithCollaborators.

Context {float64 CloudProviderT StrategyT AutoscalerT CollaboratorsT : Type}.
Variable ParseFloat : string -> float64 * error.
Variable ParseDuration : string -> Duration * error.
Variable GiB : Z.
Variable NewCloudProvider : @AutoscalingOptions float64 -> CollaboratorsT -> CloudProviderT.
Variable expanderFactoryBuild :
  CloudProviderT -> CollaboratorsT -> string -> string -> string ->
  list string -> result StrategyT.
Variable NewStaticAutoscaler :
  @AutoscalingOptions float64 -> CollaboratorsT -> CloudProviderT -> StrategyT ->
  AutoscalerT.
Variable jsonMarshal : gmap string string -> string.

Local Abbreviation Builder :=
  (@AutoscalerBuilderImpl float64 CloudProviderT StrategyT CollaboratorsT).
Local Abbreviation update :=
  (@updateAutoScalerProfile float64 ParseFloat ParseDuration GiB
     CloudProviderT StrategyT CollaboratorsT).
Local Abbreviation build :=
  (@Build float64 ParseFloat ParseDuration GiB CloudProviderT StrategyT
     AutoscalerT CollaboratorsT NewCloudProvider expanderFactoryBuild
     NewStaticAutoscaler jsonMarshal).

Lemma Build_frame (b : Builder) (flags : flagCalls) :
  autoscalingOptions (build b flags).1.2 = autoscalingOptions b /\
  dynamicConfig (build b flags).1.2 = dynamicConfig b /\
  collaborators (build b flags).1.2 = collaborators b /\
  (build b flags).1.1.2 = None.
Proof.
  unfold Build. destruct (dynamicConfig b) as [c|] eqn:Hc.
  - destruct (default _ _) as [options flags'].
    destruct (expanderFactoryBuild _ _ _ _ _ _); cbn; auto.
  - cbn. auto.
Qed.

(** X12.  [Build] keeps what a later rebuild starts from: the startup options,
    the dynamic config and the other collaborators stored in the builder
    are never changed and no error is returned.  On a builder without a
    dynamic config it changes nothing at all, writes no flag, and builds
    the autoscaler from the startup options, the stored cloud provider
    and the stored expander strategy. *)
Theorem Build_keeps_base (b : Builder) (flags : flagCalls) :
  autoscalingOptions (build b flags).1.2 = autoscalingOptions b /\
  dynamicConfig (build b flags).1.2 = dynamicConfig b /\
  collaborators (build b flags).1.2 = collaborators b /\
  (build b flags).1.1.2 = None /\
  (dynamicConfig b = None ->
   build b flags =
     ((NewStaticAutoscaler (autoscalingOptions b) (collaborators b)
         (CloudProvider b) (ExpanderStrategy b), None), b, flags)).
Proof.
  destruct (Build_frame b flags) as (H1 & H2 & H3 & H4).
  repeat split; try assumption.
  intros Hnil. unfold Build. rewrite Hnil. reflexivity.
Qed.

(** X13.  A successful rebuild: on a configured builder, when the expander
    factory's build succeeds, the autoscaler returned is made from the
    merged options, the cloud provider rebuilt from them and the new
    expander strategy, both of which are stored in the builder; and the
    node groups of those options are the spec strings of the dynamic
    config. *)
Theorem Build_configured (b : Builder) (flags : flagCalls) (c : Config)
    (strategy : StrategyT) :
  dynamicConfig b = Some c ->
  exists options',
    update b (setNodeGroups (Some (NodeGroupSpecStrings jsonMarshal c))
                (autoscalingOptions b)) flags
    = Some (options', (flags ++ wiring.flagWrites (AutoScalerProfileOf c))%list) /\
    NodeGroupsOpt options' = Some (NodeGroupSpecStrings jsonMarshal c) /\
    (expanderFactoryBuild (NewCloudProvider options' (collaborators b))
       (collaborators b) (ConfigNamespace options') (GRPCExpanderCert options')
       (GRPCExpanderURL options') (strings.Split "," (ExpanderNames options'))
     = Ok strategy ->
     build b flags =
       ((NewStaticAutoscaler options' (collaborators b)
           (NewCloudProvider options' (collaborators b)) strategy, None),
        {| autoscalingOptions := autoscalingOptions b;
           dynamicConfig := dynamicConfig b;
           CloudProvider := NewCloudProvider options' (collaborators b);
           ExpanderStrategy := strategy;
           collaborators := collaborators b |},
        (flags ++ wiring.flagWrites (AutoScalerProfileOf c))%list)).
Proof.
  intros Hc.
  destruct (profile_facts.merged_field ParseFloat ParseDuration GiB b
              (setNodeGroups (Some (NodeGroupSpecStrings jsonMarshal c))
                 (autoscalingOptions b)) flags c Hc)
    as (options' & flags' & Hup & _).
  rewrite (merged_flags ParseFloat ParseDuration GiB b _ flags c options'
             flags' Hc Hup) in Hup.
  exists options'. split; [exact Hup|]. split.
  - destruct (merged_other_fields ParseFloat ParseDuration GiB b _ flags c
                options' _ Hc Hup) as (Hng & _).
    rewrite Hng. reflexivity.
  - intros Hexp. unfold Build. rewrite Hc.
    change (update (setCloudProvider ?cp b) ?o ?f) with (update b o f).
    rewrite Hup. cbn -[strings.Split]. rewrite Hexp.
    unfold setExpanderStrategy, setCloudProvider. cbn. rewrite ?Hc. reflexivity.
Qed.

End WithCollaborators.

End build_more.

(** ** The dynamic autoscaler, continued *)

Module dynamic_autoscaler_more.

Import dynamic core.

Section WithInterfaces.

Context {AutoscalerT BuilderT FetcherT TimeT : Type}.
Variable startResult : AutoscalerT -> error.
Variable runOnceResult : AutoscalerT -> TimeT -> error.
Variable builderSetDynamicConfig : Config -> BuilderT -> BuilderT.
Variable builderBuild : BuilderT -> (AutoscalerT * error) * BuilderT.
Variable fetcherFetchConfigIfUpdated : FetcherT -> result (option Config) * FetcherT.

Local Abbreviation reconfigure :=
  (@Reconfigure AutoscalerT BuilderT FetcherT TimeT startResult
     builderSetDynamicConfig builderBuild fetcherFetchConfigIfUpdated).
Local Abbreviation runOnce :=
  (RunOnce startResult runOnceResult builderSetDynamicConfig builderBuild
     fetcherFetchConfigIfUpdated).

(** X14.  A successful reconfiguration: when the fetcher returns a new config
    and the build succeeds, the old autoscaler is cleaned up first, then
    the new one replaces it and is started.  If the start succeeds,
    [Reconfigure] returns nil and [RunOnce] runs the iteration on the new
    autoscaler; if the start fails, the process is terminated. *)
Theorem Reconfigure_replaces_autoscaler
    (a : DynamicAutoscaler) (currentTime : TimeT) (tr : @trace AutoscalerT TimeT)
    (newConfig : Config) (fetcher' : FetcherT) (newAutoscaler : AutoscalerT)
    (builder' : BuilderT) :
  fetcherFetchConfigIfUpdated (configFetcher a) = (Ok (Some newConfig), fetcher') ->
  builderBuild (builderSetDynamicConfig newConfig (autoscalerBuilder a))
  = ((newAutoscaler, None), builder') ->
  let a' := {| autoscaler := newAutoscaler; autoscalerBuilder := builder';
               configFetcher := fetcher' |} in
  let tr' := (tr ++ [EvExitCleanUp (autoscaler a); EvStart newAutoscaler])%list in
  (startResult newAutoscaler = None ->
   reconfigure a tr = (Returned None, a', tr') /\
   runOnce a currentTime tr
   = (Returned (runOnceResult newAutoscaler currentTime), a',
      (tr ++ [EvMetricsLastTime; EvExitCleanUp (autoscaler a);
              EvStart newAutoscaler; EvMetricsDuration;
              EvRunOnce newAutoscaler currentTime])%list)) /\
  (forall e, startResult newAutoscaler = Some e ->
     reconfigure a tr
     = (Fatal ("Failed to start autoscaler background components: " +:+ e),
        a', tr')).
Proof.
  intros Hfetch Hbuild a' tr'.
  assert (Hrec : forall tr0 : @trace AutoscalerT TimeT,
            reconfigure a tr0
            = (match startResult newAutoscaler with
               | Some e => Fatal ("Failed to start autoscaler background components: " +:+ e)
               | None => Returned None
               end, a',
               (tr0 ++ [EvExitCleanUp (autoscaler a); EvStart newAutoscaler])%list)).
  { intros tr0. unfold Reconfigure, ExitCleanUp. rewrite Hfetch.
    cbn [autoscalerBuilder autoscaler configFetcher]. rewrite Hbuild.
    cbn [autoscaler]. rewrite <- app_assoc.
    destruct (startResult newAutoscaler); reflexivity. }
  split.
  - intros Hstart. split.
    + rewrite Hrec, Hstart. reflexivity.
    + unfold RunOnce. rewrite Hrec, Hstart. cbn [autoscaler a'].
      rewrite <- !app_assoc. reflexivity.
  - intros e Hstart. rewrite Hrec, Hstart. reflexivity.
Qed.

(** X15.  Whatever the fetcher and the builder do, [RunOnce] either returns
    the result of the iteration of the autoscaler it holds afterwards,
    that iteration being the last thing it did, and no error of the
    reconfiguration becomes the result of the tick; or the process is
    terminated, which happens only when a new config was fetched and the
    autoscaler built for it failed to start. *)
Theorem RunOnce_runs_held_autoscaler
    (a : DynamicAutoscaler) (currentTime : TimeT) (tr : @trace AutoscalerT TimeT) :
  match runOnce a currentTime tr with
  | (Returned res, a', tr') =>
      res = runOnceResult (autoscaler a') currentTime /\
      last tr' = Some (EvRunOnce (autoscaler a') currentTime)
  | (Fatal _, a', _) =>
      (exists newConfig,
         (fetcherFetchConfigIfUpdated (configFetcher a)).1 = Ok (Some newConfig)) /\
      startResult (autoscaler a') <> None
  end.
Proof.
  unfold RunOnce, Reconfigure.
  destruct (fetcherFetchConfigIfUpdated (configFetcher a)) as [[[c|]|e] fetcher'];
    cbn [autoscaler autoscalerBuilder configFetcher fst].
  - destruct (builderBuild _) as [[newA [e|]] builder'].
    + cbn [autoscaler]. split; [reflexivity | apply last_snoc].
    + cbn [autoscaler]. destruct (startResult newA) as [e|] eqn:Hs.
      * split; [eauto | cbn [autoscaler]; congruence].
      * cbn [autoscaler]. split; [reflexivity | apply last_snoc].
  - split; [reflexivity | apply last_snoc].
  - split; [reflexivity | apply last_snoc].
Qed.

End WithInterfaces.

End dynamic_autoscaler_more.

(** ** The reload cycle with the repository's own fetcher and builder *)

Module reload_facts.

Import dynamic core fetch_runs wiring.

Section Reload.

Context {float64 CloudProviderT StrategyT AutoscalerT CollaboratorsT TimeT : Type}.
Variable ParseFloat : string -> float64 * error.
Variable ParseDuration : string -> Duration * error.
Variable GiB : Z.
Variable NewCloudProvider : @AutoscalingOptions float64 -> CollaboratorsT -> CloudProviderT.
Variable expanderFactoryBuild :
  CloudProviderT -> CollaboratorsT -> string -> string -> string ->
  list string -> result StrategyT.
Variable NewStaticAutoscaler :
  @AutoscalingOptions float64 -> CollaboratorsT -> CloudProviderT -> StrategyT ->
  AutoscalerT.
Variable jsonMarshal : gmap string string -> string.
Variable yamlDecode : string -> result Config.
Variable os : nat -> FileIO.
Variable startResult : AutoscalerT -> error.
Variable runOnceResult : AutoscalerT -> TimeT -> error.

Local Abbreviation buildIt :=
  (implBuild ParseFloat ParseDuration GiB NewCloudProvider expanderFactoryBuild
     NewStaticAutoscaler jsonMarshal).
Local Abbreviation fetchIt := (implFetchConfigIfUpdated yamlDecode os).
Local Abbreviation tick :=
  (@RunOnce AutoscalerT (@BuilderState float64 CloudProviderT StrategyT CollaboratorsT)
     FetcherState TimeT startResult runOnceResult
     implSetDynamicConfig buildIt fetchIt).

Lemma buildIt_frame (b : @BuilderState float64 CloudProviderT StrategyT CollaboratorsT) :
  (buildIt b).1.2 = None /\
  dynamicConfig (buildIt b).2.1 = dynamicConfig b.1 /\
  autoscalingOptions (buildIt b).2.1 = autoscalingOptions b.1.
Proof.
  unfold implBuild.
  destruct (build_more.Build_frame ParseFloat ParseDuration GiB NewCloudProvider
              expanderFactoryBuild NewStaticAutoscaler jsonMarshal b.1 b.2)
    as (H1 & H2 & _ & H4).
  destruct (Build _ _ _ _ _ _ _ b.1 b.2) as [[r b'] flags']. cbn in *. auto.
Qed.

(** X16.  The autoscaler keeps running on its last good configuration: when
    the config file cannot be opened, decoded, validated or closed, or
    holds the config already accepted, a tick leaves the autoscaler, the
    builder and the fetcher's baseline as they were, cleans up and starts
    nothing, logs the fetch error if there was one, and returns the
    result of the held autoscaler's iteration. *)
Theorem tick_keeps_last_good_config
    (a : DynamicAutoscaler) (currentTime : TimeT) (tr : @trace AutoscalerT TimeT) :
  let cf := (configFetcher a).1 in
  let n := (configFetcher a).2 in
  succeeds yamlDecode (os n) = false \/
  readsConfig yamlDecode (os n) (previousConfiguration cf) ->
  exists logged,
    tick a currentTime tr
    = (Returned (runOnceResult (autoscaler a) currentTime),
       {| autoscaler := autoscaler a;
          autoscalerBuilder := autoscalerBuilder a;
          configFetcher := (cf, S n) |},
       (tr ++ [EvMetricsLastTime] ++ logged
           ++ [EvMetricsDuration; EvRunOnce (autoscaler a) currentTime])%list) /\
    (logged = [] \/ exists msg, logged = [EvLogError msg]).
Proof.
  intros cf n. subst cf n. destruct a as [held builder [cf n]].
  cbn [configFetcher autoscaler autoscalerBuilder fst snd]. intros H.
  unfold RunOnce, Reconfigure, implFetchConfigIfUpdated.
  cbn [configFetcher autoscaler autoscalerBuilder fst snd].
  destruct H as [Hbad|Hsame].
  - destruct (fetcher_more.fetch_not_succeeds yamlDecode cf (os n) Hbad)
      as [Herr Hcf].
    destruct (FetchConfigIfUpdated yamlDecode cf (os n)) as [r cf'].
    cbn [fst snd] in Herr, Hcf. subst cf'.
    destruct r as [r|e]; [discriminate|].
    eexists [EvLogError _]. split; [|eauto].
    cbn. rewrite <- !app_assoc. reflexivity.
  - rewrite (fetcher_facts.fetch_reads yamlDecode cf (os n) _ Hsame).
    rewrite bool_decide_eq_true_2 by reflexivity.
    exists []. split; [|auto].
    cbn. rewrite <- !app_assoc. reflexivity.
Qed.

(** X17.  A new valid config is applied in one tick: when the file holds a
    validated config that differs from the baseline and the rebuilt
    autoscaler starts, the tick cleans up the old autoscaler, makes the
    config the fetcher's baseline and the builder's dynamic config,
    replaces the autoscaler by the one [Build] makes for that config,
    starts it and runs the iteration on it; the builder's startup options
    stay as they were. *)
Theorem tick_applies_new_config
    (a : DynamicAutoscaler) (currentTime : TimeT) (tr : @trace AutoscalerT TimeT)
    (c : Config) :
  let cf := (configFetcher a).1 in
  let n := (configFetcher a).2 in
  let built := buildIt (implSetDynamicConfig c (autoscalerBuilder a)) in
  readsConfig yamlDecode (os n) c ->
  c <> previousConfiguration cf ->
  startResult built.1.1 = None ->
  tick a currentTime tr
  = (Returned (runOnceResult built.1.1 currentTime),
     {| autoscaler := built.1.1;
        autoscalerBuilder := built.2;
        configFetcher := ({| path := path cf; previousConfiguration := c |}, S n) |},
     (tr ++ [EvMetricsLastTime; EvExitCleanUp (autoscaler a); EvStart built.1.1;
             EvMetricsDuration; EvRunOnce built.1.1 currentTime])%list) /\
  dynamicConfig built.2.1 = Some c /\
  autoscalingOptions built.2.1 = autoscalingOptions (autoscalerBuilder a).1.
Proof.
  intros cf n built. subst cf n built. destruct a as [held builder [cf n]].
  cbn [configFetcher autoscaler autoscalerBuilder fst snd].
  intros Hreads Hne Hstart.
  destruct (buildIt_frame (implSetDynamicConfig c builder)) as (Herr & Hdc & Hopts).
  split; [|split; assumption].
  unfold RunOnce, Reconfigure, ExitCleanUp, implFetchConfigIfUpdated.
  cbn [configFetcher autoscaler autoscalerBuilder fst snd].
  rewrite (fetcher_facts.fetch_reads yamlDecode cf (os n) c Hreads).
  rewrite bool_decide_eq_false_2 by assumption.
  cbn [autoscaler autoscalerBuilder configFetcher].
  destruct (buildIt (implSetDynamicConfig c builder)) as [[newA e] builder'].
  cbn [fst snd] in *. subst e. rewrite Hstart. cbn [autoscaler].
  rewrite <- !app_assoc. reflexivity.
Qed.

(** X18.  With the repository's own builder, [NewDynamicAutoscaler] never
    returns an error: it always gives a dynamic autoscaler that holds the
    autoscaler [Build] made, the fetcher it was given, and a builder whose
    startup options and dynamic config are those of the builder it was
    given. *)
Theorem NewDynamicAutoscaler_never_fails
    (b : @BuilderState float64 CloudProviderT StrategyT CollaboratorsT)
    (f : FetcherState) :
  exists a : DynamicAutoscaler,
    NewDynamicAutoscaler buildIt b f = Ok a /\
    autoscaler a = (buildIt b).1.1 /\
    configFetcher a = f /\
    dynamicConfig (autoscalerBuilder a).1 = dynamicConfig b.1 /\
    autoscalingOptions (autoscalerBuilder a).1 = autoscalingOptions b.1.
Proof.
  destruct (buildIt_frame b) as (Herr & Hdc & Hopts).
  unfold NewDynamicAutoscaler.
  destruct (buildIt b) as [[newA e] builder']. cbn [fst snd] in *. subst e.
  eexists. split; [reflexivity|]. cbn. auto.
Qed.

End Reload.

End reload_facts.

(** ** Errors of the Azure clients *)

Module azure_errors_facts.

Import strings_search azure_errors.

Section WithJSON.

Variable jsonUnmarshalRawError : string -> result ServiceRawError.

Local Abbreviation convert := (azureToAutoscalerError jsonUnmarshalRawError).

Lemma getOperationNotAllowedReason_cases (se : ServiceError) :
  getOperationNotAllowedReason se = QuotaExceeded \/
  getOperationNotAllowedReason se = OperationNotAllowed.
Proof.
  unfold getOperationNotAllowedReason. destruct (Contains _ _); auto.
Qed.


End WithJSON.

End azure_errors_facts.

(** ** Taints of a node template *)

Module azure_template_facts.

Import dynamic strings strings_search strings_facts azure_template.

Lemma Split_nonempty (sep : ascii) (s : string) : Split sep s <> [].
Proof.
  destruct s as [|c s]; cbn; [discriminate|].
  destruct (Ascii.eqb c sep); [discriminate|].
  destruct (Split sep s); discriminate.
Qed.

Lemma Split_one (sep : ascii) (s b : string) : Split sep s = [b] -> s = b.
Proof.
  revert b. induction s as [|c s IH]; cbn; intros b H.
  - congruence.
  - destruct (Ascii.eqb c sep).
    + injection H as _ H. exfalso. exact (Split_nonempty sep s H).
    + destruct (Split sep s) as [|h t] eqn:Hs;
        [exfalso; exact (Split_nonempty sep s Hs)|].
      injection H as <- ->. rewrite (IH h eq_refl). reflexivity.
Qed.

Lemma Split_two (sep : ascii) (s a b : string) :
  Split sep s = [a; b] -> s = a +:+ String sep b.
Proof.
  revert a. induction s as [|c s IH]; cbn; intros a H; [discriminate|].
  destruct (Ascii.eqb c sep) eqn:Hc.
  - apply Ascii.eqb_eq in Hc as ->. injection H as <- H.
    apply Split_one in H as ->. reflexivity.
  - destruct (Split sep s) as [|h t] eqn:Hs; [discriminate|].
    injection H as <- ->. rewrite (IH h eq_refl). reflexivity.
Qed.

Lemma HasPrefix_colon (s w : string) :
  HasPrefix s (String ":" w) = true -> contains ":" s = true.
Proof.
  destruct s as [|c s]; cbn; [discriminate|].
  intros H. apply andb_prop in H as [-> _]. reflexivity.
Qed.

Lemma Contains_colon (s w : string) :
  Contains s (String ":" w) = true -> contains ":" s = true.
Proof.
  induction s as [|c s IH]; intros H.
  - cbn in H. discriminate.
  - cbn [Contains] in H. apply orb_prop in H as [H|H].
    + exact (HasPrefix_colon _ _ H).
    + cbn. rewrite (IH H). apply orb_true_r.
Qed.

Lemma taintPattern_colon (s : string) :
  taintPattern s = true -> contains ":" s = true.
Proof.
  unfold taintPattern. intros H.
  apply orb_prop in H as [H|H]; [apply orb_prop in H as [H|H]|];
    exact (Contains_colon _ _ H).
Qed.

Lemma cut_found (sep : ascii) (s : string) :
  contains sep s = true -> exists h r, cut sep s = (h, Some r).
Proof.
  induction s as [|c s IH]; cbn; [discriminate|].
  destruct (Ascii.eqb c sep); [eauto|]. cbn. intros H.
  destruct (IH H) as (h & r & ->). eauto.
Qed.

Lemma collectTaints_sound (splits : list string) :
  forall acc,
    exists taints,
      collectTaints splits acc = Some (acc ++ taints)%list /\
      (length taints <= length splits)%nat /\
      Forall (fun t => exists entry, entry ∈ splits /\ readFrom entry t) taints.
Proof.
  induction splits as [|split rest IH]; intros acc.
  - exists []. cbn. rewrite app_nil_r. auto.
  - cbn [collectTaints].
    assert (Hskip : exists taints,
               collectTaints rest acc = Some (acc ++ taints)%list /\
               (length taints <= length (split :: rest))%nat /\
               Forall (fun t => exists entry,
                                  entry ∈ split :: rest /\ readFrom entry t) taints).
    { destruct (IH acc) as (taints & Hc & Hlen & Hall). exists taints.
      split; [exact Hc|]. split; [cbn; lia|].
      eapply Forall_impl; [exact Hall|]. intros t (entry & Hin & Hr).
      exists entry. split; [right; exact Hin | exact Hr]. }
    destruct (Split "=" split) as [|k [|v [|? ?]]] eqn:Hsplit; try exact Hskip.
    destruct (taintPattern v) eqn:Hpat; cbn [negb]; [|exact Hskip].
    pose proof (Split_pieces_free "=" split) as Hfree. rewrite Hsplit in Hfree.
    inversion Hfree as [|? ? Hk _]; subst.
    apply Split_two in Hsplit.
    destruct (cut_found ":" v (taintPattern_colon v Hpat)) as (v0 & v1 & Hcut).
    cbn [SplitN]. rewrite Hcut. cbn [lookup list_lookup].
    change ([v0; v1] !! 0%nat) with (Some v0).
    change ([v0; v1] !! 1%nat) with (Some v1). cbn iota.
    apply cut_some in Hcut as [Hv Hv0].
    destruct (IH (acc ++ [mkTaint k v0 v1])%list) as (taints & Hc & Hlen & Hall).
    exists (mkTaint k v0 v1 :: taints). split; [|split].
    + rewrite Hc, <- app_assoc. reflexivity.
    + cbn. lia.
    + constructor.
      * exists split. split; [left|].
        unfold readFrom. cbn [Key Value Effect]. rewrite Hsplit, Hv in *.
        repeat split; assumption || reflexivity.
      * eapply Forall_impl; [exact Hall|]. intros t (entry & Hin & Hr).
        exists entry. split; [right; exact Hin | exact Hr].
Qed.

(** X20.  [extractTaintsFromSpecString] never indexes out of range, whatever
    the text, and every taint it returns was read from one of the
    comma-separated pieces of the text: the piece is
    [key=value:effect] for the taint's key, value and effect, the key has
    no equals sign, the value no colon, and [value:effect] matches the
    taint pattern.  There are at most as many taints as pieces. *)
Theorem extractTaintsFromSpecString_sound (taintsString : string) :
  exists taints,
    extractTaintsFromSpecString taintsString = Some taints /\
    (length taints <= length (Split "," taintsString))%nat /\
    Forall (fun t =>
              exists entry,
                entry ∈ Split "," taintsString /\
                entry = Key t +:+ "=" +:+ Value t +:+ ":" +:+ Effect t /\
                contains "=" (Key t) = false /\ contains ":" (Value t) = false /\
                taintPattern (Value t +:+ ":" +:+ Effect t) = true)
           taints.
Proof.
  destruct (collectTaints_sound (Split "," taintsString) [])
    as (taints & Hc & Hlen & Hall).
  exists taints. split; [exact Hc|]. split; [exact Hlen|exact Hall].
Qed.

Lemma contains_app (sep : ascii) (a b : string) :
  contains sep (a +:+ b) = contains sep a || contains sep b.
Proof.
  induction a as [|c a IH]; rewrite ?append_nil, ?append_cons; cbn; [reflexivity|].
  rewrite IH, orb_assoc. reflexivity.
Qed.

Lemma Contains_app_r (a b w : string) :
  Contains b w = true -> Contains (a +:+ b) w = true.
Proof.
  intros H. induction a as [|c a IH]; rewrite ?append_nil, ?append_cons; [exact H|].
  cbn [Contains]. rewrite IH. apply orb_true_r.
Qed.

Lemma Split_Join (sep : ascii) (p : string) (ps : list string) :
  Forall (fun q => contains sep q = false) (p :: ps) ->
  Split sep (Join (p :: ps) (String sep EmptyString)) = p :: ps.
Proof.
  revert p. induction ps as [|q ps IH]; intros p H.
  - inversion H; subst. cbn [Join]. apply Split_free. assumption.
  - inversion H as [|? ? Hp Hrest]; subst.
    change (Join (p :: q :: ps) (String sep EmptyString))
      with (p +:+ String sep EmptyString +:+ Join (q :: ps) (String sep EmptyString)).
    rewrite append_sep, (Split_app _ _ _ Hp), (IH q Hrest). reflexivity.
Qed.

Lemma writable_effect (t : Taint) :
  writable t ->
  contains "=" (Effect t) = false /\ contains "," (Effect t) = false /\
  taintPattern (Value t +:+ ":" +:+ Effect t) = true.
Proof.
  intros (_ & _ & _ & _ & _ & He). unfold taintPattern.
  destruct He as [-> | [-> | ->]]; repeat split; try reflexivity.
  - change (Value t +:+ ":" +:+ "NoSchedule") with (Value t +:+ ":NoSchedule").
    rewrite (Contains_app_r (Value t) ":NoSchedule" ":NoSchedule"); reflexivity.
  - change (Value t +:+ ":" +:+ "NoExecute") with (Value t +:+ ":NoExecute").
    rewrite (Contains_app_r (Value t) ":NoExecute" ":NoExecute"), ?orb_true_r;
      reflexivity.
  - change (Value t +:+ ":" +:+ "PreferNoSchedule")
      with (Value t +:+ ":PreferNoSchedule").
    rewrite (Contains_app_r (Value t) ":PreferNoSchedule" ":PreferNoSchedule"),
      ?orb_true_r; reflexivity.
Qed.

Lemma taintString_no_comma (t : Taint) :
  writable t -> contains "," (taintString t) = false.
Proof.
  intros Hw. destruct (writable_effect t Hw) as (_ & He & _).
  destruct Hw as (_ & Hk & _ & _ & Hv & _).
  unfold taintString. rewrite !contains_app, Hk, Hv, He. reflexivity.
Qed.

Lemma collectTaints_complete (ts : list Taint) :
  Forall writable ts ->
  forall acc, collectTaints (map taintString ts) acc = Some (acc ++ ts)%list.
Proof.
  induction 1 as [|t ts Hw _ IH]; intros acc; cbn [map collectTaints].
  - rewrite app_nil_r. reflexivity.
  - destruct (writable_effect t Hw) as (He & _ & Hpat).
    destruct Hw as (Hk & _ & Hv & Hc & _ & _).
    assert (Hsplit : Split "=" (taintString t)
                     = [Key t; Value t +:+ ":" +:+ Effect t]).
    { unfold taintString. rewrite append_sep, (Split_app _ _ _ Hk).
      rewrite Split_free; [reflexivity|].
      rewrite !contains_app, Hv, He. reflexivity. }
    rewrite Hsplit, Hpat. cbn [negb].
    rewrite append_sep. cbn [SplitN]. rewrite (cut_app _ _ _ Hc).
    change ([Value t; Effect t] !! 0%nat) with (Some (Value t)).
    change ([Value t; Effect t] !! 1%nat) with (Some (Effect t)). cbn iota.
    rewrite IH, <- app_assoc. destruct t; reflexivity.
Qed.

(** X21.  Reading back what was written: for taints whose keys and values hold
    none of the separators of the form and whose effect is NoSchedule,
    NoExecute or PreferNoSchedule, [extractTaintsFromSpecString] reads
    the comma-joined [key=value:effect] texts back to the same taints in
    the same order. *)
Theorem extractTaintsFromSpecString_reads_back (ts : list Taint) :
  Forall writable ts ->
  extractTaintsFromSpecString (Join (map taintString ts) ",") = Some ts.
Proof.
  intros Hw. unfold extractTaintsFromSpecString.
  destruct ts as [|t ts]; [reflexivity|].
  cbn [map]. rewrite Split_Join.
  - exact (collectTaints_complete (t :: ts) Hw []).
  - change (taintString t :: map taintString ts) with (map taintString (t :: ts)).
    apply Forall_map. eapply Forall_impl; [exact Hw|].
    intros t0. apply taintString_no_comma.
Qed.

End azure_template_facts.

(** ** The further properties on examples *)

Module more_examples.

Import dynamic core examples examples_more wiring fetch_runs.

Lemma parsed_spec_is_valid_witness :
  Validate (poolSpec (Some ∅)) = None /\ Name (poolSpec (Some ∅)) <> "".
Proof.
  destruct (spec_more.parsed_spec_is_valid jsonUnmarshal
              "1:50:Delete:aks-nodepool-83823-vmss:{}|" true (poolSpec (Some ∅)))
    as (Hv & _ & _ & _ & Hname & _).
  - vm_compute. reflexivity.
  - split; assumption.
Defined.

Lemma policy_string_round_trip_witness :
  SpecFromPolicyString "1:50:Delete:aks-nodepool-83823-vmss" true
  = Ok (poolSpec None).
Proof.
  apply (spec_more.policy_string_round_trip (poolSpec None)).
  - reflexivity.
  - vm_compute. split; discriminate.
  - vm_compute. split; discriminate.
  - left. reflexivity.
  - reflexivity.
  - reflexivity.
Defined.

Lemma print_then_parse_witness :
  SpecFromStringWithLabelsAndTaints jsonUnmarshal
    (StringWithLabelsAndTaints jsonMarshal (poolSpec None)) true
  = Ok (poolSpec (Some ∅)).
Proof.
  apply (spec_more.print_then_parse jsonMarshal jsonUnmarshal (poolSpec None)).
  - reflexivity.
  - vm_compute. split; discriminate.
  - vm_compute. split; discriminate.
  - left. reflexivity.
  - reflexivity.
  - reflexivity.
  - vm_compute. reflexivity.
  - vm_compute. reflexivity.
Defined.

Lemma NodeGroupSpecStrings_pointwise_witness :
  NodeGroupSpecStrings jsonMarshal configOneGroup !! 0%nat
  = Some (StringWithLabelsAndTaints jsonMarshal
            (group "aks-nodepool1-24160808-vmss" 1 100 Delete)).
Proof.
  apply (proj2 (proj2 (spec_more.NodeGroupSpecStrings_pointwise jsonMarshal
                         configOneGroup))).
  reflexivity.
Defined.

Lemma parsed_groups_validate_witness :
  validate (mkConfig (Some [poolSpec (Some ∅)]) zeroProfile) = None.
Proof.
  apply (spec_more.parsed_groups_validate jsonUnmarshal
           [("1:50:Delete:aks-nodepool-83823-vmss:{}|", true)]).
  constructor; [vm_compute; reflexivity | constructor].
Defined.

Lemma BuildConfig_accepts_valid_only_witness :
  BuildConfig yamlDecode "one group" = Ok configOneGroup.
Proof.
  apply (proj1 (fetcher_more.BuildConfig_accepts_valid_only yamlDecode "one group")
           configOneGroup).
  split; [reflexivity|].
  repeat constructor; [discriminate | vm_compute; discriminate].
Defined.

Lemma fetcher_baseline_always_valid_witness :
  validate (previousConfiguration
              (fetchAll yamlDecode (NewConfigFetcher "/etc/autoscaler/config")
                 [okIO "one group"; missingIO; okIO "{}"]).2) = None.
Proof.
  apply (fetcher_more.fetcher_baseline_always_valid yamlDecode
           "/etc/autoscaler/config" [okIO "one group"; missingIO; okIO "{}"]).
Defined.

Lemma failed_fetches_are_transparent_witness :
  (fetchAll yamlDecode (NewConfigFetcher "/etc/autoscaler/config")
     [okIO "one group"; missingIO; okIO "{}"]).2
  = (fetchAll yamlDecode (NewConfigFetcher "/etc/autoscaler/config")
       [okIO "one group"; okIO "{}"]).2.
Proof.
  apply (fetcher_more.failed_fetches_are_transparent yamlDecode
           [okIO "one group"; missingIO; okIO "{}"]
           (NewConfigFetcher "/etc/autoscaler/config")).
Defined.

Local Abbreviation exampleUpdate :=
  (updateAutoScalerProfile ParseFloat ParseDuration GiB).

Lemma empty_fields_keep_options_witness :
  exists o' flags',
    exampleUpdate (builderWith (profileWith "abc" "" "" "" "" "")) baseOptions []
    = Some (o', flags') /\
    MinCoresTotal o' = 0 /\ ExpanderNames o' = "random".
Proof.
  destruct (profile_more.empty_fields_keep_options ParseFloat ParseDuration GiB
              (builderWith (profileWith "abc" "" "" "" "" "")) baseOptions [] _ eq_refl)
    as (o' & flags' & Hup & Hfield & _ & _ & _ & _ & Hexp).
  exists o', flags'. split; [exact Hup|]. split.
  - specialize (Hfield FMinCpu eq_refl). injection Hfield as Hfield. exact Hfield.
  - exact Hexp.
Defined.

Lemma merge_appends_flag_calls_witness :
  exists o',
    exampleUpdate
      (builderWith
         (mkAutoScalerProfile "5m" "" "" "" "" "" "" "" "" "" "" "" "true" "" ""
                              "" "" "" "" "" "" "" "" "" "" "" "" "" "" ""))
      baseOptions [("v", "4")]
    = Some (o', [("v", "4"); ("skip-nodes-with-local-storage", "true");
                 ("scan-interval", "5m")]).
Proof.
  destruct (profile_more.merge_appends_flag_calls ParseFloat ParseDuration GiB
              (builderWith
                 (mkAutoScalerProfile "5m" "" "" "" "" "" "" "" "" "" "" "" "true" "" ""
                                      "" "" "" "" "" "" "" "" "" "" "" "" "" "" ""))
              baseOptions [("v", "4")] _ eq_refl)
    as (o' & Hup & _).
  exists o'. exact Hup.
Defined.

Lemma merge_idempotent_witness :
  let b := builderWith (profileWith "90" "priority" "2" "4" "8" "16") in
  exists o1 flags1 flags2,
    exampleUpdate b baseOptions [] = Some (o1, flags1) /\
    exampleUpdate b o1 [] = Some (o1, flags2).
Proof.
  intros b.
  destruct (exampleUpdate b baseOptions []) as [[o1 flags1]|] eqn:H1;
    [|vm_compute in H1; discriminate].
  destruct (profile_more.merge_idempotent ParseFloat ParseDuration GiB b
              baseOptions o1 [] flags1 [] _ eq_refl H1) as (flags2 & H2).
  exists o1, flags1, flags2. split; [reflexivity | exact H2].
Defined.

Local Abbreviation exampleBuild :=
  (Build ParseFloat ParseDuration GiB NewCloudProvider expanderFactoryBuild
     NewStaticAutoscaler jsonMarshal).

Lemma Build_keeps_base_witness :
  exampleBuild builderUnconfigured [] =
    (((["1:10:pool"], ["random"]), None), builderUnconfigured, []).
Proof.
  apply (build_more.Build_keeps_base ParseFloat ParseDuration GiB NewCloudProvider
           expanderFactoryBuild NewStaticAutoscaler jsonMarshal
           builderUnconfigured []).
  reflexivity.
Defined.

Lemma Build_configured_witness :
  let b := builderWith (profileWith "" "priority,least-waste" "" "" "" "") in
  (exampleBuild b []).1.1.1
  = (["1:100:Delete:aks-nodepool1-24160808-vmss:{}|"], ["priority"; "least-waste"]).
Proof.
  intros b.
  destruct (build_more.Build_configured ParseFloat ParseDuration GiB NewCloudProvider
              expanderFactoryBuild NewStaticAutoscaler jsonMarshal b []
              _ ["priority"; "least-waste"] eq_refl)
    as (options' & Hup & Hng & Hbuild).
  assert (Hnames : ExpanderNames options' = "priority,least-waste").
  { vm_compute in Hup. injection Hup as <-. reflexivity. }
  rewrite Hbuild.
  - cbn [fst]. unfold NewStaticAutoscaler, NewCloudProvider. rewrite Hng.
    reflexivity.
  - rewrite Hnames. reflexivity.
Defined.

Local Abbreviation exampleImplBuild :=
  (implBuild ParseFloat ParseDuration GiB NewCloudProvider expanderFactoryBuild
     NewStaticAutoscaler jsonMarshal).

Lemma Reconfigure_replaces_autoscaler_witness :
  (RunOnce startResult runOnceResult implSetDynamicConfig exampleImplBuild
     (implFetchConfigIfUpdated yamlDecode (always (okIO "one group")))
     dynamicWired 0 []).1.2
  = {| autoscaler :=
         (["1:100:Delete:aks-nodepool1-24160808-vmss:{}|"], ["random"]);
       autoscalerBuilder :=
         (exampleImplBuild (implSetDynamicConfig configOneGroup
                              (builderUnconfigured, []))).2;
       configFetcher :=
         ({| path := "/etc/autoscaler/config";
             previousConfiguration := configOneGroup |}, 1%nat) |}.
Proof.
  edestruct (dynamic_autoscaler_more.Reconfigure_replaces_autoscaler
               startResult runOnceResult implSetDynamicConfig exampleImplBuild
               (implFetchConfigIfUpdated yamlDecode (always (okIO "one group")))
               dynamicWired 0 [] configOneGroup) as [Hok _].
  - vm_compute. reflexivity.
  - vm_compute. reflexivity.
  - destruct (Hok eq_refl) as [_ Hrun]. rewrite Hrun. vm_compute. reflexivity.
Defined.

Lemma tick_keeps_last_good_config_witness :
  exists logged,
    RunOnce startResult runOnceResult implSetDynamicConfig exampleImplBuild
      (implFetchConfigIfUpdated yamlDecode (always missingIO)) dynamicWired 0 []
    = (Returned None,
       {| autoscaler := runningStatic;
          autoscalerBuilder := (builderUnconfigured, []);
          configFetcher := (NewConfigFetcher "/etc/autoscaler/config", 1%nat) |},
       ([EvMetricsLastTime] ++ logged
          ++ [EvMetricsDuration; EvRunOnce runningStatic 0])%list).
Proof.
  destruct (reload_facts.tick_keeps_last_good_config ParseFloat ParseDuration GiB
              NewCloudProvider expanderFactoryBuild NewStaticAutoscaler jsonMarshal
              yamlDecode (always missingIO) startResult runOnceResult
              dynamicWired 0 []) as (logged & Hrun & _).
  - left. reflexivity.
  - exists logged. exact Hrun.
Defined.

Lemma tick_applies_new_config_witness :
  let r := RunOnce startResult runOnceResult implSetDynamicConfig exampleImplBuild
             (implFetchConfigIfUpdated yamlDecode (always (okIO "one group")))
             dynamicWired 0 [] in
  r.1.1 = Returned None /\
  dynamicConfig (autoscalerBuilder r.1.2).1 = Some configOneGroup /\
  (configFetcher r.1.2).1
  = {| path := "/etc/autoscaler/config"; previousConfiguration := configOneGroup |}.
Proof.
  destruct (reload_facts.tick_applies_new_config ParseFloat ParseDuration GiB
              NewCloudProvider expanderFactoryBuild NewStaticAutoscaler jsonMarshal
              yamlDecode (always (okIO "one group")) startResult runOnceResult
              dynamicWired 0 [] configOneGroup)
    as (Hrun & Hdc & _).
  - exists "one group". vm_compute. repeat split.
  - discriminate.
  - reflexivity.
  - cbv zeta. rewrite Hrun. cbn [fst snd autoscalerBuilder configFetcher].
    split; [reflexivity|]. split; [exact Hdc | reflexivity].
Defined.


Lemma extractTaintsFromSpecString_reads_back_witness :
  azure_template.extractTaintsFromSpecString
    "dedicated=foo:NoSchedule,group=bar:NoExecute,app=fizz:PreferNoSchedule"
  = Some exampleTaints.
Proof.
  apply (azure_template_facts.extractTaintsFromSpecString_reads_back exampleTaints).
  unfold exampleTaints, azure_template.writable.
  repeat (constructor; [cbn; tauto|]). constructor.
Defined.

End more_examples.
